(** * Fantasy-football scoring and projection engine: a shallow embedding

    The development follows the Python sources file by file
    ([fantasy_projections.py], [saquon_scorer.py], [td_pattern_analyzer.py],
    [return_yards_analyzer.py], [scoring_final.py], [accuracy_tracking.py]);
    every Rocq module carries the name of the file or class it embeds.

    Numbers.  Python computes with binary floating point.  The embedding
    idealises every number as an exact rational ([Q]); [round(x, 1)] is the
    nearest tenth with exact ties going to the even tenth.  The standard
    deviation of [accuracy_tracking.py] needs a square root and is therefore
    stated over the real numbers.  [NaN] cells of a data frame are [None].
    The results below are stated in the code's own expressions under the
    rounding, or are properties that every rounding to the nearest tenth has
    (it is monotone and keeps 0); no equality between two different ways of
    computing a rounded value is claimed, since binary floating point may
    break such an equality at a decimal tie.

    Text.  A Python [str] is a [string] whose characters are read as code
    points below 256. *)

From stdpp Require Import gmap strings list sorting.
From Stdlib Require Import Reals Zfloor Lra.
From Stdlib Require Import QArith Qabs Qround Lqa.

Local Open Scope Q_scope.

(** ** Python numerics *)

Module Py.

(** [x >= y] on numbers. *)
Definition ge (x y : Q) : bool := Qle_bool y x.

(** [x > y] on numbers. *)
Definition gt (x y : Q) : bool := negb (Qle_bool x y).

(** [x < y] on numbers. *)
Definition lt (x y : Q) : bool := negb (Qle_bool y x).

(** [x == y] on numbers. *)
Definition eqb (x y : Q) : bool := Qeq_bool x y.

(** Comparisons against a cell that may hold [NaN]: always false on [NaN]. *)
Definition cell_ge (c : option Q) (y : Q) : bool :=
  match c with Some x => ge x y | None => false end.

Definition cell_lt (c : option Q) (y : Q) : bool :=
  match c with Some x => lt x y | None => false end.

Definition cell_eqb (c : option Q) (y : Q) : bool :=
  match c with Some x => eqb x y | None => false end.

(** [Series.fillna(0)] on one cell. *)
Definition fillna0 (c : option Q) : Q := default 0 c.

(** Nearest integer, exact ties to the even neighbour. *)
Definition round_half_even (x : Q) : Z :=
  let f := Qfloor x in
  match Qcompare (x - inject_Z f) (1 # 2) with
  | Lt => f
  | Gt => (f + 1)%Z
  | Eq => if Z.even f then f else (f + 1)%Z
  end.

(** [round(x, 1)]. *)
Definition round1 (x : Q) : Q := inject_Z (round_half_even (x * 10)) / 10.

(** [sum(...)] of numbers, left to right from 0. *)
Definition sum (l : list Q) : Q := foldl Qplus 0 l.

(** [len(frame[mask])]: the number of rows selected by a mask. *)
Definition count {A} (p : A -> bool) (l : list A) : Q :=
  inject_Z (Z.of_nat (length (List.filter p l))).

(** Whitespace in the sense of [str.split()] and [str.strip()], for code
    points below 256: tab to carriage return, the four separators 28-31,
    space, next-line (133) and no-break space (160). *)
Definition is_space (c : Ascii.ascii) : bool :=
  let n := Ascii.nat_of_ascii c in
  ((9 <=? n) && (n <=? 13) || (28 <=? n) && (n <=? 32)
   || (n =? 133) || (n =? 160))%nat.

(** [' ' in s]. *)
Fixpoint contains_space (s : string) : bool :=
  match s with
  | EmptyString => false
  | String c rest => Nat.eqb (Ascii.nat_of_ascii c) 32 || contains_space rest
  end.

(** Drop the leading whitespace. *)
Fixpoint lstrip (s : string) : string :=
  match s with
  | EmptyString => EmptyString
  | String c rest => if is_space c then lstrip rest else s
  end.

(** Drop the trailing whitespace. *)
Fixpoint rstrip (s : string) : string :=
  match s with
  | EmptyString => EmptyString
  | String c rest =>
      match rstrip rest with
      | EmptyString => if is_space c then EmptyString else String c EmptyString
      | kept => String c kept
      end
  end.

(** [s.strip()]. *)
Definition strip (s : string) : string := rstrip (lstrip s).

(** [s.split()] with the word being read in [cur]. *)
Fixpoint split_from (cur : string) (s : string) : list string :=
  match s with
  | EmptyString => match cur with EmptyString => [] | _ => [cur] end
  | String c rest =>
      if is_space c then
        match cur with
        | EmptyString => split_from EmptyString rest
        | _ => cur :: split_from EmptyString rest
        end
      else split_from (String.append cur (String c EmptyString)) rest
  end.

(** [s.split()]: the maximal runs of non-whitespace characters. *)
Definition split (s : string) : list string := split_from EmptyString s.

(** [Series.unique()]: the distinct values in order of first appearance. *)
Definition unique (l : list string) : list string :=
  foldl (fun seen x => if bool_decide (x ∈ seen) then seen else seen ++ [x]) [] l.

End Py.

(** A stat record or projection row is the Python dict restricted to its
    numeric entries, a [gmap string Q]. *)

(** [if key in d: score = upd(d[key], score)]. *)
Definition when_present (d : gmap string Q) (key : string)
    (upd : Q -> Q -> Q) (score : Q) : Q :=
  match d !! key with
  | Some v => upd v score
  | None => score
  end.

(** [d.get(key, dflt)]. *)
Definition dict_get (d : gmap string Q) (key : string) (dflt : Q) : Q :=
  default dflt (d !! key).

(** * The data frames of [nfl_data_py]

    Only the columns the sources read are kept.  A cell that can hold [NaN]
    (or [None]) is an [option]. *)

(** One play of the play-by-play frame. *)
Module Pbp.
Record row := {
  season_type : string;
  week : Z;
  touchdown : option Q;
  td_player_name : option string;
  yards_gained : option Q;
  play_type : option string;
  fumbled_1_player_name : option string;
  fumble_lost : option Q;
  field_goal_attempt : option Q;
  kicker_player_name : option string;
  field_goal_result : option string;
  kick_distance : option Q
}.
End Pbp.

(** The weekly frame: its column names, and one row per player-week holding
    the position cell and the numeric cells that are not [NaN]. *)
Module Weekly.
Record row := {
  season_type : string;
  player_name : string;
  week : Z;
  position : option string;
  cells : gmap string Q
}.
Record frame := {
  columns : list string;
  rows : list row
}.
End Weekly.

(** [cell == 'text'] on a cell holding a string or nothing. *)
Definition text_is (c : option string) (s : string) : bool :=
  match c with Some t => String.eqb t s | None => false end.

(** * saquon_scorer.py *)

Module saquon_scorer.
Module FinalLeagueScorer.

(** [self.scoring_rules]: the league's rule table. *)
Record ScoringRules := {
  completion : Q;
  passing_yard : Q;
  passing_td : Q;
  interception : Q;
  sack : Q;
  passing_300_399_bonus : Q;
  passing_400plus_bonus : Q;
  passing_td_40_49_bonus : Q;
  passing_td_50plus_bonus : Q;
  rushing_attempt : Q;
  rushing_yard : Q;
  rushing_td : Q;
  rushing_td_40_49_bonus : Q;
  rushing_td_50plus_bonus : Q;
  rushing_100_199_bonus : Q;
  rushing_200plus_bonus : Q;
  reception : Q;
  receiving_yard : Q;
  receiving_td : Q;
  receiving_td_40_49_bonus : Q;
  receiving_td_50plus_bonus : Q;
  receiving_100_199_bonus : Q;
  receiving_200plus_bonus : Q;
  return_yard : Q;
  return_td : Q;
  fumble_recovered_td : Q;
  fumble_lost : Q;
  two_point_conversion : Q
}.

(** The table built by [__init__]. *)
Definition scoring_rules : ScoringRules := {|
  completion := 1;
  passing_yard := 1 # 25;
  passing_td := 4;
  interception := -2;
  sack := -1;
  passing_300_399_bonus := 3;
  passing_400plus_bonus := 5;
  passing_td_40_49_bonus := 3;
  passing_td_50plus_bonus := 5;
  rushing_attempt := 0.2;
  rushing_yard := 1 # 10;
  rushing_td := 6;
  rushing_td_40_49_bonus := 3;
  rushing_td_50plus_bonus := 5;
  rushing_100_199_bonus := 5;
  rushing_200plus_bonus := 10;
  reception := 1;
  receiving_yard := 1 # 10;
  receiving_td := 6;
  receiving_td_40_49_bonus := 3;
  receiving_td_50plus_bonus := 5;
  receiving_100_199_bonus := 5;
  receiving_200plus_bonus := 10;
  return_yard := 1 # 10;
  return_td := 5;
  fumble_recovered_td := 6;
  fumble_lost := -2;
  two_point_conversion := 2
|}.

(** [get_weekly_yardage_bonuses]: the bonus component of the returned pair
    (the second component is a report of the tiers that fired). *)
Definition get_weekly_yardage_bonuses (rushing_yards receiving_yards : Q) : Q :=
  let bonus := 0 in
  let bonus := if Py.ge rushing_yards 100
               then bonus + rushing_100_199_bonus scoring_rules else bonus in
  let bonus := if Py.ge rushing_yards 200
               then bonus + rushing_200plus_bonus scoring_rules else bonus in
  let bonus := if Py.ge receiving_yards 100
               then bonus + receiving_100_199_bonus scoring_rules else bonus in
  let bonus := if Py.ge receiving_yards 200
               then bonus + receiving_200plus_bonus scoring_rules else bonus in
  bonus.

(** [get_weekly_passing_bonuses]: the bonus component of the returned pair. *)
Definition get_weekly_passing_bonuses (passing_yards : Q) : Q :=
  if Py.ge passing_yards 400 then passing_400plus_bonus scoring_rules
  else if Py.ge passing_yards 300 then passing_300_399_bonus scoring_rules
  else 0.

(** The scorer object after [load_data]: the regular-season frames. *)
Record t := {
  weekly_reg : Weekly.frame;
  pbp_reg : list Pbp.row
}.

(** [load_data]: keep the regular season of the imported frames. *)
Definition load_data (weekly_data : Weekly.frame) (pbp_data : list Pbp.row) : t :=
  {| weekly_reg :=
       {| Weekly.columns := Weekly.columns weekly_data;
          Weekly.rows :=
            List.filter (fun r => String.eqb (Weekly.season_type r) "REG")
                        (Weekly.rows weekly_data) |};
     pbp_reg :=
       List.filter (fun p => String.eqb (Pbp.season_type p) "REG") pbp_data |}.

(** [get_fumbles_from_pbp]. *)
Definition get_fumbles_from_pbp (self : t) (player_name : string) (week : Z) : Q :=
  let week_pbp := List.filter (fun p => Z.eqb (Pbp.week p) week) (pbp_reg self) in
  Py.count (fun p => text_is (Pbp.fumbled_1_player_name p) player_name
                     && Py.cell_eqb (Pbp.fumble_lost p) 1) week_pbp.

(** The body of the loop of [get_weekly_td_bonuses]: the [td_bonus] of one
    touchdown play. *)
Definition td_bonus (td : Pbp.row) : Q :=
  let yards := Pbp.yards_gained td in
  let play_type := Pbp.play_type td in
  if text_is play_type "run" then
    if Py.cell_ge yards 50 then rushing_td_50plus_bonus scoring_rules
    else if Py.cell_ge yards 40 then rushing_td_40_49_bonus scoring_rules
    else 0
  else if text_is play_type "pass" then
    if Py.cell_ge yards 50 then receiving_td_50plus_bonus scoring_rules
    else if Py.cell_ge yards 40 then receiving_td_40_49_bonus scoring_rules
    else 0
  else 0.

(** The touchdown plays [player_tds] selected by [get_weekly_td_bonuses]. *)
Definition player_tds (self : t) (player_name : string) (week : Z) : list Pbp.row :=
  let week_pbp := List.filter (fun p => Z.eqb (Pbp.week p) week) (pbp_reg self) in
  List.filter (fun p => text_is (Pbp.td_player_name p) player_name
                        && Py.cell_eqb (Pbp.touchdown p) 1) week_pbp.

(** [get_weekly_td_bonuses]: the [total_bonus] component of the returned pair
    (the second component lists the plays that earned a bonus). *)
Definition get_weekly_td_bonuses (self : t) (player_name : string) (week : Z) : Q :=
  let player_tds := player_tds self player_name week in
  if Nat.eqb (length player_tds) 0 then 0
  else
    foldl (fun total_bonus td =>
             let td_bonus := td_bonus td in
             if Py.gt td_bonus 0 then total_bonus + td_bonus else total_bonus)
          0 player_tds.

(** [player_weekly[col].fillna(0).sum()]. *)
Definition column_sum (col : string) (player_weekly : list Weekly.row) : Q :=
  Py.sum (List.map (fun r => Py.fillna0 (Weekly.cells r !! col)) player_weekly).

(** [get_two_point_conversions]. *)
Definition get_two_point_conversions (columns : list string)
    (player_weekly : list Weekly.row) : Q :=
  foldl (fun two_pt col =>
           if bool_decide (col ∈ columns)
           then two_pt + column_sum col player_weekly else two_pt)
        0 ["passing_2pt_conversions"; "rushing_2pt_conversions";
           "receiving_2pt_conversions"].

(** [player_week[stat].fillna(0).iloc[0] if stat in player_week.columns else 0]. *)
Definition stat_of (columns : list string) (first : Weekly.row) (stat : string) : Q :=
  if bool_decide (stat ∈ columns)
  then Py.fillna0 (Weekly.cells first !! stat) else 0.

(** [basic_stats]. *)
Definition basic_stats : list string :=
  ["completions"; "passing_yards"; "passing_tds"; "interceptions"; "sacks";
   "carries"; "rushing_yards"; "rushing_tds";
   "receptions"; "receiving_yards"; "receiving_tds";
   "fumbles_lost"].

(** [stats[key]] for the dict [stats] of [calculate_weekly_score]; every key
    read below has been stored before. *)
Definition item (stats : gmap string Q) (key : string) : Q :=
  default 0 (stats !! key).

(** The second half of [calculate_weekly_score], from "Calculate base
    scoring" on: the score of the extracted [stats], given the position cell
    of the row and the touchdown length bonus of the week. *)
Definition score_of_stats (stats : gmap string Q) (player_position : option string)
    (td_bonus : Q) : Q :=
  let score := 0 in
  (* Passing *)
  let score := if Py.gt (item stats "completions") 0
               then score + item stats "completions" * completion scoring_rules
               else score in
  let score := if Py.gt (item stats "passing_yards") 0 then
                 let score :=
                   score + item stats "passing_yards" * passing_yard scoring_rules in
                 let pass_bonus :=
                   get_weekly_passing_bonuses (item stats "passing_yards") in
                 if Py.gt pass_bonus 0 then score + pass_bonus else score
               else score in
  let score := if Py.gt (item stats "passing_tds") 0
               then score + item stats "passing_tds" * passing_td scoring_rules
               else score in
  let score := if Py.gt (item stats "interceptions") 0
               then score + item stats "interceptions" * interception scoring_rules
               else score in
  (* sacks count against quarterbacks only *)
  let score := if Py.gt (item stats "sacks") 0 then
                 if text_is player_position "QB"
                 then score + item stats "sacks" * sack scoring_rules else score
               else score in
  (* Rushing *)
  let score := if Py.gt (item stats "carries") 0
               then score + item stats "carries" * rushing_attempt scoring_rules
               else score in
  let score := if Py.gt (item stats "rushing_yards") 0
               then score + item stats "rushing_yards" * rushing_yard scoring_rules
               else score in
  let score := if Py.gt (item stats "rushing_tds") 0
               then score + item stats "rushing_tds" * rushing_td scoring_rules
               else score in
  (* Receiving *)
  let score := if Py.gt (item stats "receptions") 0
               then score + item stats "receptions" * reception scoring_rules
               else score in
  let score := if Py.gt (item stats "receiving_yards") 0
               then score + item stats "receiving_yards" * receiving_yard scoring_rules
               else score in
  let score := if Py.gt (item stats "receiving_tds") 0
               then score + item stats "receiving_tds" * receiving_td scoring_rules
               else score in
  (* Other *)
  let score := if Py.gt (item stats "two_point_conversions") 0
               then score + item stats "two_point_conversions"
                            * two_point_conversion scoring_rules
               else score in
  let score := if Py.gt (item stats "fumbles_lost") 0
               then score + item stats "fumbles_lost" * fumble_lost scoring_rules
               else score in
  (* touchdown length bonuses, then yardage bonuses *)
  let score := if Py.gt td_bonus 0 then score + td_bonus else score in
  let yardage_bonus :=
    get_weekly_yardage_bonuses (item stats "rushing_yards")
                               (item stats "receiving_yards") in
  let score := if Py.gt yardage_bonus 0 then score + yardage_bonus else score in
  score.

(** [calculate_weekly_score]: the score component of the returned pair (the
    second component is the printed breakdown). *)
Definition calculate_weekly_score (self : t) (player_name : string) (week : Z) : Q :=
  let columns := Weekly.columns (weekly_reg self) in
  let player_week :=
    List.filter (fun r => String.eqb (Weekly.player_name r) player_name
                          && Z.eqb (Weekly.week r) week)
                (Weekly.rows (weekly_reg self)) in
  match player_week with
  | [] => 0
  | first :: _ =>
    (* Extract stats for this week *)
    let stats : gmap string Q :=
      foldl (fun stats stat => <[stat := stat_of columns first stat]> stats)
            ∅ basic_stats in
    (* every fumble column, then the play-by-play as a backup *)
    let total_fumbles_lost :=
      foldl (fun total col =>
               if bool_decide (col ∈ columns) then
                 let fumbles_in_col := Py.fillna0 (Weekly.cells first !! col) in
                 if Py.gt fumbles_in_col 0 then total + fumbles_in_col else total
               else total)
            0 ["fumbles_lost"; "rushing_fumbles_lost"; "receiving_fumbles_lost";
               "sack_fumbles_lost"] in
    let fumbles_lost_pbp := get_fumbles_from_pbp self player_name week in
    let total_fumbles_lost :=
      if Py.gt fumbles_lost_pbp 0 && Py.eqb total_fumbles_lost 0
      then fumbles_lost_pbp else total_fumbles_lost in
    let stats := <["fumbles_lost" := total_fumbles_lost]> stats in
    let stats := <["two_point_conversions" :=
                     get_two_point_conversions columns player_week]> stats in
    let player_position :=
      if bool_decide ("position" ∈ columns) then Weekly.position first else None in
    score_of_stats stats player_position
                   (get_weekly_td_bonuses self player_name week)
  end.

End FinalLeagueScorer.
End saquon_scorer.

(** * scoring_final.py *)

Module scoring_final.

(** [saquon_tds]: the touchdown plays of S.Barkley in the whole frame. *)
Definition saquon_tds (pbp : list Pbp.row) : list Pbp.row :=
  List.filter (fun p => text_is (Pbp.td_player_name p) "S.Barkley"
                        && Py.cell_eqb (Pbp.touchdown p) 1) pbp.

(** [td_40plus = sum(saquon_tds['yards_gained'] >= 40)]. *)
Definition td_40plus (pbp : list Pbp.row) : Q :=
  Py.count (fun p => Py.cell_ge (Pbp.yards_gained p) 40) (saquon_tds pbp).

(** [td_50plus = sum(saquon_tds['yards_gained'] >= 50)]. *)
Definition td_50plus (pbp : list Pbp.row) : Q :=
  Py.count (fun p => Py.cell_ge (Pbp.yards_gained p) 50) (saquon_tds pbp).

(** The touchdown bonus added to the score and printed by the script:
    [(td_40plus * 3) + (td_50plus * 5)]. *)
Definition td_bonus_points (pbp : list Pbp.row) : Q :=
  (td_40plus pbp * 3) + (td_50plus pbp * 5).

(** The script's [score], from the season totals [stats] of the player. *)
Definition score (stats : string -> Q) (pbp : list Pbp.row) : Q :=
  let score := 0 in
  let score := score + stats "carries" * 0.2 in
  let score := score + stats "rushing_yards" / 10 in
  let score := score + stats "rushing_tds" * 6 in
  let score := score + stats "receptions" * 1 in
  let score := score + stats "receiving_yards" / 10 in
  let score := score + stats "receiving_tds" * 6 in
  let score := score + ((td_40plus pbp * 3) + (td_50plus pbp * 5)) in
  if Py.ge (stats "rushing_yards") 2000 then score + 10
  else if Py.ge (stats "rushing_yards") 1000 then score + 5
  else score.

End scoring_final.

(** * fantasy_projections.py *)

Module fantasy_projections.

Module HistoricalPatternAnalyzer.

(** An entry of [td_patterns]. *)
Record td_pattern := {
  td_pct_40_49 : Q;
  td_pct_50_plus : Q
}.

(** An entry of [fg_patterns]. *)
Record fg_pattern := {
  fg_pct_0_29 : Q;
  fg_pct_30_39 : Q;
  fg_pct_40_49 : Q;
  fg_pct_50_plus : Q
}.

(** The analyzer object. *)
Record t := {
  td_patterns : gmap string td_pattern;
  fg_patterns : gmap string fg_pattern;
  data_loaded : bool
}.

(** [__init__]. *)
Definition init : t :=
  {| td_patterns := ∅; fg_patterns := ∅; data_loaded := false |}.

(** The rows [td_players] of [analyze_td_patterns]: touchdown plays with a
    scorer name. *)
Definition td_players (pbp_data : list Pbp.row) : list Pbp.row :=
  let tds := List.filter (fun p => Py.cell_eqb (Pbp.touchdown p) 1) pbp_data in
  List.filter (fun p => bool_decide (is_Some (Pbp.td_player_name p))) tds.

(** [player_td_data]: the touchdown plays of one player. *)
Definition player_td_data (pbp_data : list Pbp.row) (player : string) : list Pbp.row :=
  List.filter (fun p => text_is (Pbp.td_player_name p) player) (td_players pbp_data).

(** The entry [analyze_td_patterns] stores for a player's touchdown plays. *)
Definition td_pattern_of (player_td_data : list Pbp.row) : td_pattern :=
  let total_tds := Py.count (fun _ => true) player_td_data in
  let td_40_49 :=
    Py.count (fun p => Py.cell_ge (Pbp.yards_gained p) 40
                       && Py.cell_lt (Pbp.yards_gained p) 50) player_td_data in
  let td_50_plus :=
    Py.count (fun p => Py.cell_ge (Pbp.yards_gained p) 50) player_td_data in
  {| td_pct_40_49 := td_40_49 / total_tds;
     td_pct_50_plus := td_50_plus / total_tds |}.

(** [analyze_td_patterns]: the new value of [self.td_patterns]. *)
Definition analyze_td_patterns (td_patterns : gmap string td_pattern)
    (pbp_data : list Pbp.row) : gmap string td_pattern :=
  foldl (fun td_patterns player =>
           let player_td_data := player_td_data pbp_data player in
           let total_tds := Py.count (fun _ => true) player_td_data in
           if Py.lt total_tds 3 then td_patterns
           else <[player := td_pattern_of player_td_data]> td_patterns)
        td_patterns
        (Py.unique (omap Pbp.td_player_name (td_players pbp_data))).

(** The made field goals [made_fgs] of one kicker. *)
Definition made_fgs (pbp_data : list Pbp.row) (kicker : string) : list Pbp.row :=
  let fgs := List.filter (fun p => Py.cell_eqb (Pbp.field_goal_attempt p) 1) pbp_data in
  let kicker_fgs := List.filter (fun p => text_is (Pbp.kicker_player_name p) kicker) fgs in
  List.filter (fun p => text_is (Pbp.field_goal_result p) "made") kicker_fgs.

(** The entry [analyze_fg_patterns] stores for a kicker's made field goals. *)
Definition fg_pattern_of (made_fgs : list Pbp.row) : fg_pattern :=
  let total_made := Py.count (fun _ => true) made_fgs in
  {| fg_pct_0_29 :=
       Py.count (fun p => Py.cell_lt (Pbp.kick_distance p) 30) made_fgs / total_made;
     fg_pct_30_39 :=
       Py.count (fun p => Py.cell_ge (Pbp.kick_distance p) 30
                          && Py.cell_lt (Pbp.kick_distance p) 40) made_fgs
       / total_made;
     fg_pct_40_49 :=
       Py.count (fun p => Py.cell_ge (Pbp.kick_distance p) 40
                          && Py.cell_lt (Pbp.kick_distance p) 50) made_fgs
       / total_made;
     fg_pct_50_plus :=
       Py.count (fun p => Py.cell_ge (Pbp.kick_distance p) 50) made_fgs / total_made |}.

(** [analyze_fg_patterns]: the new value of [self.fg_patterns].  The loop
    skips the missing kicker name. *)
Definition analyze_fg_patterns (fg_patterns : gmap string fg_pattern)
    (pbp_data : list Pbp.row) : gmap string fg_pattern :=
  let fgs := List.filter (fun p => Py.cell_eqb (Pbp.field_goal_attempt p) 1) pbp_data in
  foldl (fun fg_patterns kicker =>
           let made_fgs := made_fgs pbp_data kicker in
           let total_made := Py.count (fun _ => true) made_fgs in
           if Py.lt total_made 5 then fg_patterns
           else <[kicker := fg_pattern_of made_fgs]> fg_patterns)
        fg_patterns
        (Py.unique (omap Pbp.kicker_player_name fgs)).

(** [load_data], given the frame [nfl.import_pbp_data] returns. *)
Definition load_data (self : t) (imported : list Pbp.row) : t :=
  if data_loaded self then self
  else
    let pbp_data :=
      List.filter (fun p => String.eqb (Pbp.season_type p) "REG") imported in
    {| td_patterns := analyze_td_patterns (td_patterns self) pbp_data;
       fg_patterns := analyze_fg_patterns (fg_patterns self) pbp_data;
       data_loaded := true |}.

(** [f"{parts[0][0]}.{parts[1]}"] for [parts = name.split()]; [None] when an
    index is out of range ([IndexError]). *)
Definition short_name (name : string) : option string :=
  match Py.split name with
  | String initial _ :: surname :: _ => Some (String initial (String.append "." surname))
  | _ => None
  end.

(** [get_player_td_bonus]; [None] stands for a raised [IndexError]. *)
Definition get_player_td_bonus (self : t) (player_name : string)
    (projected_tds : Q) : option Q :=
  let fallback :=
    Some (Py.round1 (projected_tds * 0.05 * 3 + projected_tds * 0.03 * 5)) in
  if Py.contains_space player_name then
    short_name ← short_name player_name;
    match td_patterns self !! short_name with
    | Some pattern =>
        let bonus := projected_tds * td_pct_40_49 pattern * 3
                     + projected_tds * td_pct_50_plus pattern * 5 in
        Some (Py.round1 bonus)
    | None => fallback
    end
  else fallback.

(** [get_kicker_points]; [None] stands for a raised [IndexError]. *)
Definition get_kicker_points (self : t) (kicker_name : string)
    (projected_fgs projected_pats : Q) : option Q :=
  let pat_points := projected_pats * 1 in
  let fallback :=
    let fg_points := projected_fgs * 3.3 in
    Some (Py.round1 (pat_points + fg_points)) in
  if Py.contains_space kicker_name then
    short_name ← short_name kicker_name;
    match fg_patterns self !! short_name with
    | Some pattern =>
        let fg_points :=
          projected_fgs * (fg_pct_0_29 pattern + fg_pct_30_39 pattern
                           + fg_pct_40_49 pattern) * 3
          + projected_fgs * fg_pct_50_plus pattern * 5 in
        Some (Py.round1 (pat_points + fg_points))
    | None => fallback
    end
  else fallback.

End HistoricalPatternAnalyzer.

Module DefenseReturnAnalyzer.

(** The analyzer object.  [load_data] fills [return_yards_allowed] and sets
    [data_loaded]; nothing assigns [league_avg] after [__init__]. *)
Record t := {
  return_yards_allowed : gmap string Q;
  data_loaded : bool;
  league_avg : Q
}.

(** [__init__]. *)
Definition init : t :=
  {| return_yards_allowed := ∅; data_loaded := false; league_avg := 62.5 |}.

(** The object once [load_data] has stored the per-team averages [table]. *)
Definition loaded (table : gmap string Q) : t :=
  {| return_yards_allowed := table; data_loaded := true;
     league_avg := league_avg init |}.

(** [get_expected_return_yards]. *)
Definition get_expected_return_yards (self : t) (opponent_team : string) : Q :=
  match return_yards_allowed self !! opponent_team with
  | Some yards => yards
  | None => league_avg self
  end.

End DefenseReturnAnalyzer.

Module FinalLeagueScorer.

(** Both files build the same [scoring_rules] table. *)
Definition scoring_rules := saquon_scorer.FinalLeagueScorer.scoring_rules.

Import saquon_scorer.FinalLeagueScorer.

(** The running [score] of [calculate_projected_score], before the final
    [round(score, 1)]. *)
Definition projected_score_sum (proj_data : gmap string Q) : Q :=
  let score := 0 in
  (* Passing *)
  let score := when_present proj_data "completions"
    (fun v score => score + v * completion scoring_rules) score in
  let score := when_present proj_data "passing_yards"
    (fun yards score =>
       let score := score + yards * passing_yard scoring_rules in
       if Py.ge yards 400 then score + passing_400plus_bonus scoring_rules
       else if Py.ge yards 300 then score + passing_300_399_bonus scoring_rules
       else score) score in
  let score := when_present proj_data "passing_tds"
    (fun v score => score + v * passing_td scoring_rules) score in
  let score := when_present proj_data "interceptions"
    (fun v score => score + v * interception scoring_rules) score in
  let score := when_present proj_data "sacks"
    (fun v score => score + v * sack scoring_rules) score in
  (* Rushing *)
  let score := when_present proj_data "rushing_attempts"
    (fun v score => score + v * rushing_attempt scoring_rules) score in
  let score := when_present proj_data "rushing_yards"
    (fun yards score =>
       let score := score + yards * rushing_yard scoring_rules in
       let score := if Py.ge yards 100
                    then score + rushing_100_199_bonus scoring_rules else score in
       let score := if Py.ge yards 200
                    then score + rushing_200plus_bonus scoring_rules else score in
       score) score in
  let score := when_present proj_data "rushing_tds"
    (fun v score => score + v * rushing_td scoring_rules) score in
  (* Receiving *)
  let score := when_present proj_data "receptions"
    (fun v score => score + v * reception scoring_rules) score in
  let score := when_present proj_data "receiving_yards"
    (fun yards score =>
       let score := score + yards * receiving_yard scoring_rules in
       let score := if Py.ge yards 100
                    then score + receiving_100_199_bonus scoring_rules else score in
       let score := if Py.ge yards 200
                    then score + receiving_200plus_bonus scoring_rules else score in
       score) score in
  let score := when_present proj_data "receiving_tds"
    (fun v score => score + v * receiving_td scoring_rules) score in
  (* Other *)
  let score := when_present proj_data "fumbles_lost"
    (fun v score => score + v * fumble_lost scoring_rules) score in
  score.

(** [calculate_projected_score]. *)
Definition calculate_projected_score (proj_data : gmap string Q) : Q :=
  Py.round1 (projected_score_sum proj_data).

End FinalLeagueScorer.

Module KickerScorer.

(** [self.scoring_rules]. *)
Record ScoringRules := {
  pat_made : Q;
  fg_0_19 : Q;
  fg_20_29 : Q;
  fg_30_39 : Q;
  fg_40_49 : Q;
  fg_50plus : Q
}.

Definition scoring_rules : ScoringRules :=
  {| pat_made := 1; fg_0_19 := 3; fg_20_29 := 3; fg_30_39 := 3;
     fg_40_49 := 3; fg_50plus := 5 |}.

(** [calculate_projected_score]. *)
Definition calculate_projected_score (proj_data : gmap string Q) : Q :=
  let score := 0 in
  let score := when_present proj_data "pat"
    (fun v score => score + v * pat_made scoring_rules) score in
  (* Field goals by distance *)
  let score := when_present proj_data "fg_0_19"
    (fun v score => score + v * fg_0_19 scoring_rules) score in
  let score := when_present proj_data "fg_20_29"
    (fun v score => score + v * fg_20_29 scoring_rules) score in
  let score := when_present proj_data "fg_30_39"
    (fun v score => score + v * fg_30_39 scoring_rules) score in
  let score := when_present proj_data "fg_40_49"
    (fun v score => score + v * fg_40_49 scoring_rules) score in
  let score := when_present proj_data "fg_50plus"
    (fun v score => score + v * fg_50plus scoring_rules) score in
  (* only a total: the weighted average *)
  let score :=
    match proj_data !! "fg", proj_data !! "fg_0_19" with
    | Some total_fg, None => score + total_fg * 3.2
    | _, _ => score
    end in
  Py.round1 score.

End KickerScorer.

Module DefenseScorer.

(** [self.scoring_rules]. *)
Record ScoringRules := {
  sack : Q;
  interception : Q;
  fumble_recovery : Q;
  fumble_forced : Q;
  safety : Q;
  defensive_td : Q;
  blocked_kick : Q;
  return_td : Q;
  return_yard : Q;
  two_point_return : Q
}.

Definition scoring_rules : ScoringRules :=
  {| sack := 1; interception := 2; fumble_recovery := 2; fumble_forced := 1;
     safety := 2; defensive_td := 6; blocked_kick := 2; return_td := 6;
     return_yard := 1 # 10; two_point_return := 2 |}.

(** A band table: [(low, high) -> points] in insertion order. *)
Definition band : Type := (Q * Q) * Q.

(** [self.points_allowed_scoring]. *)
Definition points_allowed_scoring : list band :=
  [ ((0, 0), 10); ((1, 6), 7); ((7, 13), 4); ((14, 20), 1); ((21, 27), 0);
    ((28, 34), -1); ((35, 100), -4) ].

(** [self.yards_allowed_bonus]. *)
Definition yards_allowed_bonus : list band :=
  [ ((0, 99), 3) ].

(** [low <= x <= high]. *)
Definition in_band (x : Q) (b : band) : bool :=
  Py.ge x (fst (fst b)) && Py.ge (snd (fst b)) x.

(** [for (low, high), points in table.items(): if low <= x <= high:
    score += points; break]. *)
Fixpoint band_scan (table : list band) (x : Q) (score : Q) : Q :=
  match table with
  | [] => score
  | b :: rest =>
      if in_band x b then score + snd b
      else band_scan rest x score
  end.

(** The running [score] of [calculate_projected_score] before the final
    [round(score, 1)]. *)
Definition projected_score_sum (proj_data : gmap string Q) : Q :=
  let score := 0 in
  let score := score + dict_get proj_data "sacks" 0 * sack scoring_rules in
  let score := score + dict_get proj_data "interceptions" 0 * interception scoring_rules in
  let score := score + dict_get proj_data "fumble_recoveries" 0 * fumble_recovery scoring_rules in
  let score := score + dict_get proj_data "fumbles_forced" 0 * fumble_forced scoring_rules in
  let score := score + dict_get proj_data "safeties" 0 * safety scoring_rules in
  let score := score + dict_get proj_data "defensive_tds" 0 * defensive_td scoring_rules in
  let score := score + dict_get proj_data "blocked_kicks" 0 * blocked_kick scoring_rules in
  (* Points allowed *)
  let pa := dict_get proj_data "points_allowed" 20 in
  let score := band_scan points_allowed_scoring pa score in
  (* Yards allowed bonus *)
  let ya := dict_get proj_data "yards_allowed" 300 in
  let score := band_scan yards_allowed_bonus ya score in
  score.

(** [calculate_projected_score]. *)
Definition calculate_projected_score (proj_data : gmap string Q) : Q :=
  Py.round1 (projected_score_sum proj_data).

End DefenseScorer.

Module ProjectionAnalyzer.

(** The analyzer object; the three scorers carry no state. *)
Record t := {
  pattern_analyzer : HistoricalPatternAnalyzer.t;
  return_analyzer : DefenseReturnAnalyzer.t
}.

(** A projection row: the player name and the numeric entries of the dict. *)
Record projection := {
  player : string;
  entries : gmap string Q
}.

(** The row the scraper builds from a player link: the name is
    [player_link.text.strip()]. *)
Definition scraped (link_text : string) (entries : gmap string Q) : projection :=
  {| player := Py.strip link_text; entries := entries |}.

(** The body of the loop of [get_week_projections] over an offensive row;
    [None] when the bonus lookup raises. *)
Definition project_offense (self : t) (proj : projection) : option projection :=
  let base_points := FinalLeagueScorer.calculate_projected_score (entries proj) in
  let total_tds := dict_get (entries proj) "passing_tds" 0
                   + dict_get (entries proj) "rushing_tds" 0
                   + dict_get (entries proj) "receiving_tds" 0 in
  if Py.gt total_tds 0 then
    td_bonus ← HistoricalPatternAnalyzer.get_player_td_bonus
                 (pattern_analyzer self) (player proj) total_tds;
    Some {| player := player proj;
            entries := <["td_bonus" := td_bonus]>
                         (<["projected_points" := Py.round1 (base_points + td_bonus)]>
                            (entries proj)) |}
  else
    Some {| player := player proj;
            entries := <["td_bonus" := 0]>
                         (<["projected_points" := base_points]> (entries proj)) |}.

(** The body of the loop over a kicker row. *)
Definition project_kicker (self : t) (proj : projection) : option projection :=
  points ← HistoricalPatternAnalyzer.get_kicker_points (pattern_analyzer self)
             (player proj) (dict_get (entries proj) "fg_made" 0)
             (dict_get (entries proj) "pat_made" 0);
  Some {| player := player proj;
          entries := <["projected_points" := points]> (entries proj) |}.

(** The body of the loop over a defense row. *)
Definition project_defense (self : t) (proj : projection) : projection :=
  let base_points := DefenseScorer.calculate_projected_score (entries proj) in
  let expected_return_yards := DefenseReturnAnalyzer.league_avg (return_analyzer self) in
  let return_points := Py.round1 (expected_return_yards / 10) in
  {| player := player proj;
     entries := <["return_points" := return_points]>
                  (<["expected_return_yards" := expected_return_yards]>
                     (<["projected_points" := Py.round1 (base_points + return_points)]>
                        (entries proj))) |}.

(** [get_week_projections] on loaded analyzers, given the rows the scraper
    returns for each position; [None] when a bonus lookup raises. *)
Definition get_week_projections (self : t) (rows : string -> list projection)
    : option (list projection) :=
  offense ← mapM (fun position => mapM (project_offense self) (rows position))
                 ["QB"; "RB"; "WR"; "TE"];
  kickers ← mapM (project_kicker self) (rows "K");
  Some (concat offense ++ kickers ++ List.map (project_defense self) (rows "DST")).

(** A roster entry: the three keys of a player dict that the lineup reads. *)
Module Roster.
Record row := {
  player : string;
  position : string;
  projected_points : Q
}.
End Roster.

(** [my_players.sort(key=lambda x: x['projected_points'], reverse=True)] is
    a stable sort, highest first.  [sort_insert] puts a player in front of the
    sorted players that follow it in the roster: behind those with more
    points, before those with as many or fewer. *)
Fixpoint sort_insert (x : Roster.row) (sorted : list Roster.row) : list Roster.row :=
  match sorted with
  | [] => [x]
  | y :: rest =>
      if Py.gt (Roster.projected_points y) (Roster.projected_points x)
      then y :: sort_insert x rest
      else x :: y :: rest
  end.

Definition sort_by_points (my_players : list Roster.row) : list Roster.row :=
  foldr sort_insert [] my_players.

(** The state of the loops of [get_optimal_lineup_from_roster]: the dict
    [lineup], where a slot that holds [None] has no entry, and the set
    [used]. *)
Definition lineup_state : Type := gmap string Roster.row * gset string.

(** [not lineup[slot]]. *)
Definition vacant (lineup : gmap string Roster.row) (slot : string) : bool :=
  match lineup !! slot with Some _ => false | None => true end.

(** [lineup[slot] = player; used.add(player['player'])]. *)
Definition assign (slot : string) (player : Roster.row) (st : lineup_state)
    : lineup_state :=
  (<[slot := player]> st.1, {[Roster.player player]} ∪ st.2).

(** The body of the loop "Fill starters". *)
Definition fill_starter (st : lineup_state) (player : Roster.row) : lineup_state :=
  if bool_decide (Roster.player player ∈ st.2) then st
  else
    let pos := Roster.position player in
    if String.eqb pos "QB" && vacant st.1 "QB" then assign "QB" player st
    else if String.eqb pos "RB" then
      if vacant st.1 "RB1" then assign "RB1" player st
      else if vacant st.1 "RB2" then assign "RB2" player st
      else st
    else if String.eqb pos "WR" then
      if vacant st.1 "WR1" then assign "WR1" player st
      else if vacant st.1 "WR2" then assign "WR2" player st
      else st
    else if String.eqb pos "TE" && vacant st.1 "TE" then assign "TE" player st
    else if String.eqb pos "K" && vacant st.1 "K" then assign "K" player st
    else if String.eqb pos "DST" && vacant st.1 "DST" then assign "DST" player st
    else st.

(** The test of the loop "Fill FLEX":
    [player['player'] not in used and player['position'] in ['RB', 'WR', 'TE']]. *)
Definition flex_eligible (used : gset string) (player : Roster.row) : bool :=
  negb (bool_decide (Roster.player player ∈ used))
  && (String.eqb (Roster.position player) "RB"
      || String.eqb (Roster.position player) "WR"
      || String.eqb (Roster.position player) "TE").

(** [get_optimal_lineup_from_roster], on player dicts that hold the three
    keys. *)
Definition get_optimal_lineup_from_roster (my_players : list Roster.row)
    : gmap string Roster.row :=
  let my_players := sort_by_points my_players in
  let st := foldl fill_starter (∅, ∅) my_players in
  match List.find (flex_eligible st.2) my_players with
  | Some player => <["FLEX" := player]> st.1
  | None => st.1
  end.

End ProjectionAnalyzer.

End fantasy_projections.

(** * td_pattern_analyzer.py *)

Module td_pattern_analyzer.
Module HistoricalPatternAnalyzer.

(** [Series.mean()]: the mean of the cells that are not [NaN], [NaN] when
    there is none. *)
Definition mean (cells : list (option Q)) : option Q :=
  match omap (fun cell => cell) cells with
  | [] => None
  | values => Some (Py.sum values / inject_Z (Z.of_nat (length values)))
  end.

(** An entry of [td_patterns]. *)
Record td_pattern := {
  total_tds : Q;
  td_40_49 : Q;
  td_50_plus : Q;
  td_pct_40_49 : Q;
  td_pct_50_plus : Q;
  avg_td_length : option Q
}.

(** An entry of [fg_patterns]. *)
Record fg_pattern := {
  total_made : Q;
  fg_0_19 : Q;
  fg_20_29 : Q;
  fg_30_39 : Q;
  fg_40_49 : Q;
  fg_50_plus : Q;
  pct_0_19 : Q;
  pct_20_29 : Q;
  pct_30_39 : Q;
  pct_40_49 : Q;
  pct_50_plus : Q;
  avg_distance : option Q
}.

(** The analyzer object. *)
Record t := {
  td_patterns : gmap string td_pattern;
  fg_patterns : gmap string fg_pattern
}.

(** [__init__]. *)
Definition init : t := {| td_patterns := ∅; fg_patterns := ∅ |}.

(** The made field goals of one kicker. *)
Definition made_fgs (pbp_data : list Pbp.row) (kicker : string) : list Pbp.row :=
  let fgs := List.filter (fun p => Py.cell_eqb (Pbp.field_goal_attempt p) 1) pbp_data in
  let kicker_fgs := List.filter (fun p => text_is (Pbp.kicker_player_name p) kicker) fgs in
  List.filter (fun p => text_is (Pbp.field_goal_result p) "made") kicker_fgs.

(** The entry [analyze_fg_patterns] stores for a kicker's made field goals. *)
Definition fg_pattern_of (made_fgs : list Pbp.row) : fg_pattern :=
  let total_made := Py.count (fun _ => true) made_fgs in
  let fg_0_19 := Py.count (fun p => Py.cell_lt (Pbp.kick_distance p) 20) made_fgs in
  let fg_20_29 := Py.count (fun p => Py.cell_ge (Pbp.kick_distance p) 20
                                     && Py.cell_lt (Pbp.kick_distance p) 30) made_fgs in
  let fg_30_39 := Py.count (fun p => Py.cell_ge (Pbp.kick_distance p) 30
                                     && Py.cell_lt (Pbp.kick_distance p) 40) made_fgs in
  let fg_40_49 := Py.count (fun p => Py.cell_ge (Pbp.kick_distance p) 40
                                     && Py.cell_lt (Pbp.kick_distance p) 50) made_fgs in
  let fg_50_plus := Py.count (fun p => Py.cell_ge (Pbp.kick_distance p) 50) made_fgs in
  {| total_made := total_made;
     fg_0_19 := fg_0_19; fg_20_29 := fg_20_29; fg_30_39 := fg_30_39;
     fg_40_49 := fg_40_49; fg_50_plus := fg_50_plus;
     pct_0_19 := fg_0_19 / total_made;
     pct_20_29 := fg_20_29 / total_made;
     pct_30_39 := fg_30_39 / total_made;
     pct_40_49 := fg_40_49 / total_made;
     pct_50_plus := fg_50_plus / total_made;
     avg_distance := mean (List.map Pbp.kick_distance made_fgs) |}.

(** [analyze_fg_patterns]: the new value of [self.fg_patterns]. *)
Definition analyze_fg_patterns (fg_patterns : gmap string fg_pattern)
    (pbp_data : list Pbp.row) : gmap string fg_pattern :=
  let fgs := List.filter (fun p => Py.cell_eqb (Pbp.field_goal_attempt p) 1) pbp_data in
  foldl (fun fg_patterns kicker =>
           let made_fgs := made_fgs pbp_data kicker in
           let total_made := Py.count (fun _ => true) made_fgs in
           if Py.lt total_made 5 then fg_patterns
           else <[kicker := fg_pattern_of made_fgs]> fg_patterns)
        fg_patterns
        (Py.unique (omap Pbp.kicker_player_name fgs)).

(** [get_player_td_bonus_expectation]. *)
Definition get_player_td_bonus_expectation (self : t) (player_name : string)
    (projected_tds : Q) : Q :=
  let '(avg_40_49, avg_50_plus) :=
    match td_patterns self !! player_name with
    | None => (0.05, 0.03)
    | Some pattern => (td_pct_40_49 pattern, td_pct_50_plus pattern)
    end in
  let expected_40_49_tds := projected_tds * avg_40_49 in
  let expected_50_plus_tds := projected_tds * avg_50_plus in
  let bonus_points := (expected_40_49_tds * 3) + (expected_50_plus_tds * 5) in
  Py.round1 bonus_points.

(** The five expected counts [distribution] of [get_kicker_fg_distribution]. *)
Definition distribution (self : t) (kicker_name : string) (projected_fgs : Q)
    : Q * Q * Q * Q * Q :=
  match fg_patterns self !! kicker_name with
  | None =>
      (projected_fgs * 0.05, projected_fgs * 0.20, projected_fgs * 0.35,
       projected_fgs * 0.30, projected_fgs * 0.10)
  | Some pattern =>
      (projected_fgs * pct_0_19 pattern, projected_fgs * pct_20_29 pattern,
       projected_fgs * pct_30_39 pattern, projected_fgs * pct_40_49 pattern,
       projected_fgs * pct_50_plus pattern)
  end.

(** [get_kicker_fg_distribution]. *)
Definition get_kicker_fg_distribution (self : t) (kicker_name : string)
    (projected_fgs : Q) : Q :=
  let '(d_0_19, d_20_29, d_30_39, d_40_49, d_50_plus) :=
    distribution self kicker_name projected_fgs in
  let points := (d_0_19 + d_20_29 + d_30_39 + d_40_49) * 3 + d_50_plus * 5 in
  Py.round1 points.

End HistoricalPatternAnalyzer.
End td_pattern_analyzer.

(** * return_yards_analyzer.py *)

Module return_yards_analyzer.
Module DefenseReturnAnalyzer.

(** The analyzer object. *)
Record t := {
  return_yards_allowed : gmap string Q;
  team_return_yards : gmap string Q;
  league_avg_return_yards : Q
}.

(** [__init__]. *)
Definition init : t :=
  {| return_yards_allowed := ∅; team_return_yards := ∅;
     league_avg_return_yards := 0 |}.

(** [get_expected_return_yards]. *)
Definition get_expected_return_yards (self : t) (defense_team opponent_team : string) : Q :=
  match return_yards_allowed self !! opponent_team with
  | Some yards => yards
  | None => league_avg_return_yards self
  end.

(** The [expected_return_points] entry of [get_week_matchups]. *)
Definition expected_return_points (self : t) (defense opponent : string) : Q :=
  Py.round1 (get_expected_return_yards self defense opponent / 10).

End DefenseReturnAnalyzer.
End return_yards_analyzer.

(** * accuracy_tracking.py

    The standard deviation needs a square root: this module computes over the
    real numbers. *)

Module accuracy_tracking.
Module AccuracyTracker.

Local Open Scope R_scope.

(** A record of a results file: the position and the stored [difference]
    between actual and projected points. *)
Record result := {
  position : string;
  difference : R
}.

(** Nearest integer, exact ties to the even neighbour. *)
Definition round_half_even (x : R) : Z :=
  let f := Zfloor x in
  if Rlt_dec (x - IZR f) (1 / 2) then f
  else if Rlt_dec (1 / 2) (x - IZR f) then (f + 1)%Z
  else if Z.even f then f else (f + 1)%Z.

(** [round(x, 1)]. *)
Definition round1 (x : R) : R := IZR (round_half_even (x * 10)) / 10.

(** [np.mean]. *)
Definition mean (l : list R) : R := foldl Rplus 0 l / INR (length l).

(** [np.std], the population standard deviation:
    [sqrt(mean(abs(x - x.mean()) ** 2))]. *)
Definition std (errors : list R) : R :=
  sqrt (mean (List.map (fun x => Rabs (x - mean errors) ^ 2) errors)).

(** An entry of the returned dict. *)
Record interval := {
  pct_68 : R;
  pct_95 : R;
  avg_error : R
}.

(** [pos_data['difference'].values] for one position. *)
Definition errors_of (all_results : list result) (pos : string) : list R :=
  List.map difference
    (List.filter (fun r => String.eqb (position r) pos) all_results).

(** [calculate_confidence_intervals], given the records of all results
    files. *)
Definition calculate_confidence_intervals (all_results : list result)
    : gmap string interval :=
  match all_results with
  | [] => ∅
  | _ =>
    foldl (fun confidence_intervals pos =>
             let errors := errors_of all_results pos in
             let std_error := std errors in
             <[pos := {| pct_68 := round1 std_error;
                         pct_95 := round1 (2 * std_error);
                         avg_error := round1 (mean (List.map Rabs errors)) |}]>
               confidence_intervals)
          ∅ (Py.unique (List.map position all_results))
  end.

(** A record of a saved projections file, as [fetch_actual_results] reads
    it. *)
Module Saved.
Record row := {
  player : string;
  position : string;
  projected_points : Q
}.
End Saved.

(** The numeric entries of a record [fetch_actual_results] appends. *)
Module Outcome.
Record row := {
  projected_points : Q;
  actual_points : Q;
  difference : Q;
  accuracy_pct : Q
}.
End Outcome.

(** [_calculate_actual_points]: a placeholder that reads no stats. *)
Definition _calculate_actual_points (player_name position : string)
    (week_data : list Weekly.row) : Q := 0%Q.

(** [max(projected_pts, 1)]. *)
Definition max_1 (projected_pts : Q) : Q :=
  if Py.gt 1 projected_pts then 1%Q else projected_pts.

(** The body of the loop of [fetch_actual_results]. *)
Definition outcome_of (week_data : list Weekly.row) (proj : Saved.row) : Outcome.row :=
  let projected_pts := Saved.projected_points proj in
  let actual_pts :=
    _calculate_actual_points (Saved.player proj) (Saved.position proj) week_data in
  {| Outcome.projected_points := projected_pts;
     Outcome.actual_points := actual_pts;
     Outcome.difference := Py.round1 (actual_pts - projected_pts)%Q;
     Outcome.accuracy_pct :=
       Py.round1 ((1 - Qabs (actual_pts - projected_pts) / max_1 projected_pts)
                  * 100)%Q |}.

(** [fetch_actual_results], given the saved projections of the week ([None]
    when the file does not exist) and the weekly frame: the returned
    [results]. *)
Definition fetch_actual_results (saved : option (list Saved.row))
    (weekly_data : list Weekly.row) (week : Z) : option (list Outcome.row) :=
  match saved with
  | None => None
  | Some projections =>
      let week_data :=
        List.filter (fun r => Z.eqb (Weekly.week r) week
                              && String.eqb (Weekly.season_type r) "REG")
                    weekly_data in
      Some (List.map (outcome_of week_data) projections)
  end.

End AccuracyTracker.
End accuracy_tracking.

(** * Sample data *)

Module Sample.

(** A regular-season touchdown play by [player] of the given length. *)
Definition touchdown_play (player : string) (week : Z) (yards : Q)
    (play_type : option string) : Pbp.row :=
  {| Pbp.season_type := "REG"; Pbp.week := week;
     Pbp.touchdown := Some 1; Pbp.td_player_name := Some player;
     Pbp.yards_gained := Some yards; Pbp.play_type := play_type;
     Pbp.fumbled_1_player_name := None; Pbp.fumble_lost := Some 0;
     Pbp.field_goal_attempt := Some 0; Pbp.kicker_player_name := None;
     Pbp.field_goal_result := None; Pbp.kick_distance := None |}.

(** The stat line of the end-to-end example. *)
Definition rb_line : list (string * Q) :=
  [("carries", 20); ("rushing_yards", 150); ("rushing_tds", 1);
   ("receptions", 5); ("receiving_yards", 50); ("receiving_tds", 0);
   ("fumbles_lost", 0)].

(** A scorer loaded with that line for S.Barkley in week 1 and one
    touchdown play of 10 yards. *)
Definition rb_scorer (play_type : option string) : saquon_scorer.FinalLeagueScorer.t :=
  {| saquon_scorer.FinalLeagueScorer.weekly_reg :=
       {| Weekly.columns := List.map fst rb_line;
          Weekly.rows :=
            [ {| Weekly.season_type := "REG"; Weekly.player_name := "S.Barkley";
                 Weekly.week := 1; Weekly.position := Some "RB";
                 Weekly.cells := list_to_map rb_line |} ] |};
     saquon_scorer.FinalLeagueScorer.pbp_reg :=
       [ touchdown_play "S.Barkley" 1 10 play_type ] |}.

(** The same line under the key names of the projection scorer. *)
Definition rb_projection : gmap string Q :=
  list_to_map
    [("rushing_attempts", 20); ("rushing_yards", 150); ("rushing_tds", 1);
     ("receptions", 5); ("receiving_yards", 50); ("receiving_tds", 0);
     ("fumbles_lost", 0)].

(** Two rushing touchdowns of 45 and 55 yards by S.Barkley in week 1. *)
Definition two_long_tds : list Pbp.row :=
  [ touchdown_play "S.Barkley" 1 45 (Some "run");
    touchdown_play "S.Barkley" 1 55 (Some "run") ].

(** A scorer whose play-by-play frame is [pbp] (and whose weekly frame is empty). *)
Definition scorer_of_plays (pbp : list Pbp.row) : saquon_scorer.FinalLeagueScorer.t :=
  {| saquon_scorer.FinalLeagueScorer.weekly_reg :=
       {| Weekly.columns := []; Weekly.rows := [] |};
     saquon_scorer.FinalLeagueScorer.pbp_reg := pbp |}.

(** Three touchdowns by S.Barkley: the two long ones and one of 10 yards. *)
Definition three_tds : list Pbp.row :=
  two_long_tds ++ [ touchdown_play "S.Barkley" 2 10 (Some "run") ].

(** Five running-back results: one projection missed by 0.4, four exact. *)
Definition rb_results : list accuracy_tracking.AccuracyTracker.result :=
  [ {| accuracy_tracking.AccuracyTracker.position := "RB";
       accuracy_tracking.AccuracyTracker.difference := (4 / 10)%R |};
    {| accuracy_tracking.AccuracyTracker.position := "RB";
       accuracy_tracking.AccuracyTracker.difference := 0%R |};
    {| accuracy_tracking.AccuracyTracker.position := "RB";
       accuracy_tracking.AccuracyTracker.difference := 0%R |};
    {| accuracy_tracking.AccuracyTracker.position := "RB";
       accuracy_tracking.AccuracyTracker.difference := 0%R |};
    {| accuracy_tracking.AccuracyTracker.position := "RB";
       accuracy_tracking.AccuracyTracker.difference := 0%R |} ].

(** The defense line of the end-to-end example. *)
Definition dst_line : gmap string Q :=
  list_to_map [("sacks", 3); ("interceptions", 1); ("points_allowed", 17);
               ("yards_allowed", 250)].

(** A projection analyzer whose return analyzer holds 100 return yards per
    game allowed by NYG, and a defense row for that line. *)
Definition analyzer_with_nyg : fantasy_projections.ProjectionAnalyzer.t :=
  {| fantasy_projections.ProjectionAnalyzer.pattern_analyzer :=
       fantasy_projections.HistoricalPatternAnalyzer.init;
     fantasy_projections.ProjectionAnalyzer.return_analyzer :=
       fantasy_projections.DefenseReturnAnalyzer.loaded {[ "NYG" := 100 ]} |}.

Definition dst_row : fantasy_projections.ProjectionAnalyzer.projection :=
  fantasy_projections.ProjectionAnalyzer.scraped "Minnesota Vikings" dst_line.

End Sample.

(** * Reference quantities used to state the results *)

(** The value of the first band of [table] that contains [x], 0 when no band
    does. *)
Definition first_band_value (table : list fantasy_projections.DefenseScorer.band)
    (x : Q) : Q :=
  match List.find (fantasy_projections.DefenseScorer.in_band x) table with
  | Some b => snd b
  | None => 0
  end.

(** The return points as the specification words them: the expected return
    yards allowed by the opposing team, or the league average when the
    opponent has no data, divided by 10. *)
Definition stated_return_points
    (ra : fantasy_projections.DefenseReturnAnalyzer.t) (opponent : string) : Q :=
  fantasy_projections.DefenseReturnAnalyzer.get_expected_return_yards ra opponent / 10.

(** The regular-season plays of an imported frame. *)
Definition regular_season (imported : list Pbp.row) : list Pbp.row :=
  List.filter (fun p => String.eqb (Pbp.season_type p) "REG") imported.

(** The number of touchdowns on record for an actor. *)
Definition recorded_tds (imported : list Pbp.row) (actor : string) : nat :=
  length (fantasy_projections.HistoricalPatternAnalyzer.player_td_data
            (regular_season imported) actor).

(** The number of made field goals on record for a kicker. *)
Definition recorded_fgs (imported : list Pbp.row) (kicker : string) : nat :=
  length (fantasy_projections.HistoricalPatternAnalyzer.made_fgs
            (regular_season imported) kicker).

(** The league-average touchdown bonus: 5% of touchdowns at 3 points and 3%
    at 5 points. *)
Definition league_average_td_bonus (projected_tds : Q) : Q :=
  Py.round1 (projected_tds * 0.05 * 3 + projected_tds * 0.03 * 5).

(** The length band of one touchdown: 5 from 50 yards on, 3 from 40 up to 50,
    nothing below (or when the length is missing). *)
Definition length_band_bonus (yards : option Q) : Q :=
  if Py.cell_ge yards 50 then 5 else if Py.cell_ge yards 40 then 3 else 0.

(** Whether a play is a rush or a pass. *)
Definition run_or_pass (td : Pbp.row) : bool :=
  text_is (Pbp.play_type td) "run" || text_is (Pbp.play_type td) "pass".


(** The passing-yardage bonus of [calculate_projected_score]. *)
Definition passing_tier (yards : Q) : Q :=
  if Py.ge yards 400 then 5 else if Py.ge yards 300 then 3 else 0.

(** The rushing (and receiving) yardage bonus: each tier reached adds its bonus. *)
Definition yardage_tiers (yards : Q) : Q :=
  (if Py.ge yards 100 then 5 else 0) + (if Py.ge yards 200 then 10 else 0).

(** The bonus of a key that may be absent. *)
Definition tier_of (tier : Q -> Q) (d : gmap string Q) (key : string) : Q :=
  match d !! key with Some yards => tier yards | None => 0 end.

(** The linear part of the score: rate times count over the keys present. *)
Definition linear_points (d : gmap string Q) : Q :=
  dict_get d "completions" 0 * 1 + dict_get d "passing_yards" 0 * (1 # 25)
  + dict_get d "passing_tds" 0 * 4 + dict_get d "interceptions" 0 * -2
  + dict_get d "sacks" 0 * -1 + dict_get d "rushing_attempts" 0 * 0.2
  + dict_get d "rushing_yards" 0 * (1 # 10) + dict_get d "rushing_tds" 0 * 6
  + dict_get d "receptions" 0 * 1 + dict_get d "receiving_yards" 0 * (1 # 10)
  + dict_get d "receiving_tds" 0 * 6 + dict_get d "fumbles_lost" 0 * -2.

(** The stat keys [FinalLeagueScorer.calculate_projected_score] reads. *)
Definition offense_keys : list string :=
  ["completions"; "passing_yards"; "passing_tds"; "interceptions"; "sacks";
   "rushing_attempts"; "rushing_yards"; "rushing_tds";
   "receptions"; "receiving_yards"; "receiving_tds"; "fumbles_lost"].

(** The extra points and the distance-banded field goals of a kicker row,
    at 1 point per extra point, 3 per field goal under 50 yards and 5 from 50
    yards on. *)
Definition kicker_band_points (d : gmap string Q) : Q :=
  dict_get d "pat" 0 * 1 + dict_get d "fg_0_19" 0 * 3
  + dict_get d "fg_20_29" 0 * 3 + dict_get d "fg_30_39" 0 * 3
  + dict_get d "fg_40_49" 0 * 3 + dict_get d "fg_50plus" 0 * 5.

(** 1 for a true test and 0 for a false one. *)
Definition indicator (b : bool) : Q := if b then 1 else 0.

(** Further sample data. *)
Module Kicks.

(** A regular-season field-goal attempt by [kicker]. *)
Definition field_goal (kicker : string) (result : string) (distance : option Q)
    : Pbp.row :=
  {| Pbp.season_type := "REG"; Pbp.week := 1;
     Pbp.touchdown := Some 0; Pbp.td_player_name := None;
     Pbp.yards_gained := Some 0; Pbp.play_type := Some "field_goal";
     Pbp.fumbled_1_player_name := None; Pbp.fumble_lost := Some 0;
     Pbp.field_goal_attempt := Some 1; Pbp.kicker_player_name := Some kicker;
     Pbp.field_goal_result := Some result; Pbp.kick_distance := distance |}.

(** Five made field goals of J.Tucker, from 25, 33, 38, 47 and 52 yards, and
    one miss from 58. *)
Definition tucker_season : list Pbp.row :=
  [ field_goal "J.Tucker" "made" (Some 25); field_goal "J.Tucker" "made" (Some 33);
    field_goal "J.Tucker" "missed" (Some 58);
    field_goal "J.Tucker" "made" (Some 38); field_goal "J.Tucker" "made" (Some 47);
    field_goal "J.Tucker" "made" (Some 52) ].

End Kicks.

(** A text without whitespace characters. *)
Fixpoint all_nonspace (s : string) : bool :=
  match s with
  | EmptyString => true
  | String c rest => negb (Py.is_space c) && all_nonspace rest
  end.

(** The four shares of a field-goal entry added up. *)
Definition fg_share_total (pattern : fantasy_projections.HistoricalPatternAnalyzer.fg_pattern) : Q :=
  fantasy_projections.HistoricalPatternAnalyzer.fg_pct_0_29 pattern
  + fantasy_projections.HistoricalPatternAnalyzer.fg_pct_30_39 pattern
  + fantasy_projections.HistoricalPatternAnalyzer.fg_pct_40_49 pattern
  + fantasy_projections.HistoricalPatternAnalyzer.fg_pct_50_plus pattern.

(** Rows the scraper builds: the name of each is a stripped link text. *)
Definition scraper_rows
    (rows : string -> list fantasy_projections.ProjectionAnalyzer.projection) : Prop :=
  forall position r,
    r ∈ rows position ->
    exists link_text entries,
      r = fantasy_projections.ProjectionAnalyzer.scraped link_text entries.

(** The projected touchdowns of an offensive row, as [get_week_projections]
    adds them up. *)
Definition total_tds (entries : gmap string Q) : Q :=
  dict_get entries "passing_tds" 0 + dict_get entries "rushing_tds" 0
  + dict_get entries "receiving_tds" 0.

(** A quarterback row without projected touchdowns whose name is a single
    word followed by a space. *)
Definition idle_row : fantasy_projections.ProjectionAnalyzer.projection :=
  {| fantasy_projections.ProjectionAnalyzer.player := "Joe ";
     fantasy_projections.ProjectionAnalyzer.entries :=
       list_to_map [("completions", 20); ("passing_yards", 210);
                    ("passing_tds", 0)] |}.

(** One scraped row per position group. *)
Definition week_rows (position : string)
    : list fantasy_projections.ProjectionAnalyzer.projection :=
  if String.eqb position "QB" then
    [ fantasy_projections.ProjectionAnalyzer.scraped " Joe Burrow "
        (list_to_map [("passing_yards", 310); ("passing_tds", 2)]) ]
  else if String.eqb position "K" then
    [ fantasy_projections.ProjectionAnalyzer.scraped "Justin Tucker"
        (list_to_map [("fg_made", 2); ("pat_made", 3)]) ]
  else if String.eqb position "DST" then [ Sample.dst_row ]
  else [].

(** The part of a value that a guard [if value > 0] lets through. *)
Definition positive_part (x : Q) : Q := if Py.gt x 0 then x else 0.

(** The kinds of step of the score chain of [calculate_weekly_score]: a stat
    at a rate, the passing yards with their bonus, the sacks, a bonus. *)
Definition add_stat (x rate score : Q) : Q :=
  if Py.gt x 0 then score + x * rate else score.

Definition add_passing_yards (yards score : Q) : Q :=
  if Py.gt yards 0 then
    let score :=
      score + yards * saquon_scorer.FinalLeagueScorer.passing_yard
                        saquon_scorer.FinalLeagueScorer.scoring_rules in
    let pass_bonus := saquon_scorer.FinalLeagueScorer.get_weekly_passing_bonuses yards in
    if Py.gt pass_bonus 0 then score + pass_bonus else score
  else score.

Definition add_sacks (sacks : Q) (player_position : option string) (score : Q) : Q :=
  if Py.gt sacks 0 then
    if text_is player_position "QB"
    then score + sacks * saquon_scorer.FinalLeagueScorer.sack
                           saquon_scorer.FinalLeagueScorer.scoring_rules
    else score
  else score.

Definition add_bonus (bonus score : Q) : Q :=
  if Py.gt bonus 0 then score + bonus else score.

(** The weekly score as one sum: every stat counts with its positive part. *)
Definition weekly_score_sum (stats : gmap string Q) (player_position : option string)
    (td_bonus : Q) : Q :=
  let stat key := positive_part (saquon_scorer.FinalLeagueScorer.item stats key) in
  stat "completions" * 1
  + stat "passing_yards" * (1 # 25)
  + saquon_scorer.FinalLeagueScorer.get_weekly_passing_bonuses
      (saquon_scorer.FinalLeagueScorer.item stats "passing_yards")
  + stat "passing_tds" * 4
  - stat "interceptions" * 2
  - (if text_is player_position "QB" then stat "sacks" * 1 else 0)
  + stat "carries" * 0.2
  + stat "rushing_yards" * (1 # 10)
  + stat "rushing_tds" * 6
  + stat "receptions" * 1
  + stat "receiving_yards" * (1 # 10)
  + stat "receiving_tds" * 6
  + stat "two_point_conversions" * 2
  - stat "fumbles_lost" * 2
  + positive_part td_bonus
  + saquon_scorer.FinalLeagueScorer.get_weekly_yardage_bonuses
      (saquon_scorer.FinalLeagueScorer.item stats "rushing_yards")
      (saquon_scorer.FinalLeagueScorer.item stats "receiving_yards").

(** A scorer with the given frames. *)
Definition scorer_with (weekly : Weekly.frame) (plays : list Pbp.row)
    : saquon_scorer.FinalLeagueScorer.t :=
  {| saquon_scorer.FinalLeagueScorer.weekly_reg := weekly;
     saquon_scorer.FinalLeagueScorer.pbp_reg := plays |}.

(** The field-goal table of the sibling analyzer of [td_pattern_analyzer.py]
    after [load_data] and [analyze_fg_patterns] on a fresh object. *)
Definition sibling_fg_table (imported : list Pbp.row)
    : gmap string td_pattern_analyzer.HistoricalPatternAnalyzer.fg_pattern :=
  td_pattern_analyzer.HistoricalPatternAnalyzer.analyze_fg_patterns
    ∅ (regular_season imported).

(** The five band counts of an entry of the sibling table, added up. *)
Definition band_count_total
    (pattern : td_pattern_analyzer.HistoricalPatternAnalyzer.fg_pattern) : Q :=
  td_pattern_analyzer.HistoricalPatternAnalyzer.fg_0_19 pattern
  + td_pattern_analyzer.HistoricalPatternAnalyzer.fg_20_29 pattern
  + td_pattern_analyzer.HistoricalPatternAnalyzer.fg_30_39 pattern
  + td_pattern_analyzer.HistoricalPatternAnalyzer.fg_40_49 pattern
  + td_pattern_analyzer.HistoricalPatternAnalyzer.fg_50_plus pattern.

(** The five band shares of an entry of the sibling table, added up. *)
Definition band_share_total
    (pattern : td_pattern_analyzer.HistoricalPatternAnalyzer.fg_pattern) : Q :=
  td_pattern_analyzer.HistoricalPatternAnalyzer.pct_0_19 pattern
  + td_pattern_analyzer.HistoricalPatternAnalyzer.pct_20_29 pattern
  + td_pattern_analyzer.HistoricalPatternAnalyzer.pct_30_39 pattern
  + td_pattern_analyzer.HistoricalPatternAnalyzer.pct_40_49 pattern
  + td_pattern_analyzer.HistoricalPatternAnalyzer.pct_50_plus pattern.

(** Every play of the list has a recorded kick distance. *)
Definition distances_known (plays : list Pbp.row) : Prop :=
  forall p, In p plays -> is_Some (Pbp.kick_distance p).

(** One result of a tight end, missed by 2.5 points. *)
Definition te_result : accuracy_tracking.AccuracyTracker.result :=
  {| accuracy_tracking.AccuracyTracker.position := "TE";
     accuracy_tracking.AccuracyTracker.difference := (-25 / 10)%R |}.

(** A saved projection of 12.4 points. *)
Definition saved_rb : accuracy_tracking.AccuracyTracker.Saved.row :=
  {| accuracy_tracking.AccuracyTracker.Saved.player := "Saquon Barkley";
     accuracy_tracking.AccuracyTracker.Saved.position := "RB";
     accuracy_tracking.AccuracyTracker.Saved.projected_points := 12.4 |}.

(** The positions a lineup slot takes. *)
Definition slot_accepts (slot pos : string) : bool :=
  if String.eqb slot "QB" then String.eqb pos "QB"
  else if String.eqb slot "RB1" || String.eqb slot "RB2" then String.eqb pos "RB"
  else if String.eqb slot "WR1" || String.eqb slot "WR2" then String.eqb pos "WR"
  else if String.eqb slot "TE" then String.eqb pos "TE"
  else if String.eqb slot "K" then String.eqb pos "K"
  else if String.eqb slot "DST" then String.eqb pos "DST"
  else if String.eqb slot "FLEX"
  then String.eqb pos "RB" || String.eqb pos "WR" || String.eqb pos "TE"
  else false.

(** The slot that the best player of a position goes to. *)
Definition first_slot (pos : string) : option string :=
  if String.eqb pos "QB" then Some "QB"
  else if String.eqb pos "RB" then Some "RB1"
  else if String.eqb pos "WR" then Some "WR1"
  else if String.eqb pos "TE" then Some "TE"
  else if String.eqb pos "K" then Some "K"
  else if String.eqb pos "DST" then Some "DST"
  else None.

(** The starter loop keeps this: every filled slot holds a player of the
    pool in a position the slot takes, [used] holds exactly the names in the
    slots, and no name is in two slots. *)
Definition lineup_ok (pool : list fantasy_projections.ProjectionAnalyzer.Roster.row)
    (st : fantasy_projections.ProjectionAnalyzer.lineup_state) : Prop :=
  (forall slot p,
      st.1 !! slot = Some p ->
      p ∈ pool
      /\ slot_accepts slot (fantasy_projections.ProjectionAnalyzer.Roster.position p) = true
      /\ slot <> "FLEX")
  /\ (forall name,
        name ∈ st.2
        <-> exists slot p,
              st.1 !! slot = Some p
              /\ fantasy_projections.ProjectionAnalyzer.Roster.player p = name)
  /\ (forall slot1 slot2 p1 p2,
        st.1 !! slot1 = Some p1 -> st.1 !! slot2 = Some p2 ->
        fantasy_projections.ProjectionAnalyzer.Roster.player p1
        = fantasy_projections.ProjectionAnalyzer.Roster.player p2 ->
        slot1 = slot2).

(** A player counts at least as many points as another. *)
Definition outscores (a b : fantasy_projections.ProjectionAnalyzer.Roster.row) : Prop :=
  fantasy_projections.ProjectionAnalyzer.Roster.projected_points b
  <= fantasy_projections.ProjectionAnalyzer.Roster.projected_points a.

(** Sample roster entries. *)
Definition rostered (player position : string) (projected_points : Q)
    : fantasy_projections.ProjectionAnalyzer.Roster.row :=
  {| fantasy_projections.ProjectionAnalyzer.Roster.player := player;
     fantasy_projections.ProjectionAnalyzer.Roster.position := position;
     fantasy_projections.ProjectionAnalyzer.Roster.projected_points := projected_points |}.

Definition bo_nix := rostered "Bo Nix" "QB" 17.1.
Definition zach_ertz := rostered "Zach Ertz" "TE" 8.8.

(** A roster of seven. *)
Definition my_roster : list fantasy_projections.ProjectionAnalyzer.Roster.row :=
  [ bo_nix; rostered "Joe Burrow" "QB" 21.4;
    rostered "Bucky Irving" "RB" 14.2; rostered "Alvin Kamara" "RB" 15.0;
    rostered "Chuba Hubbard" "RB" 12.9;
    rostered "Sam LaPorta" "TE" 13.3; zach_ertz ].

(** * Facts *)

(** ** Rounding *)

Section Rounding.

#[global] Instance round_half_even_proper : Proper (Qeq ==> eq) Py.round_half_even.
Proof.
  intros x y Hxy. unfold Py.round_half_even.
  rewrite (Qfloor_comp x y Hxy).
  assert (Hc : Qcompare (x - inject_Z (Qfloor y)) (1 # 2)
               = Qcompare (y - inject_Z (Qfloor y)) (1 # 2)).
  { apply Qcompare_comp; [rewrite Hxy|]; reflexivity. }
  rewrite Hc. reflexivity.
Qed.

#[global] Instance round1_proper : Proper (Qeq ==> Qeq) Py.round1.
Proof.
  intros x y Hxy. unfold Py.round1.
  assert (H10 : x * 10 == y * 10) by (rewrite Hxy; reflexivity).
  rewrite (round_half_even_proper _ _ H10). reflexivity.
Qed.

Example round1_samples :
  Py.round1 0.25 == 0.2 /\ Py.round1 0.35 == 0.4 /\ Py.round1 (-0.26) == -0.3
  /\ Py.round1 40 == 40 /\ Py.round1 6.25 == 6.2.
Proof. vm_compute. repeat split. Qed.

Lemma ge_true x y : Py.ge x y = true <-> y <= x.
Proof. unfold Py.ge. apply Qle_bool_iff. Qed.

Lemma ge_false x y : Py.ge x y = false <-> x < y.
Proof.
  unfold Py.ge. split; intros H.
  - apply Qnot_le_lt. intros Hle. apply Qle_bool_iff in Hle. congruence.
  - destruct (Qle_bool y x) eqn:E; [|reflexivity].
    apply Qle_bool_iff in E. exfalso. apply (Qlt_not_le _ _ H E).
Qed.

End Rounding.

(** Case analysis on every [Py.ge] test of the goal, keeping the order fact. *)
Ltac case_ge :=
  repeat match goal with
  | |- context [Py.ge ?x ?y] =>
      let E := fresh "E" in
      destruct (Py.ge x y) eqn:E;
      [apply ge_true in E | apply ge_false in E]
  end.

(** ** Offensive scoring: the score is a sum of one term per stat key *)

Section OffenseTerms.

Import saquon_scorer.FinalLeagueScorer.
Import fantasy_projections.FinalLeagueScorer.

Lemma when_present_linear d key c s :
  when_present d key (fun v score => score + v * c) s
  == s + dict_get d key 0 * c.
Proof.
  unfold when_present, dict_get. destruct (d !! key); simpl; ring.
Qed.

Lemma when_present_passing d key s :
  when_present d key
    (fun yards score =>
       if Py.ge yards 400
       then score + yards * passing_yard scoring_rules
            + passing_400plus_bonus scoring_rules
       else if Py.ge yards 300
       then score + yards * passing_yard scoring_rules
            + passing_300_399_bonus scoring_rules
       else score + yards * passing_yard scoring_rules) s
  == s + dict_get d key 0 * (1 # 25) + tier_of passing_tier d key.
Proof.
  unfold when_present, dict_get, tier_of, passing_tier.
  destruct (d !! key); simpl; case_ge; ring.
Qed.

Lemma when_present_yardage d key rate s :
  when_present d key
    (fun yards score =>
       if Py.ge yards 200
       then (if Py.ge yards 100 then score + yards * rate + 5
             else score + yards * rate) + 10
       else (if Py.ge yards 100 then score + yards * rate + 5
             else score + yards * rate)) s
  == s + dict_get d key 0 * rate + tier_of yardage_tiers d key.
Proof.
  unfold when_present, dict_get, tier_of, yardage_tiers.
  destruct (d !! key); simpl; case_ge; ring.
Qed.

Lemma projected_score_sum_split d :
  projected_score_sum d ==
    linear_points d + tier_of passing_tier d "passing_yards"
    + tier_of yardage_tiers d "rushing_yards"
    + tier_of yardage_tiers d "receiving_yards".
Proof.
  unfold projected_score_sum, linear_points. cbv zeta.
  change (rushing_100_199_bonus scoring_rules) with 5.
  change (rushing_200plus_bonus scoring_rules) with 10.
  change (receiving_100_199_bonus scoring_rules) with 5.
  change (receiving_200plus_bonus scoring_rules) with 10.
  repeat first
    [ rewrite when_present_linear
    | rewrite when_present_yardage
    | rewrite when_present_passing ].
  simpl. ring.
Qed.

Lemma projected_score_sum_insert_rushing d yards :
  projected_score_sum (<["rushing_yards" := yards]> d)
  == projected_score_sum (delete "rushing_yards" d)
     + yards * (1 # 10) + yardage_tiers yards.
Proof.
  rewrite !projected_score_sum_split.
  unfold linear_points, tier_of, dict_get.
  rewrite lookup_insert_eq, lookup_delete_eq.
  rewrite !lookup_insert_ne, !lookup_delete_ne by done. simpl. ring.
Qed.

Lemma projected_score_sum_insert_receiving d yards :
  projected_score_sum (<["receiving_yards" := yards]> d)
  == projected_score_sum (delete "receiving_yards" d)
     + yards * (1 # 10) + yardage_tiers yards.
Proof.
  rewrite !projected_score_sum_split.
  unfold linear_points, tier_of, dict_get.
  rewrite lookup_insert_eq, lookup_delete_eq.
  rewrite !lookup_insert_ne, !lookup_delete_ne by done. simpl. ring.
Qed.

Lemma projected_score_sum_insert_passing d yards :
  projected_score_sum (<["passing_yards" := yards]> d)
  == projected_score_sum (delete "passing_yards" d)
     + yards * (1 # 25) + passing_tier yards.
Proof.
  rewrite !projected_score_sum_split.
  unfold linear_points, tier_of, dict_get.
  rewrite lookup_insert_eq, lookup_delete_eq.
  rewrite !lookup_insert_ne, !lookup_delete_ne by done. simpl. ring.
Qed.

Lemma get_weekly_yardage_bonuses_tiers rushing_yards receiving_yards :
  get_weekly_yardage_bonuses rushing_yards receiving_yards
  == yardage_tiers rushing_yards + yardage_tiers receiving_yards.
Proof.
  unfold get_weekly_yardage_bonuses, yardage_tiers. simpl.
  case_ge; ring.
Qed.

Lemma yardage_tiers_cases yards :
  (yards < 100 /\ yardage_tiers yards == 0)
  \/ (100 <= yards < 200 /\ yardage_tiers yards == 5)
  \/ (200 <= yards /\ yardage_tiers yards == 5 + 10).
Proof.
  unfold yardage_tiers. case_ge; cbv iota; try (exfalso; lra);
    first [ left; repeat split; lra
          | right; left; repeat split; lra
          | right; right; repeat split; lra ].
Qed.

Lemma passing_tier_cases yards :
  (yards < 300 /\ passing_tier yards == 0)
  \/ (300 <= yards < 400 /\ passing_tier yards == 3)
  \/ (400 <= yards /\ passing_tier yards == 5).
Proof.
  unfold passing_tier. case_ge; cbv iota; try (exfalso; lra);
    first [ left; repeat split; lra
          | right; left; repeat split; lra
          | right; right; repeat split; lra ].
Qed.

Lemma get_weekly_passing_bonuses_tier passing_yards :
  get_weekly_passing_bonuses passing_yards = passing_tier passing_yards.
Proof. reflexivity. Qed.

End OffenseTerms.

(** ** Yardage bonuses *)

Section YardageBonuses.

Import saquon_scorer.FinalLeagueScorer.
Import fantasy_projections.FinalLeagueScorer.

(** C1.  Rushing and receiving yardage bonuses are cumulative.  In the weekly
    scorer, 250 rushing yards add exactly 5 + 10 = 15 and 150 rushing yards add
    exactly 5 to whatever the receiving yards earn, and symmetrically for
    receiving yards.  In the projection scorer, giving any stat record
    250 (150) rushing yards adds to its score the linear yardage points
    250 / 10 (150 / 10) plus exactly 15 (5), whatever the other entries of the
    record are; the same holds for receiving yards.  In general each of the
    two yardages earns 5 from 100 yards on and a further 10 from 200 yards
    on. *)
Theorem yardage_bonuses_cumulative :
  (forall receiving_yards,
      get_weekly_yardage_bonuses 250 receiving_yards
      == (5 + 10) + get_weekly_yardage_bonuses 0 receiving_yards)
  /\ (forall receiving_yards,
      get_weekly_yardage_bonuses 150 receiving_yards
      == 5 + get_weekly_yardage_bonuses 0 receiving_yards)
  /\ (forall rushing_yards,
      get_weekly_yardage_bonuses rushing_yards 250
      == get_weekly_yardage_bonuses rushing_yards 0 + (5 + 10))
  /\ (forall rushing_yards,
      get_weekly_yardage_bonuses rushing_yards 150
      == get_weekly_yardage_bonuses rushing_yards 0 + 5)
  /\ (forall d : gmap string Q,
      calculate_projected_score (<["rushing_yards" := 250]> d)
      == Py.round1 (projected_score_sum (delete "rushing_yards" d)
                    + 250 * (1 # 10) + (5 + 10)))
  /\ (forall d : gmap string Q,
      calculate_projected_score (<["rushing_yards" := 150]> d)
      == Py.round1 (projected_score_sum (delete "rushing_yards" d)
                    + 150 * (1 # 10) + 5))
  /\ (forall d : gmap string Q,
      calculate_projected_score (<["receiving_yards" := 250]> d)
      == Py.round1 (projected_score_sum (delete "receiving_yards" d)
                    + 250 * (1 # 10) + (5 + 10)))
  /\ (forall d : gmap string Q,
      calculate_projected_score (<["receiving_yards" := 150]> d)
      == Py.round1 (projected_score_sum (delete "receiving_yards" d)
                    + 150 * (1 # 10) + 5))
  /\ (forall rushing_yards receiving_yards,
      get_weekly_yardage_bonuses rushing_yards receiving_yards
      == ((if Py.ge rushing_yards 100 then 5 else 0)
          + (if Py.ge rushing_yards 200 then 10 else 0))
         + ((if Py.ge receiving_yards 100 then 5 else 0)
            + (if Py.ge receiving_yards 200 then 10 else 0))).
Proof.
  assert (H0 : forall a b, get_weekly_yardage_bonuses a b
                           == yardage_tiers a + yardage_tiers b)
    by apply get_weekly_yardage_bonuses_tiers.
  split; [intros y; rewrite !H0; change (yardage_tiers 250) with (5 + 10);
          change (yardage_tiers 0) with (0 + 0); ring|].
  split; [intros y; rewrite !H0; change (yardage_tiers 150) with (5 + 0);
          change (yardage_tiers 0) with (0 + 0); ring|].
  split; [intros y; rewrite !H0; change (yardage_tiers 250) with (5 + 10);
          change (yardage_tiers 0) with (0 + 0); ring|].
  split; [intros y; rewrite !H0; change (yardage_tiers 150) with (5 + 0);
          change (yardage_tiers 0) with (0 + 0); ring|].
  split; [intros d; unfold calculate_projected_score;
          rewrite projected_score_sum_insert_rushing; reflexivity|].
  split; [intros d; unfold calculate_projected_score;
          rewrite projected_score_sum_insert_rushing; reflexivity|].
  split; [intros d; unfold calculate_projected_score;
          rewrite projected_score_sum_insert_receiving; reflexivity|].
  split; [intros d; unfold calculate_projected_score;
          rewrite projected_score_sum_insert_receiving; reflexivity|].
  intros a b. apply H0.
Qed.

(** C2.  The passing yardage bonus is not cumulative.  350 passing yards earn
    the 300-399 bonus of 3 only and 420 passing yards the 400+ bonus of 5
    only, in the weekly scorer and, on top of the linear points yards / 25, in
    the projection scorer; and for every yardage the bonus is 0 (below 300),
    3 (from 300 up to but excluding 400) or 5 (from 400 on), so never the sum
    3 + 5 of both. *)
Theorem passing_bonus_not_cumulative :
  get_weekly_passing_bonuses 350 == 3
  /\ get_weekly_passing_bonuses 420 == 5
  /\ (forall d : gmap string Q,
      calculate_projected_score (<["passing_yards" := 350]> d)
      == Py.round1 (projected_score_sum (delete "passing_yards" d)
                    + 350 * (1 # 25) + 3))
  /\ (forall d : gmap string Q,
      calculate_projected_score (<["passing_yards" := 420]> d)
      == Py.round1 (projected_score_sum (delete "passing_yards" d)
                    + 420 * (1 # 25) + 5))
  /\ (forall passing_yards,
      (passing_yards < 300 /\ get_weekly_passing_bonuses passing_yards == 0)
      \/ (300 <= passing_yards < 400
          /\ get_weekly_passing_bonuses passing_yards == 3)
      \/ (400 <= passing_yards
          /\ get_weekly_passing_bonuses passing_yards == 5))
  /\ (forall passing_yards,
      ~ get_weekly_passing_bonuses passing_yards == 3 + 5)
  /\ (forall (d : gmap string Q) passing_yards,
      exists bonus,
        (bonus == 0 \/ bonus == 3 \/ bonus == 5)
        /\ projected_score_sum (<["passing_yards" := passing_yards]> d)
           == projected_score_sum (delete "passing_yards" d)
              + passing_yards * (1 # 25) + bonus).
Proof.
  split; [reflexivity|]. split; [reflexivity|].
  split.
  { intros d. unfold calculate_projected_score.
    rewrite projected_score_sum_insert_passing. reflexivity. }
  split.
  { intros d. unfold calculate_projected_score.
    rewrite projected_score_sum_insert_passing. reflexivity. }
  split.
  { intros y. rewrite get_weekly_passing_bonuses_tier.
    apply passing_tier_cases. }
  split.
  { intros y. rewrite get_weekly_passing_bonuses_tier.
    destruct (passing_tier_cases y) as [[_ H]|[[_ H]|[_ H]]];
      rewrite H; intros Habs; discriminate Habs. }
  intros d y. exists (passing_tier y). split.
  - destruct (passing_tier_cases y) as [[_ H]|[[_ H]|[_ H]]]; auto.
  - apply projected_score_sum_insert_passing.
Qed.

End YardageBonuses.

(** ** Touchdown length bonuses *)

Section TouchdownBonuses.

Import saquon_scorer.FinalLeagueScorer.

Lemma td_bonus_band td :
  td_bonus td = if run_or_pass td then length_band_bonus (Pbp.yards_gained td) else 0.
Proof.
  unfold td_bonus, run_or_pass, length_band_bonus.
  destruct (text_is (Pbp.play_type td) "run");
    destruct (text_is (Pbp.play_type td) "pass"); reflexivity.
Qed.

Lemma length_band_bonus_cases yards :
  (length_band_bonus yards = 5 /\ Py.cell_ge yards 50 = true)
  \/ (length_band_bonus yards = 3
      /\ Py.cell_ge yards 50 = false /\ Py.cell_ge yards 40 = true)
  \/ (length_band_bonus yards = 0
      /\ Py.cell_ge yards 50 = false /\ Py.cell_ge yards 40 = false).
Proof.
  unfold length_band_bonus.
  destruct (Py.cell_ge yards 50); [auto|].
  destruct (Py.cell_ge yards 40); auto.
Qed.

Lemma td_bonus_nonneg td : 0 <= td_bonus td.
Proof.
  rewrite td_bonus_band. destruct (run_or_pass td); [|lra].
  destruct (length_band_bonus_cases (Pbp.yards_gained td))
    as [[-> _]|[[-> _]|[-> _]]]; lra.
Qed.

Lemma foldl_Qplus_shift (l : list Q) a : foldl Qplus a l == a + foldl Qplus 0 l.
Proof.
  revert a. induction l as [|x l IH]; intros a; simpl; [ring|].
  rewrite (IH (a + x)), (IH (0 + x)). ring.
Qed.

Lemma sum_cons x (l : list Q) : Py.sum (x :: l) == x + Py.sum l.
Proof. unfold Py.sum. simpl. rewrite foldl_Qplus_shift. ring. Qed.

Lemma count_cons {A} (p : A -> bool) x l :
  Py.count p (x :: l) == (if p x then 1 else 0) + Py.count p l.
Proof.
  unfold Py.count. simpl. destruct (p x); simpl length.
  - rewrite Nat2Z.inj_succ, <- Z.add_1_l, inject_Z_plus. reflexivity.
  - ring.
Qed.

(** The loop of [get_weekly_td_bonuses] adds up the bonus of every play. *)
Lemma td_loop_sum tds acc :
  foldl (fun total_bonus td =>
           if Py.gt (td_bonus td) 0 then total_bonus + td_bonus td
           else total_bonus) acc tds
  == acc + Py.sum (List.map td_bonus tds).
Proof.
  revert acc.
  induction tds as [|td tds IH]; intros acc; simpl; [unfold Py.sum; simpl; ring|].
  rewrite IH, sum_cons.
  destruct (Py.gt (td_bonus td) 0) eqn:E; [ring|].
  assert (Hz : td_bonus td == 0).
  { pose proof (td_bonus_nonneg td) as Hnn.
    unfold Py.gt in E. apply negb_false_iff, Qle_bool_iff in E. lra. }
  rewrite Hz. ring.
Qed.

Lemma get_weekly_td_bonuses_sum self player_name week :
  get_weekly_td_bonuses self player_name week
  == Py.sum (List.map td_bonus (player_tds self player_name week)).
Proof.
  unfold get_weekly_td_bonuses.
  destruct (player_tds self player_name week) as [|td tds] eqn:E.
  - reflexivity.
  - change (Nat.eqb (length (td :: tds)) 0) with false. cbv iota.
    rewrite td_loop_sum. ring.
Qed.

(** In the weekly scorer every rushing or receiving touchdown earns the
    bonus of its own length band, the highest one it reaches, and nothing
    else is added. *)
Lemma weekly_td_bonus_per_touchdown self player_name week :
  get_weekly_td_bonuses self player_name week
  == Py.sum (List.map
               (fun td => if run_or_pass td
                          then length_band_bonus (Pbp.yards_gained td) else 0)
               (player_tds self player_name week)).
Proof.
  rewrite get_weekly_td_bonuses_sum.
  induction (player_tds self player_name week) as [|td tds IH].
  - reflexivity.
  - simpl List.map. rewrite !sum_cons, IH, td_bonus_band. reflexivity.
Qed.

(** In [scoring_final.py] a touchdown of 50 yards or more is counted in both
    tallies and earns 3 + 5. *)
Lemma scoring_final_per_touchdown pbp :
  scoring_final.td_bonus_points pbp
  == Py.sum (List.map
               (fun td => (if Py.cell_ge (Pbp.yards_gained td) 40 then 3 else 0)
                          + (if Py.cell_ge (Pbp.yards_gained td) 50 then 5 else 0))
               (scoring_final.saquon_tds pbp)).
Proof.
  unfold scoring_final.td_bonus_points, scoring_final.td_40plus,
    scoring_final.td_50plus.
  induction (scoring_final.saquon_tds pbp) as [|td tds IH].
  - reflexivity.
  - simpl List.map. rewrite sum_cons, !count_cons, <- IH.
    destruct (Py.cell_ge (Pbp.yards_gained td) 40);
      destruct (Py.cell_ge (Pbp.yards_gained td) 50); ring.
Qed.

(** C3.  Two touchdowns of 45 and 55 yards.  The weekly scorer awards each
    touchdown its own band only, 3 + 5 = 8 points.  The season script
    [scoring_final.py] counts the 55-yard touchdown among the touchdowns of 40
    yards or more and again among those of 50 or more, and awards
    3 + 3 + 5 = 11 points. *)
Theorem td_length_bonus_45_and_55 :
  get_weekly_td_bonuses (Sample.scorer_of_plays Sample.two_long_tds) "S.Barkley" 1
  == 3 + 5
  /\ scoring_final.td_40plus Sample.two_long_tds == 2
  /\ scoring_final.td_50plus Sample.two_long_tds == 1
  /\ scoring_final.td_bonus_points Sample.two_long_tds == 3 + 3 + 5
  /\ ~ scoring_final.td_bonus_points Sample.two_long_tds == 3 + 5.
Proof.
  split; [vm_compute; reflexivity|].
  split; [vm_compute; reflexivity|].
  split; [vm_compute; reflexivity|].
  split; [vm_compute; reflexivity|].
  vm_compute. discriminate.
Qed.

End TouchdownBonuses.

(** ** End-to-end weekly score *)

Section EndToEnd.

Import saquon_scorer.FinalLeagueScorer.

Lemma short_touchdown_no_bonus play_type :
  get_weekly_td_bonuses (Sample.rb_scorer play_type) "S.Barkley" 1 = 0.
Proof.
  unfold get_weekly_td_bonuses, player_tds, td_bonus. simpl.
  destruct (text_is play_type "run"); [reflexivity|].
  destruct (text_is play_type "pass"); reflexivity.
Qed.

(** The weekly score reads the play-by-play frame only through the fumble
    count and the touchdown bonus. *)
Lemma calculate_weekly_score_ext self self' player_name week :
  weekly_reg self = weekly_reg self' ->
  get_fumbles_from_pbp self player_name week
  = get_fumbles_from_pbp self' player_name week ->
  get_weekly_td_bonuses self player_name week
  = get_weekly_td_bonuses self' player_name week ->
  calculate_weekly_score self player_name week
  = calculate_weekly_score self' player_name week.
Proof.
  intros Hweekly Hfumbles Htds. unfold calculate_weekly_score.
  rewrite Hweekly, Hfumbles, Htds. reflexivity.
Qed.

(** C4.  The stat line carries 20, rushing_yards 150, rushing_tds 1,
    receptions 5, receiving_yards 50, receiving_tds 0, fumbles_lost 0, with one
    touchdown play of 10 yards (of whatever play type), scores
    20 * 0.2 + 150 * 0.1 + 1 * 6 + 5 * 1 + 50 * 0.1 + 5 = 40 in the weekly
    scorer: the touchdown length bonus is 0 and the only yardage bonus is the
    5 points for 100 rushing yards.  The projection scorer gives the same 40.0
    for the line when the carries are supplied under its own key
    rushing_attempts. *)
Theorem end_to_end_rb_line :
  (forall play_type,
      calculate_weekly_score (Sample.rb_scorer play_type) "S.Barkley" 1 == 40)
  /\ 20 * 0.2 + 150 * 0.1 + 1 * 6 + 5 * 1 + 50 * 0.1 + 5 == 40
  /\ (forall play_type,
        get_weekly_td_bonuses (Sample.rb_scorer play_type) "S.Barkley" 1 == 0)
  /\ get_weekly_yardage_bonuses 150 50 == 5
  /\ fantasy_projections.FinalLeagueScorer.calculate_projected_score
       Sample.rb_projection == 40.
Proof.
  split.
  { intros play_type.
    rewrite (calculate_weekly_score_ext _ (Sample.rb_scorer None)).
    - vm_compute. reflexivity.
    - reflexivity.
    - reflexivity.
    - rewrite !short_touchdown_no_bonus. reflexivity. }
  split; [vm_compute; reflexivity|].
  split; [intros play_type; rewrite short_touchdown_no_bonus; reflexivity|].
  split; [vm_compute; reflexivity|].
  vm_compute; reflexivity.
Qed.

(** The projection scorer does not read the key carries. *)
Remark projection_scorer_ignores_carries :
  fantasy_projections.FinalLeagueScorer.calculate_projected_score
    (list_to_map Sample.rb_line) == 36.
Proof. vm_compute. reflexivity. Qed.

End EndToEnd.

(** ** Defense scoring *)

Section Defense.

Import fantasy_projections.DefenseScorer.

(** Case analysis on the [Py.ge] tests of the goal, one at a time, dropping
    the cases the order facts exclude. *)
Ltac case_ge_pruned :=
  repeat match goal with
  | |- context [Py.ge ?x ?y] =>
      let E := fresh "E" in
      destruct (Py.ge x y) eqn:E;
      [apply ge_true in E | apply ge_false in E];
      try (exfalso; lra)
  end.

Lemma band_scan_first_match table x score :
  band_scan table x score == score + first_band_value table x.
Proof.
  unfold first_band_value.
  induction table as [|b rest IH]; simpl.
  - ring.
  - destruct (in_band x b); [reflexivity | exact IH].
Qed.

Lemma points_allowed_bands_disjoint x :
  (length (List.filter (in_band x) points_allowed_scoring) <= 1)%nat.
Proof.
  unfold points_allowed_scoring, in_band. simpl.
  case_ge_pruned; simpl; lia.
Qed.

Lemma yards_allowed_bands_disjoint x :
  (length (List.filter (in_band x) yards_allowed_bonus) <= 1)%nat.
Proof.
  unfold yards_allowed_bonus. simpl. destruct (in_band x _); simpl; lia.
Qed.

(** C7.  The defense line sacks 3, interceptions 1, points_allowed 17,
    yards_allowed 250 scores 3 * 1 + 1 * 2 + 1 + 0 = 6.0: 17 points allowed
    fall in the band 14-20 worth 1, and 250 yards allowed fall outside the
    only yards band 0-99.  Each of the two lookups adds the value of the
    first band, in table order, that contains the number, or nothing when no
    band contains it; and no number lies in two bands of a table. *)
Theorem defense_end_to_end :
  calculate_projected_score Sample.dst_line == 6
  /\ 3 * 1 + 1 * 2 + 1 + 0 == 6
  /\ first_band_value points_allowed_scoring 17 == 1
  /\ List.find (in_band 17) points_allowed_scoring = Some ((14, 20), 1)
  /\ first_band_value yards_allowed_bonus 250 == 0
  /\ List.find (in_band 250) yards_allowed_bonus = None
  /\ (forall table x score,
        band_scan table x score == score + first_band_value table x)
  /\ (forall x,
        (length (List.filter (in_band x) points_allowed_scoring) <= 1)%nat)
  /\ (forall x,
        (length (List.filter (in_band x) yards_allowed_bonus) <= 1)%nat).
Proof.
  split; [vm_compute; reflexivity|].
  split; [vm_compute; reflexivity|].
  split; [vm_compute; reflexivity|].
  split; [vm_compute; reflexivity|].
  split; [vm_compute; reflexivity|].
  split; [vm_compute; reflexivity|].
  split; [apply band_scan_first_match|].
  split; [apply points_allowed_bands_disjoint|].
  apply yards_allowed_bands_disjoint.
Qed.

End Defense.

(** ** Defense projections and return yardage *)

Section ReturnYardage.

Import fantasy_projections.DefenseReturnAnalyzer.
Import fantasy_projections.ProjectionAnalyzer.

Lemma get_expected_return_yards_known ra opponent yards :
  return_yards_allowed ra !! opponent = Some yards ->
  get_expected_return_yards ra opponent = yards.
Proof. intros H. unfold get_expected_return_yards. by rewrite H. Qed.

Lemma get_expected_return_yards_unknown ra opponent :
  return_yards_allowed ra !! opponent = None ->
  get_expected_return_yards ra opponent = league_avg ra.
Proof. intros H. unfold get_expected_return_yards. by rewrite H. Qed.

(** The claim of C8 fails on the code.  With 100 return yards per game
    allowed by NYG on record, a defense that meets NYG should get
    100 / 10 = 10 return points and 6.0 + 10 = 16.0 in all; the code
    publishes 6.2 return points and 12.2 in all.  Even against the league
    average the stated return points are 62.5 / 10 = 6.25, not 6.2. *)
Lemma defense_projection_ignores_opponent :
  entries (project_defense Sample.analyzer_with_nyg Sample.dst_row)
    !! "projected_points" = Some 12.2
  /\ entries (project_defense Sample.analyzer_with_nyg Sample.dst_row)
       !! "return_points" = Some 6.2
  /\ fantasy_projections.DefenseScorer.calculate_projected_score
       (entries Sample.dst_row) == 6
  /\ stated_return_points (return_analyzer Sample.analyzer_with_nyg) "NYG" == 10
  /\ ~ 12.2 == Py.round1
                 (fantasy_projections.DefenseScorer.calculate_projected_score
                    (entries Sample.dst_row)
                  + stated_return_points
                      (return_analyzer Sample.analyzer_with_nyg) "NYG")
  /\ stated_return_points (return_analyzer Sample.analyzer_with_nyg) "DAL" == 6.25
  /\ ~ 6.2 == stated_return_points (return_analyzer Sample.analyzer_with_nyg) "DAL".
Proof.
  split; [vm_compute; reflexivity|].
  split; [vm_compute; reflexivity|].
  split; [vm_compute; reflexivity|].
  split; [vm_compute; reflexivity|].
  split; [vm_compute; discriminate|].
  split; [vm_compute; reflexivity|].
  vm_compute; discriminate.
Qed.

(** C8, as the code has it.  For every defense row the published score is
    the base defense score plus the return points, rounded to one decimal,
    where the return points are the league average return yards of the
    return analyzer divided by 10 and rounded to one decimal.  The per-team
    table is not consulted: with the league average 62.5 set at construction
    the return points are 6.2 whatever the table holds. *)
Theorem defense_projection_return_points :
  (forall self proj,
      entries (project_defense self proj) !! "projected_points"
      = Some (Py.round1
                (fantasy_projections.DefenseScorer.calculate_projected_score
                   (entries proj)
                 + Py.round1 (league_avg (return_analyzer self) / 10)))
      /\ entries (project_defense self proj) !! "return_points"
         = Some (Py.round1 (league_avg (return_analyzer self) / 10))
      /\ entries (project_defense self proj) !! "expected_return_yards"
         = Some (league_avg (return_analyzer self)))
  /\ (forall table, Py.round1 (league_avg (loaded table) / 10) == 6.2)
  /\ (forall pa table proj,
        exists published,
          entries (project_defense
                     {| pattern_analyzer := pa; return_analyzer := loaded table |}
                     proj) !! "projected_points" = Some published
          /\ published
             == Py.round1
                  (fantasy_projections.DefenseScorer.calculate_projected_score
                     (entries proj) + 6.2)).
Proof.
  split.
  { intros self proj. unfold project_defense. cbn [entries].
    rewrite lookup_insert_ne, lookup_insert_ne, lookup_insert_eq by done.
    rewrite lookup_insert_eq.
    rewrite lookup_insert_ne, lookup_insert_eq by done. done. }
  split.
  { intros table. vm_compute. reflexivity. }
  intros pa table proj. eexists. split.
  { unfold project_defense. cbn [entries].
    rewrite lookup_insert_ne, lookup_insert_ne, lookup_insert_eq by done.
    reflexivity. }
  apply round1_proper.
  assert (H : Py.round1 (league_avg (loaded table) / 10) == 6.2)
    by (vm_compute; reflexivity).
  cbn [return_analyzer]. rewrite H. reflexivity.
Qed.

End ReturnYardage.

(** ** Names: [strip], [split] and the short form *)

Section Names.

Import fantasy_projections.HistoricalPatternAnalyzer.

Lemma space_is_space c :
  Nat.eqb (Ascii.nat_of_ascii c) 32 = true -> Py.is_space c = true.
Proof.
  intros H. apply Nat.eqb_eq in H. unfold Py.is_space. rewrite H. reflexivity.
Qed.

Lemma nonspace_not_space c :
  Py.is_space c = false -> Nat.eqb (Ascii.nat_of_ascii c) 32 = false.
Proof.
  intros H. destruct (Nat.eqb (Ascii.nat_of_ascii c) 32) eqn:E; [|reflexivity].
  apply space_is_space in E. congruence.
Qed.

Lemma lstrip_head s :
  Py.lstrip s = EmptyString
  \/ exists c r, Py.lstrip s = String c r /\ Py.is_space c = false.
Proof.
  induction s as [|c r IH]; simpl; [auto|].
  destruct (Py.is_space c) eqn:E; [exact IH|]. right. eauto.
Qed.

Lemma rstrip_cons c r :
  Py.rstrip (String c r)
  = match Py.rstrip r with
    | EmptyString => if Py.is_space c then EmptyString else String c EmptyString
    | kept => String c kept
    end.
Proof. reflexivity. Qed.

Lemma rstrip_cons_nonspace c r :
  Py.is_space c = false -> Py.rstrip (String c r) = String c (Py.rstrip r).
Proof.
  intros E. rewrite rstrip_cons. destruct (Py.rstrip r); [rewrite E|]; reflexivity.
Qed.

Lemma rstrip_idem s : Py.rstrip (Py.rstrip s) = Py.rstrip s.
Proof.
  induction s as [|c r IH]; [reflexivity|].
  rewrite rstrip_cons. destruct (Py.rstrip r) as [|d k] eqn:E.
  - destruct (Py.is_space c) eqn:Ec; [reflexivity|].
    rewrite rstrip_cons. simpl. rewrite Ec. reflexivity.
  - rewrite rstrip_cons, IH. reflexivity.
Qed.

Lemma rstrip_fixed_tail c w :
  Py.rstrip (String c w) = String c w ->
  Py.rstrip w = w /\ (Py.is_space c = true -> w <> EmptyString).
Proof.
  rewrite rstrip_cons. destruct (Py.rstrip w) as [|d k] eqn:E.
  - destruct (Py.is_space c) eqn:Ec; [discriminate|].
    intros H. injection H as <-. split; [reflexivity | discriminate].
  - intros H. injection H as <-. split; [reflexivity | discriminate].
Qed.

Lemma append_char_nonempty cur d : cur +:+ String d EmptyString <> EmptyString.
Proof. destruct cur; discriminate. Qed.

Lemma append_cons c s t : String c s +:+ t = String c (s +:+ t).
Proof. reflexivity. Qed.

Lemma append_empty_r s : s +:+ EmptyString = s.
Proof.
  induction s as [|c s IH]; [reflexivity|]. rewrite append_cons, IH. reflexivity.
Qed.

Lemma append_assoc a b c : (a +:+ b) +:+ c = a +:+ (b +:+ c).
Proof.
  induction a as [|x a IH]; [reflexivity|]. rewrite !append_cons, IH. reflexivity.
Qed.

Lemma split_cons_nonspace c w :
  Py.is_space c = false ->
  Py.split (String c w) = Py.split_from (String c EmptyString) w.
Proof. intros Ec. unfold Py.split. simpl. rewrite Ec. reflexivity. Qed.

Lemma split_from_word_pending w cur :
  cur <> EmptyString -> Py.split_from cur w <> [].
Proof.
  revert cur. induction w as [|d w IH]; intros cur Hcur; simpl.
  - destruct cur; [contradiction | discriminate].
  - destruct (Py.is_space d).
    + destruct cur; [contradiction | discriminate].
    + apply IH, append_char_nonempty.
Qed.

Lemma split_from_nonempty w cur :
  Py.rstrip w = w -> w <> EmptyString -> Py.split_from cur w <> [].
Proof.
  revert cur. induction w as [|d w IH]; intros cur Hfix Hne; [contradiction|].
  apply rstrip_fixed_tail in Hfix as [Hfix Htail]. simpl.
  destruct (Py.is_space d) eqn:Ed.
  - destruct cur; [apply IH; auto | discriminate].
  - apply split_from_word_pending, append_char_nonempty.
Qed.

(** A word being read, then a space somewhere, then text that does not end
    in whitespace: at least two words come out, the first one starting with
    the word being read. *)
Lemma split_from_two w cur :
  cur <> EmptyString -> Py.contains_space w = true -> Py.rstrip w = w ->
  exists x second others, Py.split_from cur w = (cur +:+ x) :: second :: others.
Proof.
  revert cur. induction w as [|d w IH]; intros cur Hcur Hsp Hfix; [discriminate|].
  apply rstrip_fixed_tail in Hfix as [Hfix Htail]. simpl in Hsp |- *.
  destruct (Py.is_space d) eqn:Ed.
  - destruct cur as [|c0 cur0]; [contradiction|].
    destruct (Py.split_from EmptyString w) as [|second others] eqn:E.
    + exfalso. apply (split_from_nonempty w EmptyString); auto.
    + exists EmptyString, second, others. by rewrite append_empty_r.
  - rewrite (nonspace_not_space _ Ed) in Hsp. simpl in Hsp.
    destruct (IH (cur +:+ String d EmptyString)) as (x & second & others & E);
      auto using append_char_nonempty.
    exists (String d x), second, others. rewrite E, append_assoc. reflexivity.
Qed.

Example split_samples :
  Py.split "Joe Burrow" = ["Joe"; "Burrow"]
  /\ Py.split "  Amon-Ra  St. Brown " = ["Amon-Ra"; "St."; "Brown"]
  /\ Py.split "Joe " = ["Joe"]
  /\ Py.split " " = []
  /\ Py.strip "  Joe Burrow  " = "Joe Burrow"
  /\ short_name "Joe Burrow" = Some "J.Burrow"
  /\ short_name "Amon-Ra St. Brown" = Some "A.St."
  /\ short_name "Philadelphia" = None.
Proof. vm_compute. repeat split. Qed.

(** A stripped name that contains a space has a short form. *)
Lemma short_name_stripped link_text :
  Py.contains_space (Py.strip link_text) = true ->
  is_Some (short_name (Py.strip link_text)).
Proof.
  unfold Py.strip.
  destruct (lstrip_head link_text) as [E | (c & r & E & Ec)]; rewrite E.
  - discriminate.
  - rewrite (rstrip_cons_nonspace _ _ Ec). simpl. intros Hsp.
    rewrite (nonspace_not_space _ Ec) in Hsp. simpl in Hsp.
    unfold short_name. rewrite (split_cons_nonspace _ _ Ec).
    destruct (split_from_two (Py.rstrip r) (String c EmptyString))
      as (x & second & others & Hsplit);
      [discriminate | assumption | apply rstrip_idem |].
    rewrite Hsplit. simpl. eauto.
Qed.

End Names.

(** ** Pattern tables and the fallback *)

Section PatternTables.

Import fantasy_projections.HistoricalPatternAnalyzer.

(** A loop that skips some keys and stores an entry for the others leaves a
    skipped key as it found it. *)
Lemma foldl_skip_insert {V} (skip : string -> bool) (entry : string -> V)
    (keys : list string) (table : gmap string V) (k : string) :
  skip k = true ->
  foldl (fun table x => if skip x then table else <[x := entry x]> table)
        table keys !! k
  = table !! k.
Proof.
  intros Hk. revert table.
  induction keys as [|x keys IH]; intros table; simpl; [reflexivity|].
  rewrite IH. destruct (skip x) eqn:Ex; [reflexivity|].
  apply lookup_insert_ne. intros ->. congruence.
Qed.

Lemma filter_all {A} (l : list A) : List.filter (fun _ => true) l = l.
Proof. induction l as [|x l IH]; simpl; [|rewrite IH]; reflexivity. Qed.

Lemma count_below {A} (l : list A) (n : nat) :
  (length l < n)%nat ->
  Py.lt (Py.count (fun _ => true) l) (inject_Z (Z.of_nat n)) = true.
Proof.
  intros Hlt. unfold Py.count, Py.lt. rewrite filter_all.
  apply negb_true_iff. destruct (Qle_bool _ _) eqn:E; [|reflexivity].
  apply Qle_bool_iff in E. rewrite <- Zle_Qle in E. lia.
Qed.

Lemma analyze_td_patterns_below_threshold table pbp_data player :
  (length (player_td_data pbp_data player) < 3)%nat ->
  analyze_td_patterns table pbp_data !! player = table !! player.
Proof.
  intros Hlt. unfold analyze_td_patterns.
  apply (foldl_skip_insert
           (fun player => Py.lt (Py.count (fun _ => true)
                                   (player_td_data pbp_data player)) 3)
           (fun player => td_pattern_of (player_td_data pbp_data player))).
  apply (count_below _ 3 Hlt).
Qed.

Lemma analyze_fg_patterns_below_threshold table pbp_data kicker :
  (length (made_fgs pbp_data kicker) < 5)%nat ->
  analyze_fg_patterns table pbp_data !! kicker = table !! kicker.
Proof.
  intros Hlt. unfold analyze_fg_patterns.
  apply (foldl_skip_insert
           (fun kicker => Py.lt (Py.count (fun _ => true)
                                   (made_fgs pbp_data kicker)) 5)
           (fun kicker => fg_pattern_of (made_fgs pbp_data kicker))).
  apply (count_below _ 5 Hlt).
Qed.

Lemma sibling_analyze_fg_patterns_below_threshold table pbp_data kicker :
  (length (td_pattern_analyzer.HistoricalPatternAnalyzer.made_fgs pbp_data kicker) < 5)%nat ->
  td_pattern_analyzer.HistoricalPatternAnalyzer.analyze_fg_patterns table pbp_data
    !! kicker = table !! kicker.
Proof.
  intros Hlt. unfold td_pattern_analyzer.HistoricalPatternAnalyzer.analyze_fg_patterns.
  apply (foldl_skip_insert
           (fun kicker =>
              Py.lt (Py.count (fun _ => true)
                       (td_pattern_analyzer.HistoricalPatternAnalyzer.made_fgs
                          pbp_data kicker)) 5)
           (fun kicker =>
              td_pattern_analyzer.HistoricalPatternAnalyzer.fg_pattern_of
                (td_pattern_analyzer.HistoricalPatternAnalyzer.made_fgs
                   pbp_data kicker))).
  apply (count_below _ 5 Hlt).
Qed.

Lemma load_data_td_below_threshold imported actor :
  (recorded_tds imported actor < 3)%nat ->
  td_patterns (load_data init imported) !! actor = None.
Proof.
  intros Hlt. unfold load_data. simpl.
  rewrite analyze_td_patterns_below_threshold by exact Hlt.
  apply lookup_empty.
Qed.

Lemma load_data_fg_below_threshold imported kicker :
  (recorded_fgs imported kicker < 5)%nat ->
  fg_patterns (load_data init imported) !! kicker = None.
Proof.
  intros Hlt. unfold load_data. simpl.
  rewrite analyze_fg_patterns_below_threshold by exact Hlt.
  apply lookup_empty.
Qed.

Lemma get_player_td_bonus_not_found self player_name short projected_tds :
  short_name player_name = Some short ->
  td_patterns self !! short = None ->
  get_player_td_bonus self player_name projected_tds
  = Some (league_average_td_bonus projected_tds).
Proof.
  intros Hshort Hnone. unfold get_player_td_bonus.
  destruct (Py.contains_space player_name); [|reflexivity].
  rewrite Hshort. simpl. rewrite Hnone. reflexivity.
Qed.

Lemma get_player_td_bonus_no_space self player_name projected_tds :
  Py.contains_space player_name = false ->
  get_player_td_bonus self player_name projected_tds
  = Some (league_average_td_bonus projected_tds).
Proof. intros H. unfold get_player_td_bonus. rewrite H. reflexivity. Qed.

Lemma get_player_td_bonus_stripped self link_text projected_tds :
  is_Some (get_player_td_bonus self (Py.strip link_text) projected_tds).
Proof.
  unfold get_player_td_bonus.
  destruct (Py.contains_space (Py.strip link_text)) eqn:Hsp; [|eauto].
  destruct (short_name_stripped _ Hsp) as [short ->]. simpl.
  destruct (td_patterns self !! short); eauto.
Qed.

Lemma get_kicker_points_not_found self kicker_name short projected_fgs projected_pats :
  short_name kicker_name = Some short ->
  fg_patterns self !! short = None ->
  get_kicker_points self kicker_name projected_fgs projected_pats
  = Some (Py.round1 (projected_pats * 1 + projected_fgs * 3.3)).
Proof.
  intros Hshort Hnone. unfold get_kicker_points.
  destruct (Py.contains_space kicker_name); [|reflexivity].
  rewrite Hshort. simpl. rewrite Hnone. reflexivity.
Qed.

Lemma get_kicker_points_no_space self kicker_name projected_fgs projected_pats :
  Py.contains_space kicker_name = false ->
  get_kicker_points self kicker_name projected_fgs projected_pats
  = Some (Py.round1 (projected_pats * 1 + projected_fgs * 3.3)).
Proof. intros H. unfold get_kicker_points. rewrite H. reflexivity. Qed.

Lemma get_kicker_points_stripped self link_text projected_fgs projected_pats :
  is_Some (get_kicker_points self (Py.strip link_text) projected_fgs projected_pats).
Proof.
  unfold get_kicker_points.
  destruct (Py.contains_space (Py.strip link_text)) eqn:Hsp; [|eauto].
  destruct (short_name_stripped _ Hsp) as [short ->]. simpl.
  destruct (fg_patterns self !! short); eauto.
Qed.

(** The fallback of the sibling [get_kicker_fg_distribution]: the band
    shares 5%, 20%, 35%, 30% and 10% at 3, 3, 3, 3 and 5 points, that is 3.2
    points per field goal. *)
Lemma sibling_fg_distribution_fallback
    (self : td_pattern_analyzer.HistoricalPatternAnalyzer.t) kicker_name projected_fgs :
  td_pattern_analyzer.HistoricalPatternAnalyzer.fg_patterns self !! kicker_name = None ->
  td_pattern_analyzer.HistoricalPatternAnalyzer.distribution self kicker_name projected_fgs
  = (projected_fgs * 0.05, projected_fgs * 0.20, projected_fgs * 0.35,
     projected_fgs * 0.30, projected_fgs * 0.10)
  /\ td_pattern_analyzer.HistoricalPatternAnalyzer.get_kicker_fg_distribution
       self kicker_name projected_fgs
     == Py.round1 (projected_fgs * 3.2).
Proof.
  intros Hnone.
  unfold td_pattern_analyzer.HistoricalPatternAnalyzer.get_kicker_fg_distribution,
    td_pattern_analyzer.HistoricalPatternAnalyzer.distribution.
  rewrite Hnone. split; [reflexivity|].
  apply round1_proper. ring.
Qed.

Example three_tds_entry :
  td_patterns (load_data init Sample.three_tds) !! "S.Barkley"
  = Some {| td_pct_40_49 := 1 / 3; td_pct_50_plus := 1 / 3 |}
  /\ td_patterns (load_data init Sample.two_long_tds) !! "S.Barkley" = None.
Proof. vm_compute. auto. Qed.

(** C5.  The code breaks the claim on the name "Joe " (one word and a
    trailing space), an actor with no touchdown on record.  The guard
    [' ' in player_name] lets the name through, [split()] yields the single
    word, and the lookup indexes the second word and raises, for every table
    and every projected count, where the claim promises the league-average
    bonus round(1 * 0.05 * 3 + 1 * 0.03 * 5, 1) = 0.3.  The sibling
    [get_player_td_bonus_expectation] of td_pattern_analyzer.py returns that
    0.3 for the same name. *)
Theorem td_bonus_lookup_raises_on_single_word :
  Py.contains_space "Joe " = true
  /\ Py.split "Joe " = ["Joe"]
  /\ get_player_td_bonus init "Joe " 1 = None
  /\ (forall self projected_tds,
        get_player_td_bonus self "Joe " projected_tds = None)
  /\ league_average_td_bonus 1 == 0.3
  /\ td_pattern_analyzer.HistoricalPatternAnalyzer.get_player_td_bonus_expectation
       td_pattern_analyzer.HistoricalPatternAnalyzer.init "Joe " 1 == 0.3.
Proof.
  split; [reflexivity|]. split; [reflexivity|]. split; [reflexivity|].
  split; [intros self projected_tds; reflexivity|].
  split; vm_compute; reflexivity.
Qed.

(** The part of the claim that the code keeps.  An actor with fewer than 3
    touchdowns on record has no entry in the touchdown pattern table, and a
    lookup that resolves to that actor returns the league-average bonus
    round(tds * 0.05 * 3 + tds * 0.03 * 5, 1); so does every lookup whose
    short name is not a key of the table.  For every name free of leading and
    trailing whitespace, as the scraper's stripped names are, the lookup
    returns a value and does not raise. *)
Theorem expected_td_bonus_fallback (imported : list Pbp.row) (actor : string) :
  (recorded_tds imported actor < 3)%nat ->
  td_patterns (load_data init imported) !! actor = None
  /\ (forall player_name projected_tds,
        short_name player_name = Some actor ->
        get_player_td_bonus (load_data init imported) player_name projected_tds
        = Some (Py.round1 (projected_tds * 0.05 * 3 + projected_tds * 0.03 * 5)))
  /\ (forall self player_name short projected_tds,
        short_name player_name = Some short ->
        td_patterns self !! short = None ->
        get_player_td_bonus self player_name projected_tds
        = Some (Py.round1 (projected_tds * 0.05 * 3 + projected_tds * 0.03 * 5)))
  /\ (forall self player_name projected_tds,
        Py.contains_space player_name = false ->
        get_player_td_bonus self player_name projected_tds
        = Some (Py.round1 (projected_tds * 0.05 * 3 + projected_tds * 0.03 * 5)))
  /\ (forall self link_text projected_tds,
        is_Some (get_player_td_bonus self (Py.strip link_text) projected_tds)).
Proof.
  intros Hlt.
  pose proof (load_data_td_below_threshold imported actor Hlt) as Hnone.
  split; [exact Hnone|].
  split; [intros; eapply get_player_td_bonus_not_found; eauto|].
  split; [intros; eapply get_player_td_bonus_not_found; eauto|].
  split; [intros; by apply get_player_td_bonus_no_space|].
  intros. apply get_player_td_bonus_stripped.
Qed.

Lemma expected_td_bonus_fallback_witness :
  (recorded_tds Sample.two_long_tds "S.Barkley" < 3)%nat
  /\ td_patterns (load_data init Sample.two_long_tds) !! "S.Barkley" = None
  /\ get_player_td_bonus (load_data init Sample.two_long_tds) "Saquon Barkley" 1
     = Some (Py.round1 (1 * 0.05 * 3 + 1 * 0.03 * 5)).
Proof.
  assert (H : (recorded_tds Sample.two_long_tds "S.Barkley" < 3)%nat)
    by (vm_compute; lia).
  split; [exact H|].
  destruct (expected_td_bonus_fallback Sample.two_long_tds "S.Barkley" H)
    as (H1 & H2 & _).
  split; [exact H1 | apply H2; reflexivity].
Defined.

(** C6.  For a kicker without an entry in the field-goal table the code of
    [get_kicker_points] pays 3.3 points per projected field goal: one field
    goal and no extra point give 3.3.  The fallback band distribution
    5% / 20% / 35% / 30% / 10% at 3, 3, 3, 3 and 5 points is 3.2 per field
    goal, which is what the sibling [get_kicker_fg_distribution] and the
    kicker scorer's total-only branch pay. *)
Theorem kicker_fallback_rate :
  fg_patterns init !! "J.Tucker" = None
  /\ get_kicker_points init "Justin Tucker" 1 0 = Some 3.3
  /\ Py.round1 (0 * 1 + 1 * 3.2) == 3.2
  /\ ~ 3.3 == Py.round1 (0 * 1 + 1 * 3.2)
  /\ td_pattern_analyzer.HistoricalPatternAnalyzer.get_kicker_fg_distribution
       td_pattern_analyzer.HistoricalPatternAnalyzer.init "Justin Tucker" 1
     == 3.2
  /\ fantasy_projections.KickerScorer.calculate_projected_score {[ "fg" := 1 ]}
     == 3.2
  /\ 0.05 * 3 + 0.20 * 3 + 0.35 * 3 + 0.30 * 3 + 0.10 * 5 == 3.2.
Proof.
  split; [reflexivity|].
  split; [vm_compute; reflexivity|].
  split; [vm_compute; reflexivity|].
  split; [vm_compute; discriminate|].
  split; [vm_compute; reflexivity|].
  split; [vm_compute; reflexivity|].
  vm_compute; reflexivity.
Qed.

(** C10.  A name without a space character never reaches the pattern
    tables: whatever the tables hold, also an entry under that very name,
    the touchdown bonus is the league-average value and the kicker points
    are the fallback value of the code,
    round(pats * 1 + fgs * 3.3, 1); both equal what the empty tables give. *)
Theorem no_space_name_uses_fallback (self : t) (name : string)
    (projected_tds projected_fgs projected_pats : Q) :
  Py.contains_space name = false ->
  get_player_td_bonus self name projected_tds
  = Some (Py.round1 (projected_tds * 0.05 * 3 + projected_tds * 0.03 * 5))
  /\ get_kicker_points self name projected_fgs projected_pats
     = Some (Py.round1 (projected_pats * 1 + projected_fgs * 3.3))
  /\ get_player_td_bonus self name projected_tds
     = get_player_td_bonus init name projected_tds
  /\ get_kicker_points self name projected_fgs projected_pats
     = get_kicker_points init name projected_fgs projected_pats.
Proof.
  intros Hsp.
  rewrite !get_player_td_bonus_no_space, !get_kicker_points_no_space by exact Hsp.
  auto.
Qed.

Lemma no_space_name_uses_fallback_witness :
  Py.contains_space "S.Barkley" = false
  /\ is_Some (td_patterns (load_data init Sample.three_tds) !! "S.Barkley")
  /\ get_player_td_bonus (load_data init Sample.three_tds) "S.Barkley" 1
     = Some 0.3
  /\ get_player_td_bonus (load_data init Sample.three_tds) "Saquon Barkley" 1
     = Some 2.7.
Proof.
  split; [reflexivity|].
  split; [vm_compute; eauto|].
  split; [|vm_compute; reflexivity].
  destruct (no_space_name_uses_fallback (load_data init Sample.three_tds)
              "S.Barkley" 1 0 0 eq_refl) as (H & _).
  rewrite H. vm_compute. reflexivity.
Defined.

End PatternTables.

(** ** Confidence intervals *)

Section ConfidenceIntervals.

Import accuracy_tracking.AccuracyTracker.
Local Open Scope R_scope.

Lemma round_half_even_bound x :
  IZR (round_half_even x) - 1 / 2 <= x <= IZR (round_half_even x) + 1 / 2.
Proof.
  unfold round_half_even. pose proof (Zfloor_bound x) as [Hlo Hhi].
  destruct (Rlt_dec (x - IZR (Zfloor x)) (1 / 2)) as [Hlt|Hge]; [Lra.lra|].
  destruct (Rlt_dec (1 / 2) (x - IZR (Zfloor x))) as [Hgt|Hle].
  - rewrite plus_IZR. Lra.lra.
  - destruct (Z.even (Zfloor x)); [|rewrite plus_IZR]; Lra.lra.
Qed.

Lemma round_half_even_unique x z :
  IZR z - 1 / 2 < x < IZR z + 1 / 2 -> round_half_even x = z.
Proof.
  intros [Hlo Hhi].
  pose proof (round_half_even_bound x) as [Blo Bhi].
  assert (H1 : (round_half_even x < z + 1)%Z) by (apply lt_IZR; rewrite plus_IZR; Lra.lra).
  assert (H2 : (z < round_half_even x + 1)%Z) by (apply lt_IZR; rewrite plus_IZR; Lra.lra).
  lia.
Qed.

Lemma round_half_even_nonneg x : 0 <= x -> (0 <= round_half_even x)%Z.
Proof.
  intros Hx. pose proof (round_half_even_bound x) as [Blo Bhi].
  assert (H : (-1 < round_half_even x)%Z) by (apply lt_IZR; Lra.lra).
  lia.
Qed.

Lemma round1_nonneg x : 0 <= x -> 0 <= round1 x.
Proof.
  intros Hx. unfold round1.
  assert (H : (0 <= round_half_even (x * 10))%Z)
    by (apply round_half_even_nonneg; Lra.lra).
  apply IZR_le in H. Lra.lra.
Qed.

Lemma std_nonneg errors : 0 <= std errors.
Proof. apply sqrt_pos. Qed.

(** Rounding twice the deviation and doubling the rounded deviation differ by
    at most one tenth. *)
Lemma round1_double_gap x : Rabs (round1 (2 * x) - 2 * round1 x) <= 1 / 10.
Proof.
  unfold round1.
  pose proof (round_half_even_bound (2 * x * 10)) as [Alo Ahi].
  pose proof (round_half_even_bound (x * 10)) as [Blo Bhi].
  set (a := round_half_even (2 * x * 10)) in *.
  set (b := round_half_even (x * 10)) in *.
  assert (H1 : (a - 2 * b < 2)%Z).
  { apply lt_IZR. rewrite minus_IZR, mult_IZR. Lra.lra. }
  assert (H2 : (-2 < a - 2 * b)%Z).
  { apply lt_IZR. rewrite minus_IZR, mult_IZR. Lra.lra. }
  assert (H3 : (-1 <= a - 2 * b <= 1)%Z) by lia.
  destruct H3 as [H3 H4]. apply IZR_le in H3, H4.
  rewrite minus_IZR, mult_IZR in H3, H4.
  apply Rabs_le. Lra.lra.
Qed.

Lemma unique_step_elem (l seen : list string) (x : string) :
  x ∈ foldl (fun seen x => if bool_decide (x ∈ seen) then seen else seen ++ [x])
            seen l
  <-> x ∈ seen \/ x ∈ l.
Proof.
  revert seen. induction l as [|y l IH]; intros seen; simpl.
  - rewrite elem_of_nil. tauto.
  - rewrite IH, elem_of_cons. case_bool_decide as Hy.
    + split; [tauto|]. intros [H|[->|H]]; auto.
    + rewrite elem_of_app, list_elem_of_singleton. tauto.
Qed.

Lemma elem_of_unique (l : list string) (x : string) : x ∈ Py.unique l <-> x ∈ l.
Proof. unfold Py.unique. rewrite unique_step_elem, elem_of_nil. tauto. Qed.

Lemma foldl_insert_other {V} (entry : string -> V) (keys : list string)
    (table : gmap string V) (k : string) :
  k ∉ keys ->
  foldl (fun table x => <[x := entry x]> table) table keys !! k = table !! k.
Proof.
  revert table. induction keys as [|x keys IH]; intros table Hout; simpl.
  - reflexivity.
  - apply not_elem_of_cons in Hout as [Hne Hout].
    rewrite IH by exact Hout. by apply lookup_insert_ne.
Qed.

Lemma foldl_insert_all {V} (entry : string -> V) (keys : list string)
    (table : gmap string V) (k : string) :
  k ∈ keys ->
  foldl (fun table x => <[x := entry x]> table) table keys !! k = Some (entry k).
Proof.
  revert table. induction keys as [|x keys IH]; intros table Hin; simpl.
  - by apply elem_of_nil in Hin.
  - destruct (decide (k ∈ keys)) as [Hk|Hk]; [by apply IH|].
    apply elem_of_cons in Hin as [->|Hin]; [|contradiction].
    rewrite foldl_insert_other by exact Hk. apply lookup_insert_eq.
Qed.

Lemma calculate_confidence_intervals_lookup all_results r :
  r ∈ all_results ->
  calculate_confidence_intervals all_results !! position r
  = Some {| pct_68 := round1 (std (errors_of all_results (position r)));
            pct_95 := round1 (2 * std (errors_of all_results (position r)));
            avg_error :=
              round1 (mean (List.map Rabs (errors_of all_results (position r)))) |}.
Proof.
  intros Hin. unfold calculate_confidence_intervals.
  destruct all_results as [|r0 rest] eqn:E; [by apply elem_of_nil in Hin|].
  rewrite <- E in *.
  apply (foldl_insert_all
           (fun pos =>
              {| pct_68 := round1 (std (errors_of all_results pos));
                 pct_95 := round1 (2 * std (errors_of all_results pos));
                 avg_error := round1 (mean (List.map Rabs (errors_of all_results pos))) |})).
  apply elem_of_unique. apply list_elem_of_fmap. eauto.
Qed.

Lemma std_rb_results : std (errors_of Sample.rb_results "RB") = 16 / 100.
Proof.
  change (errors_of Sample.rb_results "RB") with [4 / 10; 0; 0; 0; 0].
  unfold std, mean. cbn [List.map foldl length]. rewrite !pow2_abs.
  apply sqrt_lem_1; simpl; Lra.lra.
Qed.

(** The claim of C9 fails on the code.  Five running-back results with
    differences 0.4, 0, 0, 0, 0 have the population standard deviation 0.16;
    the published one-sigma is round(0.16, 1) = 0.2, the published two-sigma
    is round(0.32, 1) = 0.3, and 0.3 is not 2 * 0.2. *)
Lemma two_sigma_not_twice_one_sigma :
  exists ci,
    calculate_confidence_intervals Sample.rb_results !! "RB" = Some ci
    /\ std (errors_of Sample.rb_results "RB") = 16 / 100
    /\ pct_68 ci = 2 / 10
    /\ pct_95 ci = 3 / 10
    /\ pct_95 ci <> 2 * pct_68 ci.
Proof.
  eexists. split.
  { apply (calculate_confidence_intervals_lookup Sample.rb_results
             {| position := "RB"; difference := 4 / 10 |}).
    constructor. }
  cbn [pct_68 pct_95 position]. rewrite std_rb_results.
  assert (H68 : round1 (16 / 100) = 2 / 10).
  { unfold round1. rewrite (round_half_even_unique _ 2); Lra.lra. }
  assert (H95 : round1 (2 * (16 / 100)) = 3 / 10).
  { unfold round1. rewrite (round_half_even_unique _ 3); Lra.lra. }
  rewrite H68, H95. repeat split; Lra.lra.
Qed.

(** C9, as the code has it.  For every position with at least one recorded
    result the table has an entry; its one-sigma is the population standard
    deviation of the position's differences rounded to one decimal, its
    two-sigma is twice that standard deviation rounded to one decimal; both
    are at least 0; and the two-sigma differs from twice the one-sigma by at
    most 0.1. *)
Theorem confidence_interval_bounds (all_results : list result) (r : result) :
  r ∈ all_results ->
  exists ci,
    calculate_confidence_intervals all_results !! position r = Some ci
    /\ pct_68 ci = round1 (std (errors_of all_results (position r)))
    /\ pct_95 ci = round1 (2 * std (errors_of all_results (position r)))
    /\ 0 <= pct_68 ci
    /\ 0 <= pct_95 ci
    /\ Rabs (pct_95 ci - 2 * pct_68 ci) <= 1 / 10.
Proof.
  intros Hin. eexists. split.
  { apply calculate_confidence_intervals_lookup, Hin. }
  cbn [pct_68 pct_95].
  pose proof (std_nonneg (errors_of all_results (position r))) as Hstd.
  split; [reflexivity|]. split; [reflexivity|].
  split; [apply round1_nonneg, Hstd|].
  split; [apply round1_nonneg; Lra.lra|].
  apply round1_double_gap.
Qed.

Lemma confidence_interval_bounds_witness :
  exists ci,
    calculate_confidence_intervals Sample.rb_results !! "RB" = Some ci
    /\ 0 <= pct_68 ci
    /\ 0 <= pct_95 ci
    /\ Rabs (pct_95 ci - 2 * pct_68 ci) <= 1 / 10.
Proof.
  destruct (confidence_interval_bounds Sample.rb_results
              {| position := "RB"; difference := 4 / 10 |})
    as (ci & Hci & _ & _ & H68 & H95 & Hgap).
  { constructor. }
  exists ci. auto.
Defined.

End ConfidenceIntervals.

(** * Further properties *)

(** ** Rounding to tenths *)

Section RoundingTenths.

Lemma round_half_even_near x :
  inject_Z (Py.round_half_even x) - (1 # 2) <= x
  /\ x <= inject_Z (Py.round_half_even x) + (1 # 2).
Proof.
  unfold Py.round_half_even.
  pose proof (Qfloor_le x) as Hlo. pose proof (Qlt_floor x) as Hhi.
  rewrite inject_Z_plus in Hhi. change (inject_Z 1) with 1 in Hhi.
  destruct (Qcompare_spec (x - inject_Z (Qfloor x)) (1 # 2)) as [He|Hl|Hg].
  - destruct (Z.even (Qfloor x));
      [|rewrite inject_Z_plus; change (inject_Z 1) with 1]; split; lra.
  - split; lra.
  - rewrite inject_Z_plus. change (inject_Z 1) with 1. split; lra.
Qed.

Lemma inject_Z_lt_inv a b : inject_Z a < inject_Z b -> (a < b)%Z.
Proof. intros H. rewrite Zlt_Qlt. exact H. Qed.

Lemma round_half_even_mono x y :
  x <= y -> (Py.round_half_even x <= Py.round_half_even y)%Z.
Proof.
  intros Hxy.
  destruct (round_half_even_near x) as [Xlo Xhi].
  destruct (round_half_even_near y) as [Ylo Yhi].
  destruct (Z_le_gt_dec (Py.round_half_even x) (Py.round_half_even y))
    as [Hle|Hgt]; [exact Hle|exfalso].
  assert (H1 : (Py.round_half_even x < Py.round_half_even y + 2)%Z).
  { apply inject_Z_lt_inv. rewrite inject_Z_plus. change (inject_Z 2) with 2. lra. }
  assert (Hsucc : Py.round_half_even x = (Py.round_half_even y + 1)%Z) by lia.
  rewrite Hsucc, inject_Z_plus in Xlo. change (inject_Z 1) with 1 in Xlo.
  assert (Heq : x == y) by lra.
  rewrite (round_half_even_proper _ _ Heq) in Hsucc. lia.
Qed.

Lemma round1_mono x y : x <= y -> Py.round1 x <= Py.round1 y.
Proof.
  intros Hxy. unfold Py.round1.
  assert (H : (Py.round_half_even (x * 10) <= Py.round_half_even (y * 10))%Z)
    by (apply round_half_even_mono; lra).
  rewrite Zle_Qle in H. unfold Qdiv.
  apply Qmult_le_compat_r; [exact H | discriminate].
Qed.

Lemma round1_zero : Py.round1 0 == 0.
Proof. reflexivity. Qed.

End RoundingTenths.

(** ** The projection scorers *)

Section ProjectionScorers.

Import fantasy_projections.FinalLeagueScorer.

Lemma yardage_tiers_mono y1 y2 : y1 <= y2 -> yardage_tiers y1 <= yardage_tiers y2.
Proof.
  intros Hle. unfold yardage_tiers. case_ge; cbv iota; try lra; exfalso; lra.
Qed.

Lemma passing_tier_mono y1 y2 : y1 <= y2 -> passing_tier y1 <= passing_tier y2.
Proof.
  intros Hle. unfold passing_tier. case_ge; cbv iota; try lra; exfalso; lra.
Qed.

Lemma not_offense_key key :
  key ∉ offense_keys ->
  key <> "completions" /\ key <> "passing_yards" /\ key <> "passing_tds"
  /\ key <> "interceptions" /\ key <> "sacks" /\ key <> "rushing_attempts"
  /\ key <> "rushing_yards" /\ key <> "rushing_tds" /\ key <> "receptions"
  /\ key <> "receiving_yards" /\ key <> "receiving_tds" /\ key <> "fumbles_lost".
Proof.
  unfold offense_keys. rewrite !not_elem_of_cons. tauto.
Qed.

Lemma projected_score_sum_insert_unknown d key v :
  key ∉ offense_keys ->
  projected_score_sum (<[key := v]> d) == projected_score_sum d.
Proof.
  intros Hkey. apply not_offense_key in Hkey.
  destruct Hkey as (?&?&?&?&?&?&?&?&?&?&?&?).
  rewrite !projected_score_sum_split.
  unfold linear_points, tier_of, dict_get.
  rewrite !lookup_insert_ne by done. reflexivity.
Qed.

Lemma projected_score_sum_delete_unknown d key :
  key ∉ offense_keys ->
  projected_score_sum (delete key d) == projected_score_sum d.
Proof.
  intros Hkey. apply not_offense_key in Hkey.
  destruct Hkey as (?&?&?&?&?&?&?&?&?&?&?&?).
  rewrite !projected_score_sum_split.
  unfold linear_points, tier_of, dict_get.
  rewrite !lookup_delete_ne by done. reflexivity.
Qed.

(** X1.  The offensive projection scorer reads twelve stat keys and no
    other: writing any value under any other key of a record (the scraped
    passing_attempts, for one) leaves the score unchanged. *)
Theorem projected_score_ignores_other_keys (d : gmap string Q) (key : string) (v : Q) :
  key ∉ offense_keys ->
  calculate_projected_score (<[key := v]> d) == calculate_projected_score d.
Proof.
  intros Hkey. unfold calculate_projected_score.
  rewrite projected_score_sum_insert_unknown by exact Hkey. reflexivity.
Qed.

Lemma projected_score_ignores_other_keys_witness :
  ("passing_attempts" ∉ offense_keys)
  /\ calculate_projected_score (<["passing_attempts" := 35]> Sample.rb_projection)
     == calculate_projected_score Sample.rb_projection.
Proof.
  assert (H : "passing_attempts" ∉ offense_keys).
  { unfold offense_keys. rewrite !not_elem_of_cons, elem_of_nil.
    repeat split; discriminate || tauto. }
  split; [exact H|].
  apply (projected_score_ignores_other_keys Sample.rb_projection _ 35 H).
Defined.

(** Each of the twelve keys, stored with value 0, scores like the missing key. *)
Lemma projected_score_sum_zero_known d key :
  key ∈ offense_keys ->
  projected_score_sum (<[key := 0]> d) == projected_score_sum (delete key d).
Proof.
  unfold offense_keys. rewrite !elem_of_cons, elem_of_nil.
  intros Hkey.
  repeat (destruct Hkey as [->|Hkey];
    [ rewrite !projected_score_sum_split;
      unfold linear_points, tier_of, dict_get;
      rewrite ?lookup_insert_eq, ?lookup_delete_eq;
      rewrite !lookup_insert_ne, !lookup_delete_ne by done;
      cbv beta iota delta [default from_option Datatypes.id];
      try change (passing_tier 0) with 0;
      try change (yardage_tiers 0) with (0 + 0);
      ring | ]).
  contradiction.
Qed.

(** A stat stored as 0 scores exactly like a stat that is missing from
    the record, for every key. *)
Corollary projected_score_zero_is_missing (d : gmap string Q) (key : string) :
  calculate_projected_score (<[key := 0]> d)
  == calculate_projected_score (delete key d).
Proof.
  unfold calculate_projected_score. apply round1_proper.
  destruct (decide (key ∈ offense_keys)) as [Hin|Hout].
  - apply projected_score_sum_zero_known, Hin.
  - rewrite projected_score_sum_insert_unknown, projected_score_sum_delete_unknown
      by exact Hout. reflexivity.
Qed.

(** X2.  The offensive projected score is one formula: the sum of rate times
    count over the twelve keys (missing keys counting 0), plus the passing
    bonus of the passing yards, plus the tier bonuses of the rushing yards and
    of the receiving yards, rounded to one decimal. *)
Theorem projected_score_closed_form (d : gmap string Q) :
  calculate_projected_score d
  == Py.round1
       (dict_get d "completions" 0 * 1 + dict_get d "passing_yards" 0 * (1 # 25)
        + dict_get d "passing_tds" 0 * 4 + dict_get d "interceptions" 0 * -2
        + dict_get d "sacks" 0 * -1 + dict_get d "rushing_attempts" 0 * 0.2
        + dict_get d "rushing_yards" 0 * (1 # 10) + dict_get d "rushing_tds" 0 * 6
        + dict_get d "receptions" 0 * 1 + dict_get d "receiving_yards" 0 * (1 # 10)
        + dict_get d "receiving_tds" 0 * 6 + dict_get d "fumbles_lost" 0 * -2
        + match d !! "passing_yards" with
          | Some yards => if Py.ge yards 400 then 5
                          else if Py.ge yards 300 then 3 else 0
          | None => 0
          end
        + match d !! "rushing_yards" with
          | Some yards => (if Py.ge yards 100 then 5 else 0)
                          + (if Py.ge yards 200 then 10 else 0)
          | None => 0
          end
        + match d !! "receiving_yards" with
          | Some yards => (if Py.ge yards 100 then 5 else 0)
                          + (if Py.ge yards 200 then 10 else 0)
          | None => 0
          end).
Proof.
  unfold calculate_projected_score. apply round1_proper.
  apply projected_score_sum_split.
Qed.

(** X3.  More yards never lower the projected score: the score is
    non-decreasing in the passing yards, in the rushing yards and in the
    receiving yards of a record. *)
Theorem projected_score_monotone_in_yards (d : gmap string Q) (y1 y2 : Q) :
  y1 <= y2 ->
  calculate_projected_score (<["passing_yards" := y1]> d)
  <= calculate_projected_score (<["passing_yards" := y2]> d)
  /\ calculate_projected_score (<["rushing_yards" := y1]> d)
     <= calculate_projected_score (<["rushing_yards" := y2]> d)
  /\ calculate_projected_score (<["receiving_yards" := y1]> d)
     <= calculate_projected_score (<["receiving_yards" := y2]> d).
Proof.
  intros Hle. unfold calculate_projected_score.
  pose proof (yardage_tiers_mono _ _ Hle) as Ht.
  pose proof (passing_tier_mono _ _ Hle) as Hp.
  split; [|split]; apply round1_mono.
  - rewrite !projected_score_sum_insert_passing. lra.
  - rewrite !projected_score_sum_insert_rushing. lra.
  - rewrite !projected_score_sum_insert_receiving. lra.
Qed.

Lemma projected_score_monotone_in_yards_witness :
  calculate_projected_score (<["rushing_yards" := 99]> Sample.rb_projection)
  <= calculate_projected_score (<["rushing_yards" := 100]> Sample.rb_projection).
Proof.
  assert (H : 99 <= 100) by (vm_compute; discriminate).
  apply (projected_score_monotone_in_yards Sample.rb_projection 99 100 H).
Defined.

End ProjectionScorers.

(** Rewrite every lookup in an updated dict to a lookup in the dict below. *)
Ltac dict_lookups :=
  repeat first
    [ rewrite lookup_insert_eq
    | rewrite lookup_delete_eq
    | rewrite lookup_singleton_eq
    | rewrite lookup_empty
    | rewrite lookup_insert_ne by done
    | rewrite lookup_delete_ne by done
    | rewrite lookup_singleton_ne by done ].

(** ** The kicker scorer *)

Section KickerScoring.

Import fantasy_projections.KickerScorer.

Lemma kicker_score_split d :
  calculate_projected_score d
  == Py.round1
       (kicker_band_points d
        + match d !! "fg", d !! "fg_0_19" with
          | Some total_fg, None => total_fg * 3.2
          | _, _ => 0
          end).
Proof.
  unfold calculate_projected_score, kicker_band_points. cbv zeta.
  apply round1_proper.
  destruct (d !! "fg") as [total_fg|] eqn:Efg;
    destruct (d !! "fg_0_19") as [v|] eqn:E19;
    rewrite !when_present_linear; unfold dict_get; rewrite ?E19;
    simpl; ring.
Qed.

(** X4.  The kicker scorer uses the total field-goal count exactly when the
    key fg_0_19 is missing.  With fg_0_19 present the total is ignored.
    With fg_0_19 missing the total is paid at 3.2 points on top of whatever
    the other distance bands of the row already earn. *)
Theorem kicker_total_used_without_shortest_band (d : gmap string Q) (total v : Q) :
  calculate_projected_score (<["fg" := total]> (<["fg_0_19" := v]> d))
  == calculate_projected_score (delete "fg" (<["fg_0_19" := v]> d))
  /\ calculate_projected_score (<["fg" := total]> (delete "fg_0_19" d))
     == Py.round1 (kicker_band_points (delete "fg_0_19" d) + total * 3.2).
Proof.
  split.
  - rewrite !kicker_score_split. apply round1_proper.
    unfold kicker_band_points, dict_get. dict_lookups. reflexivity.
  - rewrite kicker_score_split. apply round1_proper.
    unfold kicker_band_points, dict_get. dict_lookups. reflexivity.
Qed.

End KickerScoring.

(** ** The defense scorer *)

Section DefenseScoring.

Import fantasy_projections.DefenseScorer.

(** Case analysis on the comparisons of the goal, one at a time, dropping
    the cases the order facts exclude. *)
Ltac split_ge :=
  repeat match goal with
  | |- context [Py.ge ?x ?y] =>
      let E := fresh "E" in
      destruct (Py.ge x y) eqn:E;
      [apply ge_true in E | apply ge_false in E];
      try (exfalso; lra)
  end.

(** Choose the disjunct the order facts prove. *)
Ltac pick_case :=
  first [ solve [repeat split; lra] | left; pick_case | right; pick_case ].

(** X6.  A missing points_allowed entry scores like 20 points allowed and a
    missing yards_allowed entry like 300 yards allowed. *)
Theorem defense_missing_allowed_defaults (d : gmap string Q) :
  calculate_projected_score (delete "points_allowed" d)
  == calculate_projected_score (<["points_allowed" := 20]> d)
  /\ calculate_projected_score (delete "yards_allowed" d)
     == calculate_projected_score (<["yards_allowed" := 300]> d).
Proof.
  unfold calculate_projected_score, projected_score_sum, dict_get. cbv zeta.
  split; apply round1_proper; dict_lookups; reflexivity.
Qed.

(** X7.  What the points-allowed lookup adds, for every number: 10 at 0, 7
    on 1-6, 4 on 7-13, 1 on 14-20, 0 on 21-27, -1 on 28-34, -4 on 35-100,
    and nothing for a number in no band: a negative one, one above 100, or a
    fraction strictly between two bands. *)
Theorem points_allowed_band_values (pa score : Q) :
  (pa == 0 /\ band_scan points_allowed_scoring pa score == score + 10)
  \/ (1 <= pa <= 6 /\ band_scan points_allowed_scoring pa score == score + 7)
  \/ (7 <= pa <= 13 /\ band_scan points_allowed_scoring pa score == score + 4)
  \/ (14 <= pa <= 20 /\ band_scan points_allowed_scoring pa score == score + 1)
  \/ (21 <= pa <= 27 /\ band_scan points_allowed_scoring pa score == score + 0)
  \/ (28 <= pa <= 34 /\ band_scan points_allowed_scoring pa score == score + -1)
  \/ (35 <= pa <= 100 /\ band_scan points_allowed_scoring pa score == score + -4)
  \/ ((pa < 0 \/ 0 < pa < 1 \/ 6 < pa < 7 \/ 13 < pa < 14 \/ 20 < pa < 21
       \/ 27 < pa < 28 \/ 34 < pa < 35 \/ 100 < pa)
      /\ band_scan points_allowed_scoring pa score == score).
Proof.
  unfold points_allowed_scoring, band_scan, in_band. simpl fst. simpl snd.
  split_ge; cbn [andb]; cbv iota; pick_case.
Qed.

(** X8.  The yards-allowed lookup adds 3 for 0 to 99 yards allowed and
    nothing otherwise. *)
Theorem yards_allowed_bonus_values (ya score : Q) :
  (0 <= ya <= 99 /\ band_scan yards_allowed_bonus ya score == score + 3)
  \/ ((ya < 0 \/ 99 < ya) /\ band_scan yards_allowed_bonus ya score == score).
Proof.
  unfold yards_allowed_bonus, band_scan, in_band. simpl fst. simpl snd.
  split_ge; cbn [andb]; cbv iota; pick_case.
Qed.

End DefenseScoring.

(** ** Counting rows *)

Section Counting.

Lemma count_nonneg {A} (p : A -> bool) (l : list A) : 0 <= Py.count p l.
Proof.
  unfold Py.count. change 0 with (inject_Z 0). rewrite <- Zle_Qle. lia.
Qed.

Lemma count_all {A} (l : list A) :
  Py.count (fun _ => true) l = inject_Z (Z.of_nat (length l)).
Proof. unfold Py.count. rewrite filter_all. reflexivity. Qed.

Lemma count_nil {A} (p : A -> bool) : Py.count p [] == 0.
Proof. reflexivity. Qed.

(** Four tests of which at most one holds on each row select at most all
    rows between them. *)
Lemma count_four_le {A} (p1 p2 p3 p4 : A -> bool) (l : list A) :
  (forall x, In x l ->
     indicator (p1 x) + indicator (p2 x) + indicator (p3 x) + indicator (p4 x) <= 1) ->
  Py.count p1 l + Py.count p2 l + Py.count p3 l + Py.count p4 l
  <= Py.count (fun _ => true) l.
Proof.
  induction l as [|x l IH]; intros Hone.
  - rewrite !count_nil. lra.
  - rewrite !count_cons. fold (indicator (p1 x)) (indicator (p2 x))
      (indicator (p3 x)) (indicator (p4 x)).
    assert (Hx := Hone x (or_introl eq_refl)).
    assert (Hl := IH (fun y Hy => Hone y (or_intror Hy))).
    lra.
Qed.

(** Four tests of which exactly one holds on each row select all rows
    between them. *)
Lemma count_four_eq {A} (p1 p2 p3 p4 : A -> bool) (l : list A) :
  (forall x, In x l ->
     indicator (p1 x) + indicator (p2 x) + indicator (p3 x) + indicator (p4 x) == 1) ->
  Py.count p1 l + Py.count p2 l + Py.count p3 l + Py.count p4 l
  == Py.count (fun _ => true) l.
Proof.
  induction l as [|x l IH]; intros Hone.
  - rewrite !count_nil. lra.
  - rewrite !count_cons. fold (indicator (p1 x)) (indicator (p2 x))
      (indicator (p3 x)) (indicator (p4 x)).
    assert (Hx := Hone x (or_introl eq_refl)).
    assert (Hl := IH (fun y Hy => Hone y (or_intror Hy))).
    lra.
Qed.

Lemma count_none {A} (l : list A) : Py.count (fun _ => false) l == 0.
Proof.
  induction l as [|x l IH]; [reflexivity|]. rewrite count_cons, IH. lra.
Qed.

Lemma count_at_least {A} (l : list A) (n : nat) :
  (n <= length l)%nat ->
  Py.lt (Py.count (fun _ => true) l) (inject_Z (Z.of_nat n)) = false.
Proof.
  intros Hle. rewrite count_all. unfold Py.lt.
  apply negb_false_iff, Qle_bool_iff. rewrite <- Zle_Qle. lia.
Qed.

Lemma count_positive {A} (l : list A) :
  (0 < length l)%nat -> 0 < Py.count (fun _ => true) l.
Proof.
  intros Hpos. rewrite count_all. change 0 with (inject_Z 0).
  rewrite <- Zlt_Qlt. lia.
Qed.

Lemma fraction_bounds a t : 0 <= a -> a <= t -> 0 < t -> 0 <= a / t /\ a / t <= 1.
Proof.
  intros Ha Hat Ht. split.
  - apply Qle_shift_div_l; [exact Ht | lra].
  - apply Qle_shift_div_r; [exact Ht | lra].
Qed.

End Counting.

(** ** Loops that store entries for some keys *)

Section StoringLoops.

Context {V : Type} (skip : string -> bool) (entry : string -> V).

Lemma foldl_cond_other (keys : list string) (table : gmap string V) (k : string) :
  k ∉ keys ->
  foldl (fun table x => if skip x then table else <[x := entry x]> table)
        table keys !! k
  = table !! k.
Proof.
  revert table. induction keys as [|x keys IH]; intros table Hout; simpl.
  - reflexivity.
  - apply not_elem_of_cons in Hout as [Hne Hout].
    rewrite IH by exact Hout. destruct (skip x); [reflexivity|].
    by apply lookup_insert_ne.
Qed.

Lemma foldl_cond_stored (keys : list string) (table : gmap string V) (k : string) :
  k ∈ keys -> skip k = false ->
  foldl (fun table x => if skip x then table else <[x := entry x]> table)
        table keys !! k
  = Some (entry k).
Proof.
  intros Hin Hk. revert table Hin.
  induction keys as [|x keys IH]; intros table Hin; simpl.
  - by apply elem_of_nil in Hin.
  - destruct (decide (k ∈ keys)) as [Hkeys|Hkeys]; [by apply IH|].
    apply elem_of_cons in Hin as [->|Hin]; [|contradiction].
    rewrite foldl_cond_other by exact Hkeys. rewrite Hk.
    apply lookup_insert_eq.
Qed.

End StoringLoops.

(** ** The pattern tables of the projection analyzer *)

Section PatternEntries.

Import fantasy_projections.HistoricalPatternAnalyzer.

Lemma text_is_true c s : text_is c s = true <-> c = Some s.
Proof.
  unfold text_is. destruct c as [t|]; [|split; discriminate].
  rewrite String.eqb_eq. split; [intros ->; reflexivity | intros [= ->]; reflexivity].
Qed.

Lemma filter_nonempty_elem {A} (f : A -> bool) (l : list A) :
  (0 < length (List.filter f l))%nat -> exists x, x ∈ l /\ f x = true.
Proof.
  destruct (List.filter f l) as [|x rest] eqn:E; simpl; [lia|]. intros _.
  assert (Hin : In x (List.filter f l)) by (rewrite E; left; reflexivity).
  apply filter_In in Hin as [Hin Hf]. exists x.
  split; [by apply list_elem_of_In | exact Hf].
Qed.

Lemma scorer_is_key pbp_data player :
  (0 < length (player_td_data pbp_data player))%nat ->
  player ∈ Py.unique (omap Pbp.td_player_name (td_players pbp_data)).
Proof.
  intros Hpos. apply filter_nonempty_elem in Hpos as (p & Hp & Hname).
  apply elem_of_unique, list_elem_of_omap. exists p.
  split; [exact Hp | by apply text_is_true].
Qed.

Lemma kicker_is_key pbp_data kicker :
  (0 < length (made_fgs pbp_data kicker))%nat ->
  kicker ∈ Py.unique
             (omap Pbp.kicker_player_name
                (List.filter (fun p => Py.cell_eqb (Pbp.field_goal_attempt p) 1)
                   pbp_data)).
Proof.
  intros Hpos. unfold made_fgs in Hpos.
  apply filter_nonempty_elem in Hpos as (p & Hp & _).
  apply list_elem_of_In, filter_In in Hp as [Hp Hname].
  apply elem_of_unique, list_elem_of_omap. exists p.
  split; [by apply list_elem_of_In | by apply text_is_true].
Qed.

Lemma analyze_td_patterns_lookup pbp_data player :
  analyze_td_patterns ∅ pbp_data !! player
  = if decide (3 <= length (player_td_data pbp_data player))%nat
    then Some (td_pattern_of (player_td_data pbp_data player))
    else None.
Proof.
  case_decide as Hn.
  - unfold analyze_td_patterns.
    apply (foldl_cond_stored
             (fun player => Py.lt (Py.count (fun _ => true)
                                     (player_td_data pbp_data player)) 3)
             (fun player => td_pattern_of (player_td_data pbp_data player))).
    + apply scorer_is_key. lia.
    + apply (count_at_least _ 3 Hn).
  - rewrite analyze_td_patterns_below_threshold by lia. apply lookup_empty.
Qed.

Lemma analyze_fg_patterns_lookup pbp_data kicker :
  analyze_fg_patterns ∅ pbp_data !! kicker
  = if decide (5 <= length (made_fgs pbp_data kicker))%nat
    then Some (fg_pattern_of (made_fgs pbp_data kicker))
    else None.
Proof.
  case_decide as Hn.
  - unfold analyze_fg_patterns.
    apply (foldl_cond_stored
             (fun kicker => Py.lt (Py.count (fun _ => true)
                                     (made_fgs pbp_data kicker)) 5)
             (fun kicker => fg_pattern_of (made_fgs pbp_data kicker))).
    + apply kicker_is_key. lia.
    + apply (count_at_least _ 5 Hn).
  - rewrite analyze_fg_patterns_below_threshold by lia. apply lookup_empty.
Qed.

(** X9.  After the first load the touchdown table holds an entry for
    exactly the scorers with at least 3 regular-season touchdowns, and the
    entry is the pair of shares computed from that scorer's own touchdowns. *)
Theorem td_pattern_table_lookup (imported : list Pbp.row) (player : string) :
  td_patterns (load_data init imported) !! player
  = if decide (3 <= recorded_tds imported player)%nat
    then Some (td_pattern_of (player_td_data (regular_season imported) player))
    else None.
Proof. apply analyze_td_patterns_lookup. Qed.

(** The two shares of a touchdown entry are fractions of one total. *)
Lemma td_pattern_of_fractions data :
  (0 < length data)%nat ->
  0 <= td_pct_40_49 (td_pattern_of data)
  /\ 0 <= td_pct_50_plus (td_pattern_of data)
  /\ td_pct_40_49 (td_pattern_of data) + td_pct_50_plus (td_pattern_of data) <= 1.
Proof.
  intros Hpos. unfold td_pattern_of. cbn [td_pct_40_49 td_pct_50_plus].
  set (a := Py.count _ data). set (b := Py.count (fun p => Py.cell_ge _ 50) data).
  set (t := Py.count (fun _ => true) data).
  assert (Ht : 0 < t) by (apply count_positive, Hpos).
  assert (Ha : 0 <= a) by apply count_nonneg.
  assert (Hb : 0 <= b) by apply count_nonneg.
  assert (Hab : a + b <= t).
  { pose proof (count_four_le
                  (fun p => Py.cell_ge (Pbp.yards_gained p) 40
                            && Py.cell_lt (Pbp.yards_gained p) 50)
                  (fun p => Py.cell_ge (Pbp.yards_gained p) 50)
                  (fun _ => false) (fun _ => false) data) as H.
    rewrite !count_none in H. fold a b t in H.
    assert (a + b + 0 + 0 <= t); [|lra].
    apply H. intros p _. unfold indicator.
    destruct (Pbp.yards_gained p) as [y|]; simpl; [|lra].
    unfold Py.lt, Py.ge.
    destruct (Qle_bool 40 y), (Qle_bool 50 y); simpl; lra. }
  destruct (fraction_bounds a t) as [Ha0 Ha1]; [lra..|].
  destruct (fraction_bounds b t) as [Hb0 Hb1]; [lra..|].
  split; [exact Ha0|]. split; [exact Hb0|].
  assert (Hsum : a / t + b / t == (a + b) / t) by (field; lra).
  rewrite Hsum. apply Qle_shift_div_r; [exact Ht | lra].
Qed.

Lemma loaded_td_entry imported short pattern :
  td_patterns (load_data init imported) !! short = Some pattern ->
  0 <= td_pct_40_49 pattern /\ 0 <= td_pct_50_plus pattern
  /\ td_pct_40_49 pattern + td_pct_50_plus pattern <= 1.
Proof.
  change (td_patterns (load_data init imported))
    with (analyze_td_patterns ∅ (regular_season imported)).
  rewrite analyze_td_patterns_lookup.
  case_decide as Hn; [|discriminate]. intros [= <-].
  apply td_pattern_of_fractions. lia.
Qed.

(** X10.  Every entry of the loaded touchdown table holds two shares that
    are at least 0 and add up to at most 1. *)
Theorem td_pattern_shares_are_fractions (imported : list Pbp.row)
    (player : string) (pattern : td_pattern) :
  td_patterns (load_data init imported) !! player = Some pattern ->
  0 <= td_pct_40_49 pattern
  /\ 0 <= td_pct_50_plus pattern
  /\ td_pct_40_49 pattern + td_pct_50_plus pattern <= 1.
Proof. apply loaded_td_entry. Qed.

Lemma td_pattern_shares_are_fractions_witness :
  td_patterns (load_data init Sample.three_tds) !! "S.Barkley"
  = Some {| td_pct_40_49 := 1 / 3; td_pct_50_plus := 1 / 3 |}
  /\ (1 / 3) + (1 / 3) <= 1.
Proof.
  assert (H : td_patterns (load_data init Sample.three_tds) !! "S.Barkley"
              = Some {| td_pct_40_49 := 1 / 3; td_pct_50_plus := 1 / 3 |})
    by (vm_compute; reflexivity).
  split; [exact H|].
  apply (td_pattern_shares_are_fractions _ _ _ H).
Defined.

Lemma round1_nonneg_Q x : 0 <= x -> 0 <= Py.round1 x.
Proof. intros Hx. rewrite <- round1_zero. by apply round1_mono. Qed.

(** X11.  With the loaded tables, the expected touchdown bonus of a
    non-negative projected touchdown count is never negative and never more
    than 5 points per projected touchdown (rounded). *)
Theorem expected_td_bonus_bounds (imported : list Pbp.row) (player_name : string)
    (projected_tds bonus : Q) :
  0 <= projected_tds ->
  get_player_td_bonus (load_data init imported) player_name projected_tds
  = Some bonus ->
  0 <= bonus /\ bonus <= Py.round1 (projected_tds * 5).
Proof.
  intros Htds. unfold get_player_td_bonus.
  assert (Hfallback :
            0 <= Py.round1 (projected_tds * 0.05 * 3 + projected_tds * 0.03 * 5)
            /\ Py.round1 (projected_tds * 0.05 * 3 + projected_tds * 0.03 * 5)
               <= Py.round1 (projected_tds * 5)).
  { split; [apply round1_nonneg_Q | apply round1_mono]; lra. }
  destruct (Py.contains_space player_name);
    [|intros [= Hbonus]; rewrite <- Hbonus; exact Hfallback].
  destruct (short_name player_name) as [short|];
    cbn [mbind option_bind]; [|discriminate].
  destruct (td_patterns (load_data init imported) !! short) as [pattern|] eqn:E;
    [|intros [= Hbonus]; rewrite <- Hbonus; exact Hfallback].
  intros [= Hbonus]. rewrite <- Hbonus.
  apply loaded_td_entry in E as (Ha & Hb & Hab).
  split; [apply round1_nonneg_Q | apply round1_mono]; nra.
Qed.

Lemma expected_td_bonus_bounds_witness :
  get_player_td_bonus (load_data init Sample.three_tds) "Saquon Barkley" 1
  = Some 2.7
  /\ 0 <= 2.7 /\ 2.7 <= Py.round1 (1 * 5).
Proof.
  assert (H : get_player_td_bonus (load_data init Sample.three_tds)
                "Saquon Barkley" 1 = Some 2.7) by (vm_compute; reflexivity).
  assert (H0 : 0 <= 1) by (vm_compute; discriminate).
  split; [exact H|].
  apply (expected_td_bonus_bounds Sample.three_tds "Saquon Barkley" 1 2.7 H0 H).
Defined.

End PatternEntries.

(** ** Field-goal entries and kicker points *)

Section KickerEntries.

Import fantasy_projections.HistoricalPatternAnalyzer.

(** Turn the boolean comparisons among the hypotheses into order facts. *)
Ltac order_facts :=
  repeat match goal with
  | H : Qle_bool _ _ = true |- _ => apply Qle_bool_iff in H
  | H : Qle_bool ?a ?b = false |- _ =>
      assert (b < a) by (apply Qnot_le_lt; intros Hle;
                         apply Qle_bool_iff in Hle; congruence);
      clear H
  end.

Lemma distance_bands_at_most_one (cell : option Q) :
  indicator (Py.cell_lt cell 30)
  + indicator (Py.cell_ge cell 30 && Py.cell_lt cell 40)
  + indicator (Py.cell_ge cell 40 && Py.cell_lt cell 50)
  + indicator (Py.cell_ge cell 50) <= 1.
Proof.
  destruct cell as [y|]; [|vm_compute; discriminate].
  unfold Py.cell_lt, Py.cell_ge, Py.lt, Py.ge, indicator.
  destruct (Qle_bool 30 y) eqn:E30, (Qle_bool 40 y) eqn:E40,
    (Qle_bool 50 y) eqn:E50; simpl; try lra; exfalso; order_facts; lra.
Qed.

Lemma distance_bands_exactly_one (y : Q) :
  indicator (Py.cell_lt (Some y) 30)
  + indicator (Py.cell_ge (Some y) 30 && Py.cell_lt (Some y) 40)
  + indicator (Py.cell_ge (Some y) 40 && Py.cell_lt (Some y) 50)
  + indicator (Py.cell_ge (Some y) 50) == 1.
Proof.
  unfold Py.cell_lt, Py.cell_ge, Py.lt, Py.ge, indicator.
  destruct (Qle_bool 30 y) eqn:E30, (Qle_bool 40 y) eqn:E40,
    (Qle_bool 50 y) eqn:E50; simpl; try lra; exfalso; order_facts; lra.
Qed.

Lemma fg_pattern_of_fractions data :
  (0 < length data)%nat ->
  0 <= fg_pct_0_29 (fg_pattern_of data)
  /\ 0 <= fg_pct_30_39 (fg_pattern_of data)
  /\ 0 <= fg_pct_40_49 (fg_pattern_of data)
  /\ 0 <= fg_pct_50_plus (fg_pattern_of data)
  /\ fg_share_total (fg_pattern_of data) <= 1
  /\ ((forall p, In p data -> is_Some (Pbp.kick_distance p)) ->
      fg_share_total (fg_pattern_of data) == 1).
Proof.
  intros Hpos. unfold fg_share_total, fg_pattern_of.
  cbn [fg_pct_0_29 fg_pct_30_39 fg_pct_40_49 fg_pct_50_plus].
  set (a := Py.count (fun p => Py.cell_lt _ 30) data).
  set (b := Py.count (fun p => Py.cell_ge _ 30 && _) data).
  set (c := Py.count (fun p => Py.cell_ge _ 40 && _) data).
  set (d := Py.count (fun p => Py.cell_ge _ 50) data).
  set (t := Py.count (fun _ => true) data).
  assert (Ht : 0 < t) by (apply count_positive, Hpos).
  assert (Ha : 0 <= a) by apply count_nonneg.
  assert (Hb : 0 <= b) by apply count_nonneg.
  assert (Hc : 0 <= c) by apply count_nonneg.
  assert (Hd : 0 <= d) by apply count_nonneg.
  assert (Hle : a + b + c + d <= t).
  { apply count_four_le. intros p _. apply distance_bands_at_most_one. }
  assert (Hsum : a / t + b / t + c / t + d / t == (a + b + c + d) / t)
    by (field; lra).
  destruct (fraction_bounds a t) as [Ha0 _]; [lra..|].
  destruct (fraction_bounds b t) as [Hb0 _]; [lra..|].
  destruct (fraction_bounds c t) as [Hc0 _]; [lra..|].
  destruct (fraction_bounds d t) as [Hd0 _]; [lra..|].
  repeat (split; [assumption|]). split.
  - rewrite Hsum. apply Qle_shift_div_r; [exact Ht | lra].
  - intros Hknown. rewrite Hsum.
    assert (Heq : a + b + c + d == t).
    { apply count_four_eq. intros p Hp.
      destruct (Hknown p Hp) as [y ->]. apply distance_bands_exactly_one. }
    rewrite Heq. field. lra.
Qed.

Lemma fg_pattern_table_entries_aux imported kicker pattern :
  fg_patterns (load_data init imported) !! kicker = Some pattern ->
  0 <= fg_pct_0_29 pattern /\ 0 <= fg_pct_30_39 pattern
  /\ 0 <= fg_pct_40_49 pattern /\ 0 <= fg_pct_50_plus pattern
  /\ fg_share_total pattern <= 1
  /\ ((forall p, In p (made_fgs (regular_season imported) kicker) ->
                 is_Some (Pbp.kick_distance p)) ->
      fg_share_total pattern == 1).
Proof.
  change (fg_patterns (load_data init imported))
    with (analyze_fg_patterns ∅ (regular_season imported)).
  rewrite analyze_fg_patterns_lookup.
  case_decide as Hn; [|discriminate]. intros [= <-].
  apply fg_pattern_of_fractions. lia.
Qed.

(** X12.  After the first load the field-goal table holds an entry for
    exactly the kickers with at least 5 made regular-season field goals.  The
    four shares of an entry are at least 0 and add up to at most 1, and to
    exactly 1 when every made kick has a recorded distance. *)
Theorem fg_pattern_table_entries (imported : list Pbp.row) (kicker : string) :
  fg_patterns (load_data init imported) !! kicker
  = (if decide (5 <= recorded_fgs imported kicker)%nat
     then Some (fg_pattern_of (made_fgs (regular_season imported) kicker))
     else None)
  /\ (forall pattern,
        fg_patterns (load_data init imported) !! kicker = Some pattern ->
        0 <= fg_pct_0_29 pattern /\ 0 <= fg_pct_30_39 pattern
        /\ 0 <= fg_pct_40_49 pattern /\ 0 <= fg_pct_50_plus pattern
        /\ fg_share_total pattern <= 1
        /\ ((forall p, In p (made_fgs (regular_season imported) kicker) ->
                       is_Some (Pbp.kick_distance p)) ->
            fg_share_total pattern == 1)).
Proof.
  assert (Hlookup :
            fg_patterns (load_data init imported) !! kicker
            = if decide (5 <= recorded_fgs imported kicker)%nat
              then Some (fg_pattern_of (made_fgs (regular_season imported) kicker))
              else None) by apply analyze_fg_patterns_lookup.
  split; [exact Hlookup|].
  intros pattern. apply fg_pattern_table_entries_aux.
Qed.

Example tucker_entry :
  fg_patterns (load_data init Kicks.tucker_season) !! "J.Tucker"
  = Some {| fg_pct_0_29 := 1 / 5; fg_pct_30_39 := 2 / 5;
            fg_pct_40_49 := 1 / 5; fg_pct_50_plus := 1 / 5 |}.
Proof. vm_compute. reflexivity. Qed.

(** X14.  For a name the scraper produces (a stripped one) the kicker
    lookup never raises: it returns either the fallback
    round(pats * 1 + fgs * 3.3, 1) or the value computed from the table entry
    of the name's short form. *)
Theorem kicker_points_on_scraped_names (self : t) (link_text : string)
    (projected_fgs projected_pats : Q) :
  exists points,
    get_kicker_points self (Py.strip link_text) projected_fgs projected_pats
    = Some points
    /\ (points = Py.round1 (projected_pats * 1 + projected_fgs * 3.3)
        \/ exists short pattern,
             short_name (Py.strip link_text) = Some short
             /\ fg_patterns self !! short = Some pattern
             /\ points
                = Py.round1
                    (projected_pats * 1
                     + (projected_fgs
                        * (fg_pct_0_29 pattern + fg_pct_30_39 pattern
                           + fg_pct_40_49 pattern) * 3
                        + projected_fgs * fg_pct_50_plus pattern * 5))).
Proof.
  unfold get_kicker_points.
  destruct (Py.contains_space (Py.strip link_text)) eqn:Hsp; [|eauto].
  destruct (short_name_stripped _ Hsp) as [short Hshort]. rewrite Hshort.
  cbn [mbind option_bind].
  destruct (fg_patterns self !! short) as [pattern|] eqn:E; [|eauto].
  eexists. split; [reflexivity|]. right. eauto.
Qed.

(** X15.  Loading is done once: a second [load_data], whatever frame it is
    given, leaves the object and its two tables as the first load left
    them. *)
Theorem pattern_tables_loaded_once (self : t) (first second : list Pbp.row) :
  load_data (load_data self first) second = load_data self first
  /\ data_loaded (load_data self first) = true.
Proof.
  unfold load_data. destruct (data_loaded self) eqn:E.
  - rewrite E. split; reflexivity.
  - split; reflexivity.
Qed.

Lemma all_nonspace_cons c w :
  all_nonspace (String c w) = true ->
  Py.is_space c = false /\ all_nonspace w = true.
Proof.
  simpl. intros H. apply andb_true_iff in H as [Hc Hw].
  split; [by apply negb_true_iff | exact Hw].
Qed.

(** Reading a word without whitespace appends it to the word being read. *)
Lemma split_from_word w cur rest :
  all_nonspace w = true ->
  Py.split_from cur (w +:+ rest) = Py.split_from (cur +:+ w) rest.
Proof.
  revert cur. induction w as [|c w IH]; intros cur Hw.
  - by rewrite append_empty_r.
  - apply all_nonspace_cons in Hw as [Hc Hw].
    rewrite append_cons. simpl. rewrite Hc, (IH _ Hw), append_assoc.
    reflexivity.
Qed.

(** X16.  The short form of a name is the first character of its first
    word, a dot and its second word; whatever follows the second word (a
    third word, a suffix) is ignored. *)
Theorem short_name_first_two_words (c : Ascii.ascii) (first second rest : string) :
  all_nonspace (String c first) = true ->
  all_nonspace second = true ->
  second <> EmptyString ->
  rest = EmptyString \/ Py.lstrip rest <> rest ->
  short_name (String c first +:+ " " +:+ second +:+ rest)
  = Some (String c ("." +:+ second))
  /\ Py.contains_space (String c first +:+ " " +:+ second +:+ rest) = true.
Proof.
  intros Hfirst Hsecond Hne Hrest. split.
  - unfold short_name, Py.split.
    rewrite (split_from_word _ _ _ Hfirst).
    change (EmptyString +:+ String c first) with (String c first).
    change (" " +:+ second +:+ rest)
      with (String (Ascii.ascii_of_nat 32) (second +:+ rest)).
    cbn [Py.split_from].
    change (Py.is_space (Ascii.ascii_of_nat 32)) with true. cbv iota.
    rewrite (split_from_word _ _ _ Hsecond).
    change (EmptyString +:+ second) with second.
    destruct Hrest as [->|Hrest].
    + destruct second; [contradiction | reflexivity].
    + destruct rest as [|sp r]; [contradiction|].
      simpl in Hrest |- *. destruct (Py.is_space sp); [|contradiction].
      destruct second; [contradiction | reflexivity].
  - clear. induction first as [|d first IH].
    + simpl. destruct (Nat.eqb _ 32); reflexivity.
    + rewrite append_cons in *. simpl in *.
      destruct (Nat.eqb (Ascii.nat_of_ascii c) 32); [reflexivity|].
      simpl in IH. rewrite IH. apply orb_true_r.
Qed.

Lemma short_name_first_two_words_witness :
  short_name "Amon-Ra St. Brown" = Some "A.St.".
Proof.
  destruct (short_name_first_two_words (Ascii.ascii_of_nat 65)
              "mon-Ra" "St." " Brown")
    as [H _]; [reflexivity | reflexivity | discriminate | right; discriminate |].
  exact H.
Defined.

End KickerEntries.

(** ** The weekly projections *)

Section WeekProjections.

Import fantasy_projections.HistoricalPatternAnalyzer.
Import fantasy_projections.ProjectionAnalyzer.

Lemma project_offense_scraped self link_text e :
  is_Some (project_offense self (scraped link_text e)).
Proof.
  unfold project_offense, scraped. cbn [player entries]. cbv zeta.
  destruct (Py.gt _ 0); [|eauto].
  destruct (get_player_td_bonus_stripped (pattern_analyzer self) link_text
              (dict_get e "passing_tds" 0 + dict_get e "rushing_tds" 0
               + dict_get e "receiving_tds" 0)) as [bonus ->].
  cbn [mbind option_bind]. eauto.
Qed.

Lemma project_kicker_scraped self link_text e :
  is_Some (project_kicker self (scraped link_text e)).
Proof.
  unfold project_kicker, scraped. cbn [player entries].
  destruct (get_kicker_points_stripped (pattern_analyzer self) link_text
              (dict_get e "fg_made" 0) (dict_get e "pat_made" 0)) as [points ->].
  cbn [mbind option_bind]. eauto.
Qed.

Lemma project_offense_points self proj out :
  project_offense self proj = Some out ->
  is_Some (entries out !! "projected_points").
Proof.
  unfold project_offense. destruct (Py.gt _ 0).
  - destruct (get_player_td_bonus _ _ _); cbn [mbind option_bind];
      [|discriminate].
    intros [= <-]. cbn [entries]. dict_lookups. eauto.
  - intros [= <-]. cbn [entries]. dict_lookups. eauto.
Qed.

Lemma project_kicker_points self proj out :
  project_kicker self proj = Some out ->
  is_Some (entries out !! "projected_points").
Proof.
  unfold project_kicker.
  destruct (get_kicker_points _ _ _ _); cbn [mbind option_bind]; [|discriminate].
  intros [= <-]. cbn [entries]. dict_lookups. eauto.
Qed.

Lemma project_defense_points self proj :
  is_Some (entries (project_defense self proj) !! "projected_points").
Proof. unfold project_defense. cbn [entries]. dict_lookups. eauto. Qed.

Lemma mapM_group {A B} (f : A -> option B) (P : B -> Prop) (l : list A) :
  (forall x, x ∈ l -> is_Some (f x)) ->
  (forall x y, f x = Some y -> P y) ->
  exists k, mapM f l = Some k /\ length k = length l /\ Forall P k.
Proof.
  intros Hsome HP.
  destruct (mapM_is_Some_2 f l) as [k Hk].
  { apply Forall_forall. intros x Hx. apply Hsome, Hx. }
  exists k. split; [exact Hk|]. split; [symmetry; by eapply length_mapM|].
  apply mapM_Some_1 in Hk. clear Hsome.
  induction Hk as [|x y l k Hxy _ IH]; constructor; eauto.
Qed.

(** X17.  On rows the scraper builds, [get_week_projections] never raises:
    it returns one row for every input row of the six position groups, and
    every returned row carries its projected_points. *)
Theorem week_projections_on_scraper_rows (self : t)
    (rows : string -> list projection) :
  scraper_rows rows ->
  exists out,
    get_week_projections self rows = Some out
    /\ length out
       = (length (rows "QB") + length (rows "RB") + length (rows "WR")
          + length (rows "TE") + length (rows "K") + length (rows "DST"))%nat
    /\ Forall (fun r => is_Some (entries r !! "projected_points")) out.
Proof.
  intros Hrows.
  assert (Hoff : forall position,
             exists k, mapM (project_offense self) (rows position) = Some k
                       /\ length k = length (rows position)
                       /\ Forall (fun r => is_Some (entries r !! "projected_points")) k).
  { intros position. apply mapM_group.
    - intros r Hr. destruct (Hrows position r Hr) as (text & e & ->).
      apply project_offense_scraped.
    - intros x y. apply project_offense_points. }
  assert (Hk : exists k, mapM (project_kicker self) (rows "K") = Some k
                         /\ length k = length (rows "K")
                         /\ Forall (fun r => is_Some (entries r !! "projected_points")) k).
  { apply mapM_group.
    - intros r Hr. destruct (Hrows "K" r Hr) as (text & e & ->).
      apply project_kicker_scraped.
    - intros x y. apply project_kicker_points. }
  destruct (Hoff "QB") as (qb & Eqb & Lqb & Fqb).
  destruct (Hoff "RB") as (rb & Erb & Lrb & Frb).
  destruct (Hoff "WR") as (wr & Ewr & Lwr & Fwr).
  destruct (Hoff "TE") as (te & Ete & Lte & Fte).
  destruct Hk as (k & Ek & Lk & Fk).
  unfold get_week_projections.
  assert (Hgroups :
            mapM (fun position => mapM (project_offense self) (rows position))
                 ["QB"; "RB"; "WR"; "TE"] = Some [qb; rb; wr; te]).
  { apply mapM_Some_2. repeat constructor; assumption. }
  rewrite Hgroups. cbn [mbind option_bind]. rewrite Ek. cbn [mbind option_bind].
  eexists. split; [reflexivity|]. split.
  - cbn [concat]. rewrite !length_app, length_map. simpl. lia.
  - cbn [concat]. rewrite !Forall_app. repeat split; try assumption.
    + constructor.
    + apply Forall_forall. intros r Hr.
      apply list_elem_of_fmap in Hr as (r0 & -> & _).
      apply project_defense_points.
Qed.

Lemma week_rows_scraped : scraper_rows week_rows.
Proof.
  intros position r. unfold week_rows.
  destruct (String.eqb position "QB");
    [|destruct (String.eqb position "K");
      [|destruct (String.eqb position "DST")]];
    rewrite ?list_elem_of_singleton, ?elem_of_nil; intros Hr;
    try contradiction; subst r; eexists _, _; reflexivity.
Qed.

Lemma week_projections_on_scraper_rows_witness :
  exists out,
    get_week_projections Sample.analyzer_with_nyg week_rows = Some out
    /\ length out = 3%nat.
Proof.
  destruct (week_projections_on_scraper_rows Sample.analyzer_with_nyg week_rows
              week_rows_scraped) as (out & Hout & Hlen & _).
  exists out. split; [exact Hout | exact Hlen].
Defined.

(** X19.  A row without projected touchdowns is never looked up in the
    pattern table: whatever its name, also one that would make the lookup
    raise, it gets the base score as projected_points and a td_bonus of 0. *)
Theorem no_touchdowns_no_lookup (self : t) (proj : projection) :
  total_tds (entries proj) <= 0 ->
  exists out,
    project_offense self proj = Some out
    /\ player out = player proj
    /\ entries out !! "td_bonus" = Some 0
    /\ entries out !! "projected_points"
       = Some (fantasy_projections.FinalLeagueScorer.calculate_projected_score
                 (entries proj)).
Proof.
  intros Htds. unfold project_offense. fold (total_tds (entries proj)).
  assert (Hgt : Py.gt (total_tds (entries proj)) 0 = false).
  { unfold Py.gt. apply negb_false_iff, Qle_bool_iff, Htds. }
  rewrite Hgt. eexists. split; [reflexivity|]. cbn [player entries].
  split; [reflexivity|]. split; by dict_lookups.
Qed.

Lemma no_touchdowns_no_lookup_witness :
  get_player_td_bonus init "Joe " 1 = None
  /\ exists out,
       project_offense Sample.analyzer_with_nyg idle_row = Some out
       /\ entries out !! "td_bonus" = Some 0.
Proof.
  split; [reflexivity|].
  assert (H : total_tds (entries idle_row) <= 0) by (vm_compute; discriminate).
  destruct (no_touchdowns_no_lookup Sample.analyzer_with_nyg idle_row H)
    as (out & Hout & _ & Hbonus & _).
  exists out. split; [exact Hout | exact Hbonus].
Defined.

End WeekProjections.

(** ** The weekly scorer and the season script *)

Section WeeklyScorer.

Import saquon_scorer.FinalLeagueScorer.

Lemma sum_app (l1 l2 : list Q) : Py.sum (l1 ++ l2) == Py.sum l1 + Py.sum l2.
Proof.
  induction l1 as [|x l1 IH]; simpl app.
  - unfold Py.sum at 2. simpl. ring.
  - rewrite !sum_cons, IH. ring.
Qed.

Lemma player_tds_app weekly plays1 plays2 player_name week :
  player_tds (scorer_with weekly (plays1 ++ plays2)) player_name week
  = player_tds (scorer_with weekly plays1) player_name week
    ++ player_tds (scorer_with weekly plays2) player_name week.
Proof.
  unfold player_tds, scorer_with. cbn [pbp_reg]. by rewrite !List.filter_app.
Qed.

Lemma td_bonus_at_most_5 td : td_bonus td <= 5.
Proof.
  rewrite td_bonus_band. destruct (run_or_pass td); [|lra].
  destruct (length_band_bonus_cases (Pbp.yards_gained td))
    as [[-> _]|[[-> _]|[-> _]]]; lra.
Qed.

Lemma sum_td_bonus_bounds tds :
  0 <= Py.sum (List.map td_bonus tds)
  /\ Py.sum (List.map td_bonus tds) <= 5 * inject_Z (Z.of_nat (length tds)).
Proof.
  induction tds as [|td tds [IHlo IHhi]].
  - split; vm_compute; discriminate.
  - simpl List.map. rewrite sum_cons. simpl length.
    rewrite Nat2Z.inj_succ, <- Z.add_1_l, inject_Z_plus.
    change (inject_Z 1) with 1.
    pose proof (td_bonus_nonneg td). pose proof (td_bonus_at_most_5 td).
    split; lra.
Qed.

(** X20.  The touchdown length bonus of a week is additive over the
    play-by-play frame: the bonus over two lists of plays put together is the
    sum of the bonuses over each.  It is never negative and never more than 5
    points for each touchdown the player scored that week. *)
Theorem weekly_td_bonus_additive_and_bounded (weekly : Weekly.frame)
    (plays1 plays2 : list Pbp.row) (player_name : string) (week : Z) :
  get_weekly_td_bonuses (scorer_with weekly (plays1 ++ plays2)) player_name week
  == get_weekly_td_bonuses (scorer_with weekly plays1) player_name week
     + get_weekly_td_bonuses (scorer_with weekly plays2) player_name week
  /\ 0 <= get_weekly_td_bonuses (scorer_with weekly plays1) player_name week
  /\ get_weekly_td_bonuses (scorer_with weekly plays1) player_name week
     <= 5 * inject_Z (Z.of_nat (length (player_tds (scorer_with weekly plays1)
                                                   player_name week))).
Proof.
  split.
  - rewrite !get_weekly_td_bonuses_sum, player_tds_app, List.map_app, sum_app.
    reflexivity.
  - rewrite get_weekly_td_bonuses_sum. apply sum_td_bonus_bounds.
Qed.

Lemma positive_part_nonneg x : 0 <= x -> positive_part x == x.
Proof.
  intros Hx. unfold positive_part, Py.gt.
  destruct (Qle_bool x 0) eqn:E; simpl; [|reflexivity].
  apply Qle_bool_iff in E. lra.
Qed.

Lemma add_stat_sum x rate score : add_stat x rate score == score + positive_part x * rate.
Proof. unfold add_stat, positive_part. destruct (Py.gt x 0); ring. Qed.

Lemma add_bonus_sum bonus score : add_bonus bonus score == score + positive_part bonus.
Proof. unfold add_bonus, positive_part. destruct (Py.gt bonus 0); ring. Qed.

Lemma add_sacks_sum sacks player_position score :
  add_sacks sacks player_position score
  == score - (if text_is player_position "QB" then positive_part sacks * 1 else 0).
Proof.
  unfold add_sacks, positive_part.
  destruct (Py.gt sacks 0), (text_is player_position "QB");
    cbn [sack scoring_rules]; ring.
Qed.

Lemma add_passing_yards_sum yards score :
  add_passing_yards yards score
  == score + positive_part yards * (1 # 25) + get_weekly_passing_bonuses yards.
Proof.
  unfold add_passing_yards, positive_part, get_weekly_passing_bonuses, Py.gt, Py.ge.
  cbn [passing_yard passing_400plus_bonus passing_300_399_bonus scoring_rules].
  destruct (Qle_bool yards 0) eqn:E0; simpl negb; cbv iota.
  - apply Qle_bool_iff in E0.
    destruct (Qle_bool 400 yards) eqn:E4; [apply Qle_bool_iff in E4; lra|].
    destruct (Qle_bool 300 yards) eqn:E3; [apply Qle_bool_iff in E3; lra|].
    ring.
  - cbv zeta.
    destruct (Qle_bool 400 yards); [simpl; ring|].
    destruct (Qle_bool 300 yards); simpl; ring.
Qed.

Lemma yardage_bonus_nonneg rushing_yards receiving_yards :
  0 <= get_weekly_yardage_bonuses rushing_yards receiving_yards.
Proof.
  unfold get_weekly_yardage_bonuses.
  cbn [rushing_100_199_bonus rushing_200plus_bonus receiving_100_199_bonus
         receiving_200plus_bonus scoring_rules].
  destruct (Py.ge rushing_yards 100), (Py.ge rushing_yards 200),
    (Py.ge receiving_yards 100), (Py.ge receiving_yards 200);
    vm_compute; discriminate.
Qed.

Lemma score_of_stats_steps stats player_position td_bonus :
  score_of_stats stats player_position td_bonus
  = add_bonus (get_weekly_yardage_bonuses (item stats "rushing_yards")
                                          (item stats "receiving_yards"))
      (add_bonus td_bonus
         (add_stat (item stats "fumbles_lost") (-2)
            (add_stat (item stats "two_point_conversions") 2
               (add_stat (item stats "receiving_tds") 6
                  (add_stat (item stats "receiving_yards") (1 # 10)
                     (add_stat (item stats "receptions") 1
                        (add_stat (item stats "rushing_tds") 6
                           (add_stat (item stats "rushing_yards") (1 # 10)
                              (add_stat (item stats "carries") 0.2
                                 (add_sacks (item stats "sacks") player_position
                                    (add_stat (item stats "interceptions") (-2)
                                       (add_stat (item stats "passing_tds") 4
                                          (add_passing_yards (item stats "passing_yards")
                                             (add_stat (item stats "completions") 1
                                                0)))))))))))))).
Proof. reflexivity. Qed.

Lemma score_of_stats_sum stats player_position td_bonus :
  score_of_stats stats player_position td_bonus
  == weekly_score_sum stats player_position td_bonus.
Proof.
  rewrite score_of_stats_steps.
  rewrite !add_bonus_sum, !add_stat_sum, add_sacks_sum, !add_stat_sum,
    add_passing_yards_sum, add_stat_sum.
  rewrite (positive_part_nonneg (get_weekly_yardage_bonuses _ _))
    by apply yardage_bonus_nonneg.
  unfold weekly_score_sum. cbv zeta.
  destruct (text_is player_position "QB"); ring.
Qed.

(** X21.  The weekly score is one sum: every stat counts at its rate with
    its positive part only (a stat that is 0 or negative adds nothing), the
    sacks count for a quarterback only, and the passing bonus, the touchdown
    length bonus and the yardage bonus are added on top. *)
Theorem weekly_score_is_a_sum (stats : gmap string Q)
    (player_position : option string) (td_bonus : Q) :
  score_of_stats stats player_position td_bonus
  == weekly_score_sum stats player_position td_bonus.
Proof. apply score_of_stats_sum. Qed.

(** For a player whose position is not QB the sacks never change the
    weekly score. *)
Corollary sacks_count_for_quarterbacks_only (stats : gmap string Q)
    (player_position : option string) (td_bonus sacks : Q) :
  player_position <> Some "QB" ->
  score_of_stats (<["sacks" := sacks]> stats) player_position td_bonus
  == score_of_stats (delete "sacks" stats) player_position td_bonus.
Proof.
  intros Hpos.
  assert (Hqb : text_is player_position "QB" = false).
  { destruct (text_is player_position "QB") eqn:E; [|reflexivity].
    apply text_is_true in E. contradiction. }
  rewrite !score_of_stats_sum. unfold weekly_score_sum, item. cbv zeta.
  rewrite Hqb. dict_lookups. reflexivity.
Qed.

(** X22.  The season script pays a touchdown of 50 yards or more twice: its
    touchdown bonus is the length-band bonus of every touchdown (3 from 40
    yards, 5 from 50) plus 3 more for every touchdown of 50 yards or more. *)
Theorem season_script_td_bonus_excess (pbp : list Pbp.row) :
  scoring_final.td_bonus_points pbp
  == Py.sum (List.map (fun td => length_band_bonus (Pbp.yards_gained td))
                      (scoring_final.saquon_tds pbp))
     + 3 * scoring_final.td_50plus pbp
  /\ scoring_final.td_50plus pbp <= scoring_final.td_40plus pbp.
Proof.
  unfold scoring_final.td_bonus_points, scoring_final.td_40plus,
    scoring_final.td_50plus.
  induction (scoring_final.saquon_tds pbp) as [|td tds [IHsum IHle]].
  - split; [reflexivity | vm_compute; discriminate].
  - simpl List.map. rewrite sum_cons, !count_cons.
    assert (Hcases :
              (if Py.cell_ge (Pbp.yards_gained td) 40 then 1 else 0) * 3
              + (if Py.cell_ge (Pbp.yards_gained td) 50 then 1 else 0) * 5
              == length_band_bonus (Pbp.yards_gained td)
                 + 3 * (if Py.cell_ge (Pbp.yards_gained td) 50 then 1 else 0)
              /\ (if Py.cell_ge (Pbp.yards_gained td) 50 then 1 else 0)
                 <= (if Py.cell_ge (Pbp.yards_gained td) 40 then 1 else 0)).
    { unfold length_band_bonus.
      destruct (Pbp.yards_gained td) as [y|]; simpl;
        [|split; [ring | lra]].
      unfold Py.ge.
      destruct (Qle_bool 50 y) eqn:E50, (Qle_bool 40 y) eqn:E40;
        try (split; [ring | lra]).
      apply Qle_bool_iff in E50.
      assert (Qle_bool 40 y = true) by (apply Qle_bool_iff; lra). congruence. }
    destruct Hcases as [Hsum Hle]. split; lra.
Qed.

End WeeklyScorer.

(** ** The field-goal table of the sibling analyzer *)

Section SiblingKickerTable.

Import td_pattern_analyzer.HistoricalPatternAnalyzer.

Lemma foldl_cond_skipped {V} (skip : string -> bool) (entry : string -> V)
    (keys : list string) (table : gmap string V) (k : string) :
  skip k = true ->
  foldl (fun table x => if skip x then table else <[x := entry x]> table)
        table keys !! k
  = table !! k.
Proof.
  intros Hk. revert table. induction keys as [|x keys IH]; intros table; simpl.
  - reflexivity.
  - rewrite IH. destruct (skip x) eqn:E; [reflexivity|].
    apply lookup_insert_ne. intros ->. congruence.
Qed.

(** Turn the boolean comparisons among the hypotheses into order facts. *)
Ltac band_facts :=
  repeat match goal with
  | H : Qle_bool _ _ = true |- _ => apply Qle_bool_iff in H
  | H : Qle_bool ?a ?b = false |- _ =>
      assert (b < a) by (apply Qnot_le_lt; intros Hle;
                         apply Qle_bool_iff in Hle; congruence);
      clear H
  end.

Lemma sibling_fg_table_lookup imported kicker :
  sibling_fg_table imported !! kicker
  = if decide (5 <= length (made_fgs (regular_season imported) kicker))%nat
    then Some (fg_pattern_of (made_fgs (regular_season imported) kicker))
    else None.
Proof.
  unfold sibling_fg_table, analyze_fg_patterns. case_decide as Hn.
  - apply (foldl_cond_stored
             (fun kicker => Py.lt (Py.count (fun _ => true)
                                     (made_fgs (regular_season imported) kicker)) 5)
             (fun kicker => fg_pattern_of (made_fgs (regular_season imported) kicker))).
    + apply (kicker_is_key (regular_season imported) kicker).
      apply (Nat.lt_le_trans 0 5); [lia | exact Hn].
    + apply (count_at_least _ 5 Hn).
  - rewrite (foldl_cond_skipped
               (fun kicker => Py.lt (Py.count (fun _ => true)
                                       (made_fgs (regular_season imported) kicker)) 5)
               (fun kicker => fg_pattern_of (made_fgs (regular_season imported) kicker))).
    + apply lookup_empty.
    + apply (count_below _ 5). lia.
Qed.

Lemma count_five_le {A} (p1 p2 p3 p4 p5 : A -> bool) (l : list A) :
  (forall x, In x l ->
     indicator (p1 x) + indicator (p2 x) + indicator (p3 x) + indicator (p4 x)
     + indicator (p5 x) <= 1) ->
  Py.count p1 l + Py.count p2 l + Py.count p3 l + Py.count p4 l + Py.count p5 l
  <= Py.count (fun _ => true) l.
Proof.
  induction l as [|x l IH]; intros Hone.
  - rewrite !count_nil. lra.
  - rewrite !count_cons. fold (indicator (p1 x)) (indicator (p2 x))
      (indicator (p3 x)) (indicator (p4 x)) (indicator (p5 x)).
    assert (Hx := Hone x (or_introl eq_refl)).
    assert (Hl := IH (fun y Hy => Hone y (or_intror Hy))).
    lra.
Qed.

Lemma count_five_eq {A} (p1 p2 p3 p4 p5 : A -> bool) (l : list A) :
  (forall x, In x l ->
     indicator (p1 x) + indicator (p2 x) + indicator (p3 x) + indicator (p4 x)
     + indicator (p5 x) == 1) ->
  Py.count p1 l + Py.count p2 l + Py.count p3 l + Py.count p4 l + Py.count p5 l
  == Py.count (fun _ => true) l.
Proof.
  induction l as [|x l IH]; intros Hone.
  - rewrite !count_nil. lra.
  - rewrite !count_cons. fold (indicator (p1 x)) (indicator (p2 x))
      (indicator (p3 x)) (indicator (p4 x)) (indicator (p5 x)).
    assert (Hx := Hone x (or_introl eq_refl)).
    assert (Hl := IH (fun y Hy => Hone y (or_intror Hy))).
    lra.
Qed.

Lemma five_bands_at_most_one (cell : option Q) :
  indicator (Py.cell_lt cell 20)
  + indicator (Py.cell_ge cell 20 && Py.cell_lt cell 30)
  + indicator (Py.cell_ge cell 30 && Py.cell_lt cell 40)
  + indicator (Py.cell_ge cell 40 && Py.cell_lt cell 50)
  + indicator (Py.cell_ge cell 50) <= 1.
Proof.
  destruct cell as [y|]; [|vm_compute; discriminate].
  unfold Py.cell_lt, Py.cell_ge, Py.lt, Py.ge, indicator.
  destruct (Qle_bool 20 y) eqn:E20, (Qle_bool 30 y) eqn:E30,
    (Qle_bool 40 y) eqn:E40, (Qle_bool 50 y) eqn:E50;
    simpl; try lra; exfalso; band_facts; lra.
Qed.

Lemma five_bands_exactly_one (y : Q) :
  indicator (Py.cell_lt (Some y) 20)
  + indicator (Py.cell_ge (Some y) 20 && Py.cell_lt (Some y) 30)
  + indicator (Py.cell_ge (Some y) 30 && Py.cell_lt (Some y) 40)
  + indicator (Py.cell_ge (Some y) 40 && Py.cell_lt (Some y) 50)
  + indicator (Py.cell_ge (Some y) 50) == 1.
Proof.
  unfold Py.cell_lt, Py.cell_ge, Py.lt, Py.ge, indicator.
  destruct (Qle_bool 20 y) eqn:E20, (Qle_bool 30 y) eqn:E30,
    (Qle_bool 40 y) eqn:E40, (Qle_bool 50 y) eqn:E50;
    simpl; try lra; exfalso; band_facts; lra.
Qed.

Lemma fg_pattern_of_counts data :
  (5 <= length data)%nat ->
  5 <= total_made (fg_pattern_of data)
  /\ band_count_total (fg_pattern_of data) <= total_made (fg_pattern_of data)
  /\ band_share_total (fg_pattern_of data) <= 1
  /\ (distances_known data ->
      band_count_total (fg_pattern_of data) == total_made (fg_pattern_of data)
      /\ band_share_total (fg_pattern_of data) == 1).
Proof.
  intros Hlen. unfold band_count_total, band_share_total, fg_pattern_of.
  cbv zeta.
  cbn [total_made fg_0_19 fg_20_29 fg_30_39 fg_40_49 fg_50_plus
         pct_0_19 pct_20_29 pct_30_39 pct_40_49 pct_50_plus].
  set (a := Py.count (fun p => Py.cell_lt _ 20) data).
  set (b := Py.count (fun p => Py.cell_ge _ 20 && _) data).
  set (c := Py.count (fun p => Py.cell_ge _ 30 && _) data).
  set (d := Py.count (fun p => Py.cell_ge _ 40 && _) data).
  set (e := Py.count (fun p => Py.cell_ge _ 50) data).
  set (t := Py.count (fun _ => true) data).
  assert (Ht : 5 <= t).
  { unfold t. rewrite count_all. change 5 with (inject_Z 5).
    rewrite <- Zle_Qle. lia. }
  assert (Hle : a + b + c + d + e <= t).
  { apply count_five_le. intros p _. apply five_bands_at_most_one. }
  assert (Hsum : a / t + b / t + c / t + d / t + e / t == (a + b + c + d + e) / t)
    by (field; lra).
  split; [exact Ht|]. split; [exact Hle|]. split.
  - rewrite Hsum. apply Qle_shift_div_r; lra.
  - intros Hknown.
    assert (Heq : a + b + c + d + e == t).
    { apply count_five_eq. intros p Hp.
      destruct (Hknown p Hp) as [y ->]. apply five_bands_exactly_one. }
    split; [exact Heq|]. rewrite Hsum, Heq. field. lra.
Qed.

Lemma sibling_entry_counts imported kicker pattern :
  sibling_fg_table imported !! kicker = Some pattern ->
  5 <= total_made pattern
  /\ band_count_total pattern <= total_made pattern
  /\ band_share_total pattern <= 1
  /\ (distances_known (made_fgs (regular_season imported) kicker) ->
      band_count_total pattern == total_made pattern
      /\ band_share_total pattern == 1).
Proof.
  rewrite sibling_fg_table_lookup. case_decide as Hn; [|discriminate].
  intros [= <-]. by apply fg_pattern_of_counts.
Qed.

(** X23.  Every entry of the sibling analyzer's field-goal table belongs to
    a kicker with at least 5 made field goals; its five distance bands hold at
    most all of them, and exactly all of them (shares adding up to 1) when
    every made kick has a recorded distance. *)
Theorem sibling_fg_bands_partition (imported : list Pbp.row) (kicker : string)
    (pattern : fg_pattern) :
  sibling_fg_table imported !! kicker = Some pattern ->
  5 <= total_made pattern
  /\ band_count_total pattern <= total_made pattern
  /\ band_share_total pattern <= 1
  /\ (distances_known (made_fgs (regular_season imported) kicker) ->
      band_count_total pattern == total_made pattern
      /\ band_share_total pattern == 1).
Proof. apply sibling_entry_counts. Qed.

Lemma sibling_fg_bands_partition_witness :
  exists pattern,
    sibling_fg_table Kicks.tucker_season !! "J.Tucker" = Some pattern
    /\ 5 <= total_made pattern
    /\ band_count_total pattern <= total_made pattern.
Proof.
  assert (H : sibling_fg_table Kicks.tucker_season !! "J.Tucker"
              = Some (fg_pattern_of
                        (made_fgs (regular_season Kicks.tucker_season) "J.Tucker")))
    by (vm_compute; reflexivity).
  eexists. split; [exact H|].
  destruct (sibling_fg_bands_partition _ _ _ H) as (H5 & Hle & _).
  split; [exact H5 | exact Hle].
Defined.

End SiblingKickerTable.

(** ** The table of confidence intervals *)

Section ConfidenceTable.

Import accuracy_tracking.AccuracyTracker.
Local Open Scope R_scope.

Lemma round_half_even_mono_R x y :
  x <= y -> (round_half_even x <= round_half_even y)%Z.
Proof.
  intros Hxy.
  pose proof (round_half_even_bound x) as [Xlo Xhi].
  pose proof (round_half_even_bound y) as [Ylo Yhi].
  destruct (Z_le_gt_dec (round_half_even x) (round_half_even y)) as [Hle|Hgt];
    [exact Hle|].
  assert (H1 : (round_half_even y + 1 <= round_half_even x)%Z) by lia.
  apply IZR_le in H1. rewrite plus_IZR in H1.
  assert (Heq : x = y) by (apply Rle_antisym; Lra.lra).
  subst y. lia.
Qed.

Lemma round1_mono_R x y : x <= y -> round1 x <= round1 y.
Proof.
  intros Hxy. unfold round1.
  assert (H : (round_half_even (x * 10) <= round_half_even (y * 10))%Z)
    by (apply round_half_even_mono_R; Lra.lra).
  apply IZR_le in H. Lra.lra.
Qed.

Lemma round1_zero_R : round1 0 = 0.
Proof.
  unfold round1. rewrite (round_half_even_unique _ 0); Lra.lra.
Qed.

Lemma foldl_Rplus_nonneg (l : list R) a :
  0 <= a -> Forall (fun x => 0 <= x) l -> 0 <= foldl Rplus a l.
Proof.
  revert a. induction l as [|x l IH]; intros a Ha Hl; simpl; [exact Ha|].
  apply Forall_cons in Hl as [Hx Hl]. apply IH; [Lra.lra | exact Hl].
Qed.

Lemma mean_nonneg (l : list R) : Forall (fun x => 0 <= x) l -> 0 <= mean l.
Proof.
  intros Hl. unfold mean.
  pose proof (foldl_Rplus_nonneg l 0 (Rle_refl 0) Hl) as Hsum.
  destruct l as [|x l]; [simpl; Lra.lra|].
  apply Rle_mult_inv_pos; [exact Hsum|]. apply lt_0_INR. simpl. lia.
Qed.

Lemma foldl_Rplus_const (l : list R) a d :
  Forall (fun x => x = d) l -> foldl Rplus a l = a + d * INR (length l).
Proof.
  revert a. induction l as [|x l IH]; intros a Hl.
  - simpl. Lra.lra.
  - apply Forall_cons in Hl as [-> Hl]. cbn [foldl]. rewrite (IH _ Hl).
    change (length (d :: l)) with (S (length l)). rewrite S_INR. Lra.lra.
Qed.

Lemma mean_const (l : list R) d :
  l <> [] -> Forall (fun x => x = d) l -> mean l = d.
Proof.
  intros Hne Hl. unfold mean. rewrite (foldl_Rplus_const l 0 d Hl).
  assert (Hpos : 0 < INR (length l)).
  { apply lt_0_INR. destruct l; [contradiction | simpl; lia]. }
  field. Lra.lra.
Qed.

Lemma std_const (l : list R) d :
  l <> [] -> Forall (fun x => x = d) l -> std l = 0.
Proof.
  intros Hne Hl. unfold std. rewrite (mean_const l d Hne Hl).
  rewrite (mean_const _ 0).
  - apply sqrt_0.
  - destruct l; [contradiction | discriminate].
  - apply Forall_fmap. eapply Forall_impl; [exact Hl|].
    intros x ->. simpl. unfold Rminus. rewrite Rplus_opp_r, Rabs_R0. Lra.lra.
Qed.

Lemma errors_of_elem all_results pos e :
  e ∈ errors_of all_results pos
  <-> exists r, r ∈ all_results /\ position r = pos /\ difference r = e.
Proof.
  unfold errors_of. rewrite list_elem_of_fmap. split.
  - intros (r & -> & Hr). apply list_elem_of_In, filter_In in Hr as [Hr Hpos].
    apply String.eqb_eq in Hpos. exists r.
    split; [by apply list_elem_of_In | auto].
  - intros (r & Hr & Hpos & <-). exists r. split; [reflexivity|].
    apply list_elem_of_In, filter_In. split; [by apply list_elem_of_In|].
    by apply String.eqb_eq.
Qed.

Lemma confidence_table_entry all_results pos ci :
  calculate_confidence_intervals all_results !! pos = Some ci ->
  exists r, r ∈ all_results /\ position r = pos.
Proof.
  intros Hci.
  destruct (decide (pos ∈ List.map position all_results)) as [Hin|Hout].
  - apply list_elem_of_fmap in Hin as (r & -> & Hr). eauto.
  - exfalso. unfold calculate_confidence_intervals in Hci.
    destruct all_results as [|r0 rest]; [by rewrite lookup_empty in Hci|].
    rewrite foldl_insert_other in Hci.
    + by rewrite lookup_empty in Hci.
    + by rewrite elem_of_unique.
Qed.

(** X25.  The table of confidence intervals has an entry for exactly the
    positions that occur in the results; in every entry the one-sigma is at
    least 0 and at most the two-sigma, and the average error is at least 0. *)
Theorem confidence_table_keys_and_order (all_results : list result) (pos : string) :
  (is_Some (calculate_confidence_intervals all_results !! pos)
   <-> exists r, r ∈ all_results /\ position r = pos)
  /\ (forall ci,
        calculate_confidence_intervals all_results !! pos = Some ci ->
        0 <= pct_68 ci /\ pct_68 ci <= pct_95 ci /\ 0 <= avg_error ci).
Proof.
  split.
  - split.
    + intros [ci Hci]. by eapply confidence_table_entry.
    + intros (r & Hr & <-).
      rewrite (calculate_confidence_intervals_lookup all_results r Hr). eauto.
  - intros ci Hci.
    destruct (confidence_table_entry _ _ _ Hci) as (r & Hr & <-).
    rewrite (calculate_confidence_intervals_lookup all_results r Hr) in Hci.
    injection Hci as <-. cbn [pct_68 pct_95 avg_error].
    pose proof (std_nonneg (errors_of all_results (position r))) as Hstd.
    split; [apply round1_nonneg, Hstd|].
    split; [apply round1_mono_R; Lra.lra|].
    apply round1_nonneg, mean_nonneg, Forall_fmap, Forall_forall.
    intros x _. apply Rabs_pos.
Qed.

(** X26.  A position whose results all show the same difference, in
    particular a position with a single result, gets an interval of width 0:
    both sigmas are 0, and the average error is the size of that difference
    rounded to one decimal. *)
Theorem equal_differences_zero_width (all_results : list result) (r : result) :
  r ∈ all_results ->
  (forall r', r' ∈ all_results -> position r' = position r ->
              difference r' = difference r) ->
  exists ci,
    calculate_confidence_intervals all_results !! position r = Some ci
    /\ pct_68 ci = 0
    /\ pct_95 ci = 0
    /\ avg_error ci = round1 (Rabs (difference r)).
Proof.
  intros Hr Hsame.
  rewrite (calculate_confidence_intervals_lookup all_results r Hr).
  eexists. split; [reflexivity|]. cbn [pct_68 pct_95 avg_error].
  set (errors := errors_of all_results (position r)).
  assert (Hne : errors <> []).
  { intros Hnil.
    assert (Hin : difference r ∈ errors) by (apply errors_of_elem; eauto).
    rewrite Hnil in Hin. by apply elem_of_nil in Hin. }
  assert (Hall : Forall (fun x => x = difference r) errors).
  { apply Forall_forall. intros e He.
    apply errors_of_elem in He as (r' & Hr' & Hpos & <-). by apply Hsame. }
  rewrite (std_const errors (difference r) Hne Hall).
  rewrite Rmult_0_r, round1_zero_R.
  split; [reflexivity|]. split; [reflexivity|].
  f_equal. apply mean_const.
  - destruct errors; [contradiction | discriminate].
  - apply Forall_fmap. eapply Forall_impl; [exact Hall|].
    intros x ->. reflexivity.
Qed.

Lemma equal_differences_zero_width_witness :
  exists ci,
    calculate_confidence_intervals [te_result] !! "TE" = Some ci
    /\ pct_68 ci = 0 /\ pct_95 ci = 0.
Proof.
  destruct (equal_differences_zero_width [te_result] te_result)
    as (ci & Hci & H68 & H95 & _).
  - constructor.
  - intros r' Hr' _. apply list_elem_of_singleton in Hr'. by subst r'.
  - exists ci. auto.
Defined.

End ConfidenceTable.

(** ** The stored results *)

Section ActualResults.

Import accuracy_tracking.AccuracyTracker.

(** X27.  Because the actual points are the placeholder 0.0, every record
    [fetch_actual_results] returns has actual_points 0, and every projection
    of at least 1 point gets the accuracy 0 percent; there is one record for
    every saved projection. *)
Theorem placeholder_results_have_zero_accuracy (projections : list Saved.row)
    (weekly_data : list Weekly.row) (week : Z) :
  exists results,
    fetch_actual_results (Some projections) weekly_data week = Some results
    /\ length results = length projections
    /\ Forall2 (fun proj out =>
                  Outcome.projected_points out = Saved.projected_points proj
                  /\ Outcome.actual_points out = 0
                  /\ (1 <= Saved.projected_points proj ->
                      Outcome.accuracy_pct out == 0))
               projections results.
Proof.
  unfold fetch_actual_results. eexists. split; [reflexivity|].
  split; [apply length_map|].
  induction projections as [|proj rest IH]; simpl List.map; constructor;
    [|exact IH].
  unfold outcome_of, _calculate_actual_points.
  cbn [Outcome.projected_points Outcome.actual_points Outcome.accuracy_pct].
  split; [reflexivity|]. split; [reflexivity|].
  intros Hge. set (points := Saved.projected_points proj) in *.
  assert (Hmax : max_1 points = points).
  { unfold max_1, Py.gt. destruct (Qle_bool 1 points) eqn:E; [reflexivity|].
    exfalso. apply Qle_bool_iff in Hge. congruence. }
  rewrite Hmax.
  assert (Habs : Qabs (0 - points) == points).
  { rewrite Qabs_neg by lra. ring. }
  assert (Hpct : (1 - Qabs (0 - points) / points) * 100 == 0).
  { setoid_rewrite Habs. field. lra. }
  rewrite Hpct. apply round1_zero.
Qed.

End ActualResults.

(** ** The lineup of a roster *)

Section RosterLineup.

Import fantasy_projections.ProjectionAnalyzer.

Lemma vacant_true lineup slot : vacant lineup slot = true <-> lineup !! slot = None.
Proof. unfold vacant. destruct (lineup !! slot); split; congruence. Qed.

Lemma sort_insert_perm x l : sort_insert x l ≡ₚ x :: l.
Proof.
  induction l as [|y l IH]; simpl; [reflexivity|].
  destruct (Py.gt _ _); [|reflexivity].
  rewrite IH. apply perm_swap.
Qed.

Lemma sort_by_points_perm l : sort_by_points l ≡ₚ l.
Proof.
  induction l as [|x l IH]; simpl; [reflexivity|].
  rewrite sort_insert_perm. by f_equiv.
Qed.

Lemma points_not_gt a b : Py.gt a b = false -> a <= b.
Proof. unfold Py.gt. intros H. apply negb_false_iff, Qle_bool_iff in H. exact H. Qed.

Lemma points_gt a b : Py.gt a b = true -> b <= a.
Proof.
  unfold Py.gt. intros H. apply negb_true_iff in H.
  apply Qlt_le_weak, Qnot_le_lt. intros Hle. apply Qle_bool_iff in Hle. congruence.
Qed.

Lemma sort_insert_sorted x l :
  StronglySorted outscores l -> StronglySorted outscores (sort_insert x l).
Proof.
  induction 1 as [|y l Hsorted IH Hy]; simpl.
  - repeat constructor.
  - destruct (Py.gt _ _) eqn:E.
    + constructor; [exact IH|].
      rewrite sort_insert_perm. constructor; [|exact Hy].
      apply points_gt, E.
    + apply points_not_gt in E. constructor; [by constructor|].
      constructor; [exact E|].
      eapply Forall_impl; [exact Hy|]. intros b Hb. unfold outscores in *.
      by eapply Qle_trans.
Qed.

Lemma sort_by_points_sorted l : StronglySorted outscores (sort_by_points l).
Proof.
  induction l as [|x l IH]; simpl; [constructor|]. by apply sort_insert_sorted.
Qed.

(** One step of the starter loop either changes nothing or puts the player,
    whose name is not used, in a vacant slot that takes the position. *)
Lemma fill_starter_cases st x :
  fill_starter st x = st
  \/ exists slot,
       st.1 !! slot = None
       /\ (Roster.player x ∉ st.2)
       /\ slot_accepts slot (Roster.position x) = true
       /\ slot <> "FLEX"
       /\ fill_starter st x = assign slot x st.
Proof.
  unfold fill_starter. case_bool_decide as Hused; [by left|].
  assert (Hput : forall slot,
             vacant st.1 slot = true ->
             slot_accepts slot (Roster.position x) = true ->
             slot <> "FLEX" ->
             assign slot x st = st
             \/ exists slot',
                  st.1 !! slot' = None /\ (Roster.player x ∉ st.2)
                  /\ slot_accepts slot' (Roster.position x) = true
                  /\ slot' <> "FLEX" /\ assign slot x st = assign slot' x st).
  { intros slot Hv Ha Hne. right. exists slot.
    apply vacant_true in Hv. auto. }
  cbv zeta.
  destruct (String.eqb (Roster.position x) "QB") eqn:Eqb.
  { destruct (vacant st.1 "QB") eqn:V; cbn [andb].
    - apply Hput; [exact V | unfold slot_accepts; simpl; exact Eqb | discriminate].
    - apply String.eqb_eq in Eqb. rewrite Eqb. simpl. by left. }
  cbn [andb].
  destruct (String.eqb (Roster.position x) "RB") eqn:Erb.
  { destruct (vacant st.1 "RB1") eqn:V1;
      [apply Hput; [exact V1 | unfold slot_accepts; simpl; exact Erb | discriminate]|].
    destruct (vacant st.1 "RB2") eqn:V2;
      [apply Hput; [exact V2 | unfold slot_accepts; simpl; exact Erb | discriminate]|].
    by left. }
  destruct (String.eqb (Roster.position x) "WR") eqn:Ewr.
  { destruct (vacant st.1 "WR1") eqn:V1;
      [apply Hput; [exact V1 | unfold slot_accepts; simpl; exact Ewr | discriminate]|].
    destruct (vacant st.1 "WR2") eqn:V2;
      [apply Hput; [exact V2 | unfold slot_accepts; simpl; exact Ewr | discriminate]|].
    by left. }
  destruct (String.eqb (Roster.position x) "TE") eqn:Ete.
  { destruct (vacant st.1 "TE") eqn:V; cbn [andb].
    - apply Hput; [exact V | unfold slot_accepts; simpl; exact Ete | discriminate].
    - apply String.eqb_eq in Ete. rewrite Ete. simpl. by left. }
  cbn [andb].
  destruct (String.eqb (Roster.position x) "K") eqn:Ek.
  { destruct (vacant st.1 "K") eqn:V; cbn [andb].
    - apply Hput; [exact V | unfold slot_accepts; simpl; exact Ek | discriminate].
    - apply String.eqb_eq in Ek. rewrite Ek. simpl. by left. }
  cbn [andb].
  destruct (String.eqb (Roster.position x) "DST") eqn:Ed.
  { destruct (vacant st.1 "DST") eqn:V; cbn [andb].
    - apply Hput; [exact V | unfold slot_accepts; simpl; exact Ed | discriminate].
    - by left. }
  by left.
Qed.

Lemma lineup_ok_start : lineup_ok [] (∅, ∅).
Proof.
  split; [|split]; simpl.
  - intros slot p H. by rewrite lookup_empty in H.
  - intros name. split; [intros H; by apply not_elem_of_empty in H|].
    intros (slot & p & H & _). by rewrite lookup_empty in H.
  - intros slot1 slot2 p1 p2 H. by rewrite lookup_empty in H.
Qed.

Lemma lineup_ok_step processed st x :
  lineup_ok processed st -> lineup_ok (processed ++ [x]) (fill_starter st x).
Proof.
  intros (Hslots & Hused & Hdistinct).
  destruct (fill_starter_cases st x) as [->|(slot & Hvacant & Hfresh & Hacc & Hne & ->)].
  { split; [|split]; [|exact Hused|exact Hdistinct].
    intros slot p Hp. destruct (Hslots slot p Hp) as (Hin & Ha & Hf).
    split; [|auto]. apply elem_of_app. by left. }
  unfold assign. split; [|split]; cbn [fst snd].
  - intros slot' p Hp. destruct (decide (slot' = slot)) as [->|Hother].
    + rewrite lookup_insert_eq in Hp. injection Hp as <-.
      split; [|auto]. apply elem_of_app. right. by apply list_elem_of_singleton.
    + rewrite lookup_insert_ne in Hp by done.
      destruct (Hslots slot' p Hp) as (Hin & Ha & Hf).
      split; [|auto]. apply elem_of_app. by left.
  - intros name. rewrite elem_of_union, elem_of_singleton, Hused. split.
    + intros [->|(slot' & p & Hp & Hname)].
      * exists slot, x. by rewrite lookup_insert_eq.
      * exists slot', p. split; [|exact Hname].
        rewrite lookup_insert_ne; [exact Hp|]. intros <-. congruence.
    + intros (slot' & p & Hp & Hname).
      destruct (decide (slot' = slot)) as [->|Hother].
      * rewrite lookup_insert_eq in Hp. injection Hp as <-. by left.
      * rewrite lookup_insert_ne in Hp by done. right. eauto.
  - intros slot1 slot2 p1 p2 H1 H2 Hname.
    destruct (decide (slot1 = slot)) as [->|Hother1];
      destruct (decide (slot2 = slot)) as [->|Hother2]; [reflexivity| | |].
    + rewrite lookup_insert_eq in H1. injection H1 as <-.
      rewrite lookup_insert_ne in H2 by done.
      exfalso. apply Hfresh, Hused. eauto.
    + rewrite lookup_insert_eq in H2. injection H2 as <-.
      rewrite lookup_insert_ne in H1 by done.
      exfalso. apply Hfresh, Hused. eauto.
    + rewrite lookup_insert_ne in H1, H2 by done. by eapply Hdistinct.
Qed.

Lemma lineup_ok_loop l processed st :
  lineup_ok processed st -> lineup_ok (processed ++ l) (foldl fill_starter st l).
Proof.
  revert processed st. induction l as [|x l IH]; intros processed st Hok; simpl.
  - by rewrite app_nil_r.
  - rewrite cons_middle, app_assoc. apply IH. by apply lineup_ok_step.
Qed.

Lemma fill_starter_keeps st x slot p :
  st.1 !! slot = Some p -> (fill_starter st x).1 !! slot = Some p.
Proof.
  intros Hp.
  destruct (fill_starter_cases st x) as [->|(slot' & Hvacant & _ & _ & _ & ->)];
    [exact Hp|].
  unfold assign. cbn [fst]. rewrite lookup_insert_ne; [exact Hp|].
  intros ->. congruence.
Qed.

Lemma fill_loop_keeps l st slot p :
  st.1 !! slot = Some p -> (foldl fill_starter st l).1 !! slot = Some p.
Proof.
  revert st. induction l as [|x l IH]; intros st Hp; simpl; [exact Hp|].
  by apply IH, fill_starter_keeps.
Qed.

Lemma flex_eligible_true used x :
  flex_eligible used x = true
  <-> (Roster.player x ∉ used) /\ slot_accepts "FLEX" (Roster.position x) = true.
Proof.
  unfold flex_eligible. rewrite andb_true_iff, negb_true_iff, bool_decide_eq_false.
  reflexivity.
Qed.

(** The lineup after the starter loop, and how the FLEX loop completes it. *)
Lemma lineup_result my_players :
  exists st,
    lineup_ok (sort_by_points my_players) st
    /\ st = foldl fill_starter (∅, ∅) (sort_by_points my_players)
    /\ (forall slot, slot <> "FLEX" ->
                     get_optimal_lineup_from_roster my_players !! slot = st.1 !! slot)
    /\ get_optimal_lineup_from_roster my_players !! "FLEX"
       = List.find (flex_eligible st.2) (sort_by_points my_players).
Proof.
  exists (foldl fill_starter (∅, ∅) (sort_by_points my_players)).
  assert (Hok : lineup_ok (sort_by_points my_players)
                  (foldl fill_starter (∅, ∅) (sort_by_points my_players))).
  { apply (lineup_ok_loop _ [] (∅, ∅)), lineup_ok_start. }
  split; [exact Hok|]. split; [reflexivity|].
  unfold get_optimal_lineup_from_roster. cbv zeta.
  destruct (List.find _ _) as [p|] eqn:E.
  - split; [intros slot Hne; by rewrite lookup_insert_ne|].
    apply lookup_insert_eq.
  - split; [reflexivity|].
    destruct Hok as (Hslots & _ & _).
    destruct (_ !! "FLEX") as [p|] eqn:Ep; [|reflexivity].
    destruct (Hslots "FLEX" p Ep) as (_ & _ & Hne). contradiction.
Qed.

(** X28.  The lineup of a roster holds players of the roster, each in a
    slot that takes the player's position (the FLEX slot a back, a receiver or
    a tight end), and no name is in two slots. *)
Theorem lineup_is_well_formed (my_players : list Roster.row) :
  (forall slot p,
      get_optimal_lineup_from_roster my_players !! slot = Some p ->
      p ∈ my_players /\ slot_accepts slot (Roster.position p) = true)
  /\ (forall slot1 slot2 p1 p2,
        get_optimal_lineup_from_roster my_players !! slot1 = Some p1 ->
        get_optimal_lineup_from_roster my_players !! slot2 = Some p2 ->
        Roster.player p1 = Roster.player p2 ->
        slot1 = slot2).
Proof.
  destruct (lineup_result my_players)
    as (st & (Hslots & Hused & Hdistinct) & _ & Hstarters & Hflex).
  assert (Hflex_entry : forall p,
             get_optimal_lineup_from_roster my_players !! "FLEX" = Some p ->
             p ∈ my_players /\ (Roster.player p ∉ st.2)
             /\ slot_accepts "FLEX" (Roster.position p) = true).
  { intros p Hp. rewrite Hflex in Hp. apply find_some in Hp as [Hin Hel].
    apply flex_eligible_true in Hel as [Hfresh Hacc].
    split; [|auto]. rewrite <- (sort_by_points_perm my_players).
    by apply list_elem_of_In. }
  split.
  - intros slot p Hp. destruct (decide (slot = "FLEX")) as [->|Hne].
    + destruct (Hflex_entry p Hp) as (Hin & _ & Hacc). auto.
    + rewrite Hstarters in Hp by exact Hne.
      destruct (Hslots slot p Hp) as (Hin & Hacc & _).
      split; [|exact Hacc]. by rewrite <- (sort_by_points_perm my_players).
  - intros slot1 slot2 p1 p2 H1 H2 Hname.
    destruct (decide (slot1 = "FLEX")) as [->|Hne1];
      destruct (decide (slot2 = "FLEX")) as [->|Hne2]; [reflexivity| | |].
    + destruct (Hflex_entry p1 H1) as (_ & Hfresh & _).
      rewrite Hstarters in H2 by exact Hne2.
      exfalso. apply Hfresh, Hused. eauto.
    + destruct (Hflex_entry p2 H2) as (_ & Hfresh & _).
      rewrite Hstarters in H1 by exact Hne1.
      exfalso. apply Hfresh, Hused. eauto.
    + rewrite Hstarters in H1, H2 by assumption. by eapply Hdistinct.
Qed.

Lemma find_first_sorted (f : Roster.row -> bool) l p q :
  StronglySorted outscores l ->
  List.find f l = Some p -> q ∈ l -> f q = true -> outscores p q.
Proof.
  induction 1 as [|y l Hsorted IH Hy]; simpl; [discriminate|].
  intros Hfind Hq Hfq. destruct (f y) eqn:Efy.
  - injection Hfind as <-. apply elem_of_cons in Hq as [->|Hq].
    + unfold outscores. apply Qle_refl.
    + rewrite Forall_forall in Hy. by apply Hy.
  - apply elem_of_cons in Hq as [->|Hq]; [congruence|]. by apply IH.
Qed.

Lemma first_with (f : Roster.row -> bool) l q :
  q ∈ l -> f q = true ->
  exists pre p post,
    l = pre ++ p :: post /\ f p = true /\ Forall (fun x => f x = false) pre.
Proof.
  induction l as [|y l IH]; intros Hq Hfq; [by apply elem_of_nil in Hq|].
  destruct (f y) eqn:Efy.
  - exists [], y, l. auto.
  - apply elem_of_cons in Hq as [->|Hq]; [congruence|].
    destruct (IH Hq Hfq) as (pre & p & post & -> & Hp & Hpre).
    exists (y :: pre), p, post. split; [reflexivity|]. split; [exact Hp|].
    by constructor.
Qed.

Lemma first_slot_takes pos slot pos' :
  first_slot pos = Some slot ->
  slot <> "FLEX" /\ (slot_accepts slot pos' = true -> pos' = pos).
Proof.
  unfold first_slot.
  repeat match goal with
         | |- context [String.eqb pos ?s] =>
             destruct (String.eqb pos s) eqn:?
         end;
    intros [= <-]; (split; [discriminate|]);
    unfold slot_accepts; simpl; intros Hacc;
    apply String.eqb_eq in Hacc;
    match goal with H : String.eqb pos _ = true |- _ => apply String.eqb_eq in H end;
    congruence.
Qed.

Lemma fill_first st x slot :
  first_slot (Roster.position x) = Some slot ->
  st.1 !! slot = None -> Roster.player x ∉ st.2 ->
  (fill_starter st x).1 !! slot = Some x.
Proof.
  intros Hfirst Hvacant Hfresh. apply vacant_true in Hvacant.
  unfold fill_starter. rewrite bool_decide_eq_false_2 by exact Hfresh. cbv zeta.
  unfold first_slot in Hfirst.
  repeat match type of Hfirst with
         | context [String.eqb (Roster.position x) ?s] =>
             destruct (String.eqb (Roster.position x) s);
             [injection Hfirst as <-; rewrite Hvacant; cbn [andb assign fst];
              apply lookup_insert_eq|]
         end.
  discriminate.
Qed.

(** X29.  The best player of a position is a starter: when the names of
    the roster are distinct, the first slot of a position that occurs in the
    roster (QB, RB1, WR1, TE, K, DST) holds a player of that position who
    counts at least as many points as every player of that position. *)
Theorem starters_are_best (my_players : list Roster.row) (q : Roster.row)
    (slot : string) :
  NoDup (List.map Roster.player my_players) ->
  q ∈ my_players ->
  first_slot (Roster.position q) = Some slot ->
  exists p,
    get_optimal_lineup_from_roster my_players !! slot = Some p
    /\ Roster.position p = Roster.position q
    /\ Roster.projected_points q <= Roster.projected_points p.
Proof.
  intros Hnames Hq Hfirst.
  destruct (lineup_result my_players) as (st & _ & Hst & Hstarters & _).
  destruct (first_slot_takes _ _ (Roster.position q) Hfirst) as [Hne _].
  rewrite (Hstarters slot Hne), Hst. clear st Hst Hstarters.
  pose proof (sort_by_points_sorted my_players) as Hsorted.
  rewrite <- (sort_by_points_perm my_players) in Hnames, Hq.
  destruct (first_with (fun x => String.eqb (Roster.position x) (Roster.position q))
              _ q Hq (String.eqb_refl _))
    as (pre & p & post & Hsplit & Hp & Hpre).
  rewrite Hsplit in *. apply String.eqb_eq in Hp.
  exists p. split; [|split; [exact Hp|]].
  - rewrite foldl_app. cbn [foldl]. apply fill_loop_keeps.
    destruct (lineup_ok_loop pre [] (∅, ∅) lineup_ok_start)
      as (Hslots & Hused & _).
    rewrite app_nil_l in Hslots.
    apply fill_first.
    + by rewrite Hp.
    + destruct (_ !! slot) as [r|] eqn:Er; [|reflexivity]. exfalso.
      destruct (Hslots slot r Er) as (Hr & Hacc & _).
      destruct (first_slot_takes _ _ (Roster.position r) Hfirst) as [_ Hpos].
      rewrite Forall_forall in Hpre. specialize (Hpre r Hr).
      rewrite (Hpos Hacc), String.eqb_refl in Hpre. discriminate.
    + intros Hin. apply Hused in Hin as (slot' & r & Hr & Hname).
      destruct (Hslots slot' r Hr) as (Hrpre & _).
      rewrite List.map_app in Hnames. apply NoDup_app in Hnames as (_ & Hdisj & _).
      apply (Hdisj (Roster.player r)).
      * apply list_elem_of_fmap. eauto.
      * rewrite Hname. simpl. apply elem_of_cons. by left.
  - apply StronglySorted_app_1_r in Hsorted.
    apply StronglySorted_inv in Hsorted as [_ Hpost].
    apply elem_of_app in Hq as [Hq|Hq].
    + rewrite Forall_forall in Hpre. specialize (Hpre q Hq).
      rewrite String.eqb_refl in Hpre. discriminate.
    + apply elem_of_cons in Hq as [->|Hq]; [apply Qle_refl|].
      rewrite Forall_forall in Hpost. by apply Hpost.
Qed.

Lemma starters_are_best_witness :
  exists p,
    get_optimal_lineup_from_roster my_roster !! "QB" = Some p
    /\ Roster.position p = "QB"
    /\ 17.1 <= Roster.projected_points p.
Proof.
  apply (starters_are_best my_roster bo_nix "QB").
  - apply (bool_decide_unpack _). vm_compute. reflexivity.
  - apply list_elem_of_In. simpl. auto.
  - reflexivity.
Defined.

(** X30.  The FLEX slot holds the best remaining back, receiver or tight
    end: a player of such a position who is in no other slot counts at most as
    many points as the player in the FLEX slot, which is then filled. *)
Theorem flex_is_best_remaining (my_players : list Roster.row) (q : Roster.row) :
  q ∈ my_players ->
  slot_accepts "FLEX" (Roster.position q) = true ->
  (forall slot p,
      slot <> "FLEX" ->
      get_optimal_lineup_from_roster my_players !! slot = Some p ->
      Roster.player p <> Roster.player q) ->
  exists p,
    get_optimal_lineup_from_roster my_players !! "FLEX" = Some p
    /\ Roster.projected_points q <= Roster.projected_points p.
Proof.
  intros Hq Hpos Hfree.
  destruct (lineup_result my_players)
    as (st & (Hslots & Hused & _) & _ & Hstarters & Hflex).
  rewrite Hflex.
  rewrite <- (sort_by_points_perm my_players) in Hq.
  assert (Heligible : flex_eligible st.2 q = true).
  { apply flex_eligible_true. split; [|exact Hpos].
    intros Hin. apply Hused in Hin as (slot & p & Hp & Hname).
    destruct (Hslots slot p Hp) as (_ & _ & Hne).
    apply (Hfree slot p Hne); [|exact Hname].
    by rewrite Hstarters. }
  destruct (List.find _ _) as [p|] eqn:E.
  - exists p. split; [reflexivity|].
    apply (find_first_sorted _ _ p q (sort_by_points_sorted my_players) E Hq
             Heligible).
  - exfalso. pose proof (find_none _ _ E q) as Hnone.
    rewrite Hnone in Heligible; [discriminate|]. by apply list_elem_of_In.
Qed.

Lemma flex_is_best_remaining_witness :
  exists p,
    get_optimal_lineup_from_roster my_roster !! "FLEX" = Some p
    /\ 8.8 <= Roster.projected_points p.
Proof.
  apply (flex_is_best_remaining my_roster zach_ertz).
  - apply list_elem_of_In. simpl. tauto.
  - reflexivity.
  - assert (H : map_Forall
                  (fun slot p => slot <> "FLEX"
                                 -> Roster.player p <> Roster.player zach_ertz)
                  (get_optimal_lineup_from_roster my_roster))
      by (apply (bool_decide_unpack _); vm_compute; reflexivity).
    intros slot p Hne Hp. exact (H slot p Hp Hne).
Defined.

End RosterLineup.
